(** * agentic_parser: template store, conflict detection and learning pipeline

    A shallow embedding of the Python sources

      - [knowledge/template_store.py]  (TemplateRecord, TemplateLibrary)
      - [knowledge/metrics.py]         (PipelineCounters, MetricsStore)
      - [interface/interaction_service.py] (InteractionService.enqueue)
      - [agents/update_agent.py]       (UpdateAgent.resolve_conflict)
      - [pipeline/learning.py]         (LearningEngine)
      - [pipeline/matching.py]         (match_all)
      - [pipeline/orchestrator.py]     (the two phases of [process])

    Python objects that are mutated in place (the library, the example
    cache, the counters, the task queue) are components of an explicit
    [World]; a Python exception is the [Raise] outcome of a computation and
    keeps the state reached so far.  Python's [re] module and the LLM-backed
    agents are not part of the repository logic: the regex engine is an
    interface ([RegexEngine]) and the agents are oracles ([Collaborators])
    whose answers may differ from one call to the next. *)

From Stdlib Require Import ZArith NArith Ascii String List Bool Lia.
From Stdlib Require Import DecimalString DecimalN DecimalFacts.
From stdpp Require Import base option list strings gmap fin_maps.

Local Open Scope string_scope.
Local Open Scope Z_scope.
Local Set Warnings "-register-all".

(** ** Python strings *)

Module PyStr.

(** [str.isspace] on the code points below 256. *)
Definition is_space (c : ascii) : bool :=
  let n := nat_of_ascii c in
  ((9 <=? n)%nat && (n <=? 13)%nat) || ((28 <=? n)%nat && (n <=? 32)%nat)
  || (n =? 133)%nat || (n =? 160)%nat.

Fixpoint lstrip (s : string) : string :=
  match s with
  | EmptyString => EmptyString
  | String c r => if is_space c then lstrip r else s
  end.

Fixpoint rstrip (s : string) : string :=
  match s with
  | EmptyString => EmptyString
  | String c r =>
      match rstrip r with
      | EmptyString => if is_space c then EmptyString else String c EmptyString
      | r' => String c r'
      end
  end.

(** [s.strip()] *)
Definition strip (s : string) : string := rstrip (lstrip s).

(** Truthiness of a [str]: the empty string is falsy. *)
Definition truthy (s : string) : bool :=
  match s with EmptyString => false | _ => true end.

Definition is_digit (c : ascii) : bool :=
  let n := nat_of_ascii c in (48 <=? n)%nat && (n <=? 57)%nat.

Fixpoint all_digits (s : string) : bool :=
  match s with
  | EmptyString => true
  | String c r => is_digit c && all_digits r
  end.

Definition dash : ascii := "-"%char.
Definition underscore : ascii := "_"%char.
Definition plus : ascii := "+"%char.

(** The text after the last ["-"], [None] when there is no ["-"]. *)
Fixpoint after_last_dash (s : string) : option string :=
  match s with
  | EmptyString => None
  | String c r =>
      match after_last_dash r with
      | Some t => Some t
      | None => if Ascii.eqb c dash then Some r else None
      end
  end.

(** [s.rsplit("-", 1)[-1]] *)
Definition rsplit_last (s : string) : string :=
  match after_last_dash s with
  | Some t => t
  | None => s
  end.

(** [str(n)] for a non-negative integer. *)
Definition str_N (n : N) : string := NilEmpty.string_of_uint (N.to_uint n).

(** [str(z)] *)
Definition str_Z (z : Z) : string :=
  if z <? 0 then String dash (str_N (Z.to_N (- z))) else str_N (Z.to_N z).

Fixpoint zeros (k : nat) (s : string) : string :=
  match k with
  | O => s
  | S k' => String "0"%char (zeros k' s)
  end.

(** [digits.zfill(width)] for a string of digits. *)
Definition zfill (width : nat) (s : string) : string :=
  zeros (width - String.length s) s.

(** [sys.get_int_max_str_digits()] at its default: the number of
    decimal digits beyond which the interpreter refuses to convert between
    [int] and [str] (in either direction) with a [ValueError]. *)
Definition int_max_str_digits : nat := 4300.

(** The text of [f"{z:04d}"] when the conversion is allowed: sign first,
    then zeros up to a total width of four; a number with more digits is
    printed in full. *)
Definition format_04d (z : Z) : string :=
  if z <? 0 then String dash (zfill 3 (str_N (Z.to_N (- z))))
  else zfill 4 (str_N (Z.to_N z)).

(** [f"{z:04d}"]: [None] stands for the [ValueError] that the conversion
    raises for a number with more than [int_max_str_digits] digits. *)
Definition fstring_04d (z : Z) : option string :=
  if (int_max_str_digits <? String.length (str_N (Z.to_N (Z.abs z))))%nat
  then None
  else Some (format_04d z).

(** Underscores of an integer literal: single, and between digits. *)
Fixpoint drop_underscores (after_digit : bool) (s : string) : option string :=
  match s with
  | EmptyString => if after_digit then Some EmptyString else None
  | String c r =>
      if Ascii.eqb c underscore
      then (if after_digit then drop_underscores false r else None)
      else String c <$> drop_underscores true r
  end.

(** The digits of an integer literal, underscores apart: refused when
    there are more than [int_max_str_digits] of them. *)
Definition parse_digits (s : string) : option N :=
  d ← drop_underscores false s;
  if (int_max_str_digits <? String.length d)%nat then None
  else u ← NilEmpty.uint_of_string d; Some (N.of_uint u).

(** The whitespace that [int()] skips at both ends of its argument on
    the code points below 256: tab to carriage return and the space, and
    the two blanks above 127; the separators 28 to 31, which
    [str.isspace] accepts, are not skipped. *)
Definition int_space (c : ascii) : bool :=
  let n := nat_of_ascii c in
  ((9 <=? n)%nat && (n <=? 13)%nat) || (n =? 32)%nat || (n =? 133)%nat || (n =? 160)%nat.

Fixpoint lstrip_by (p : ascii -> bool) (s : string) : string :=
  match s with
  | EmptyString => EmptyString
  | String c r => if p c then lstrip_by p r else s
  end.

Fixpoint rstrip_by (p : ascii -> bool) (s : string) : string :=
  match s with
  | EmptyString => EmptyString
  | String c r =>
      match rstrip_by p r with
      | EmptyString => if p c then EmptyString else String c EmptyString
      | r' => String c r'
      end
  end.

(** [int(s)]; [None] stands for [ValueError]. *)
Definition py_int (s : string) : option Z :=
  match rstrip_by int_space (lstrip_by int_space s) with
  | String c r =>
      if Ascii.eqb c dash then (fun n => - Z.of_N n) <$> parse_digits r
      else if Ascii.eqb c plus then Z.of_N <$> parse_digits r
      else Z.of_N <$> parse_digits (String c r)
  | EmptyString => None
  end.

(** ["; ".join(parts)] and friends. *)
Fixpoint join (sep : string) (parts : list string) : string :=
  match parts with
  | [] => EmptyString
  | [p] => p
  | p :: rest => p ++ sep ++ join sep rest
  end.

End PyStr.

(** ** Insertion-ordered dictionaries

    [TemplateLibrary.templates] is iterated in insertion order by [match]
    and [_detect_conflicts], so it is an association list with the update
    rule of a Python [dict]: assigning to a present key keeps its position,
    assigning to a new key appends. *)

Module ODict.
Section Ops.
Context {V : Type}.

Fixpoint get (k : string) (d : list (string * V)) : option V :=
  match d with
  | [] => None
  | (k', v) :: d' => if String.eqb k k' then Some v else get k d'
  end.

Fixpoint set (k : string) (v : V) (d : list (string * V)) : list (string * V) :=
  match d with
  | [] => [(k, v)]
  | (k', v') :: d' =>
      if String.eqb k k' then (k, v) :: d' else (k', v') :: set k v d'
  end.

Fixpoint alter (f : V -> V) (k : string) (d : list (string * V)) : list (string * V) :=
  match d with
  | [] => []
  | (k', v') :: d' =>
      if String.eqb k k' then (k', f v') :: d' else (k', v') :: alter f k d'
  end.

Definition keys (d : list (string * V)) : list string := map fst d.
Definition values (d : list (string * V)) : list V := map snd d.

(** A Python dict has each key once. *)
Definition wf (d : list (string * V)) : Prop := NoDup (keys d).
End Ops.
End ODict.

(** ** The regex engine

    [re.compile] either raises [re.error] or gives a pattern object;
    [Pattern.fullmatch] gives a match object (always truthy) with its
    [groupdict()], or [None]. *)

Definition groupdict := list (string * option string).

Class RegexEngine := {
  Pattern : Type;
  re_compile : string -> option Pattern;
  re_fullmatch : Pattern -> string -> option groupdict;
}.

(** ** Exceptions and results *)

(** The exceptions that matter to the control flow: [AgentError],
    [re.error] with the pattern, [TypeError], and any other class
    ([ValueError], [AttributeError], ...) under its name. *)
Inductive exn :=
| AgentError (msg : string)
| ReError (pattern : string)
| TypeError (msg : string)
| OtherError (msg : string).

Inductive result (A : Type) :=
| Ok (a : A)
| Raise (e : exn).
Arguments Ok {A} a.
Arguments Raise {A} e.

(** [str(exc)] *)
Definition str_exn (e : exn) : string :=
  match e with
  | AgentError m => m
  | ReError p => p
  | TypeError m => m
  | OtherError m => m
  end.

(** ** utils/types.py *)

Record ProcessedLogLine := {
  raw : string;
  transformed : string;
}.

(** ** knowledge/template_store.py *)

Record TemplateRecord := {
  template_id : string;
  source_id : string;
  regex : string;
  notes : string;
  is_active : bool;
}.

Definition with_template_id (tid : string) (r : TemplateRecord) : TemplateRecord :=
  {| template_id := tid; source_id := source_id r; regex := regex r;
     notes := notes r; is_active := is_active r |}.

Definition with_regex (rx : string) (r : TemplateRecord) : TemplateRecord :=
  {| template_id := template_id r; source_id := source_id r; regex := rx;
     notes := notes r; is_active := is_active r |}.

Definition with_is_active (b : bool) (r : TemplateRecord) : TemplateRecord :=
  {| template_id := template_id r; source_id := source_id r; regex := regex r;
     notes := notes r; is_active := b |}.

Section Library.
Context `{RegexEngine}.

Record TemplateLibrary := {
  lib_source_id : string;
  templates : list (string * TemplateRecord);
  _compiled : gmap string Pattern;
  _sequence : Z;
}.

Definition set_templates (t : list (string * TemplateRecord)) (lib : TemplateLibrary) :=
  {| lib_source_id := lib_source_id lib; templates := t;
     _compiled := _compiled lib; _sequence := _sequence lib |}.

Definition set_compiled (c : gmap string Pattern) (lib : TemplateLibrary) :=
  {| lib_source_id := lib_source_id lib; templates := templates lib;
     _compiled := c; _sequence := _sequence lib |}.

Definition set_sequence (n : Z) (lib : TemplateLibrary) :=
  {| lib_source_id := lib_source_id lib; templates := templates lib;
     _compiled := _compiled lib; _sequence := n |}.

(** [TemplateLibrary.__init__] when the file does not exist. *)
Definition new_library (sid : string) : TemplateLibrary :=
  {| lib_source_id := sid; templates := []; _compiled := ∅; _sequence := 1 |}.

(** [TemplateLibrary.allocate_id].  The id is formatted before the
    counter moves, so the [ValueError] of a counter that is too long to
    be converted leaves the library as it was. *)
Definition allocate_id (lib : TemplateLibrary) : TemplateLibrary * result string :=
  match PyStr.fstring_04d (_sequence lib) with
  | Some digits =>
      (set_sequence (_sequence lib + 1) lib, Ok (lib_source_id lib ++ "-" ++ digits))
  | None => (lib, Raise (OtherError "ValueError"))
  end.

(** [TemplateLibrary.add].  The record enters [templates] before its
    pattern is compiled, so a [re.error] leaves it there. *)
Definition add (record : TemplateRecord) (lib : TemplateLibrary)
  : TemplateLibrary * result TemplateRecord :=
  let named :=
    if negb (PyStr.truthy (template_id record))
    then match allocate_id lib with
         | (l, Ok tid) => (l, Ok (with_template_id tid record))
         | (l, Raise e) => (l, Raise e)
         end
    else (lib, Ok record) in
  match named with
  | (lib1, Raise e) => (lib1, Raise e)
  | (lib1, Ok record1) =>
      let lib2 :=
        set_templates (ODict.set (template_id record1) record1 (templates lib1)) lib1 in
      match re_compile (regex record1) with
      | None => (lib2, Raise (ReError (regex record1)))
      | Some p =>
          (set_compiled (<[template_id record1 := p]> (_compiled lib2)) lib2, Ok record1)
      end
  end.

(** [TemplateLibrary.deactivate] *)
Definition deactivate (tid : string) (lib : TemplateLibrary) : TemplateLibrary :=
  match ODict.get tid (templates lib) with
  | Some _ => set_templates (ODict.alter (with_is_active false) tid (templates lib)) lib
  | None => lib
  end.

(** The loop of [TemplateLibrary.match]; the cache of compiled patterns
    is filled on the way for an entry that has none. *)
Fixpoint match_loop (items : list (string * TemplateRecord))
    (compiled : gmap string Pattern) (text : string)
  : gmap string Pattern * result (option (TemplateRecord * groupdict)) :=
  match items with
  | [] => (compiled, Ok None)
  | (tid, record) :: rest =>
      if negb (is_active record) then match_loop rest compiled text
      else
        match compiled !! tid with
        | Some pattern =>
            match re_fullmatch pattern text with
            | Some m => (compiled, Ok (Some (record, m)))
            | None => match_loop rest compiled text
            end
        | None =>
            match re_compile (regex record) with
            | None => (compiled, Raise (ReError (regex record)))
            | Some pattern =>
                let compiled' := <[tid := pattern]> compiled in
                match re_fullmatch pattern text with
                | Some m => (compiled', Ok (Some (record, m)))
                | None => match_loop rest compiled' text
                end
            end
        end
  end.

(** [TemplateLibrary.match] *)
Definition match_ (processed : ProcessedLogLine) (lib : TemplateLibrary)
  : TemplateLibrary * result (option (TemplateRecord * groupdict)) :=
  let '(c, r) := match_loop (templates lib) (_compiled lib) (transformed processed) in
  (set_compiled c lib, r).

(** [TemplateLibrary._load] over the decoded ["templates"] array. *)
Fixpoint _load (payload : list TemplateRecord) (lib : TemplateLibrary)
  : TemplateLibrary * result unit :=
  match payload with
  | [] => (lib, Ok tt)
  | record :: rest =>
      let lib1 := set_templates (ODict.set (template_id record) record (templates lib)) lib in
      match re_compile (regex record) with
      | None => (lib1, Raise (ReError (regex record)))
      | Some p =>
          let lib2 := set_compiled (<[template_id record := p]> (_compiled lib1)) lib1 in
          match PyStr.py_int (PyStr.rsplit_last (template_id record)) with
          | None => _load rest lib2
          | Some suffix =>
              _load rest (set_sequence (Z.max (_sequence lib2) (suffix + 1)) lib2)
          end
      end
  end.

(** [TemplateLibrary.__init__] when the file exists with that content. *)
Definition load (sid : string) (payload : list TemplateRecord)
  : TemplateLibrary * result unit :=
  _load payload (new_library sid).

(** What [save] writes: every record, active or not, in order. *)
Definition save (lib : TemplateLibrary) : list TemplateRecord :=
  ODict.values (templates lib).

End Library.

(** ** Decoded JSON

    What [json.loads] gives for a collaborator's reply (numbers are
    integers here). *)

Inductive json :=
| JNull
| JBool (b : bool)
| JNum (z : Z)
| JStr (s : string)
| JArr (items : list json)
| JObj (fields : list (string * json)).

Module Json.

(** Truthiness of a decoded value, as in [x or default]. *)
Definition truthy (v : json) : bool :=
  match v with
  | JNull => false
  | JBool b => b
  | JNum z => negb (z =? 0)
  | JStr s => PyStr.truthy s
  | JArr l => match l with [] => false | _ => true end
  | JObj l => match l with [] => false | _ => true end
  end.

(** [isinstance(v, str)] for the result of [dict.get]. *)
Definition is_str (v : option json) : bool :=
  match v with Some (JStr _) => true | _ => false end.

Definition str_of (v : option json) : string :=
  match v with Some (JStr s) => s | _ => EmptyString end.

(** [v == text] for a string literal [text]. *)
Definition eq_str (v : option json) (text : string) : bool :=
  match v with Some (JStr s) => String.eqb s text | _ => false end.

(** A value used as a key of a dict whose keys are strings: a list or
    a dict is unhashable, any other non-string is simply not a key. *)
Definition as_key (v : json) : result (option string) :=
  match v with
  | JStr s => Ok (Some s)
  | JArr _ | JObj _ => Raise (TypeError "unhashable type")
  | _ => Ok None
  end.

(** The parts as [str]s, when every part is one. *)
Fixpoint strs (parts : list json) : option (list string) :=
  match parts with
  | [] => Some []
  | JStr s :: rest => cons s <$> strs rest
  | _ :: _ => None
  end.

(** [sep.join(parts)] on a decoded list: [TypeError] when a part is not
    a [str]. *)
Definition join (sep : string) (parts : list json) : result string :=
  match strs parts with
  | Some texts => Ok (PyStr.join sep texts)
  | None => Raise (TypeError "sequence item: expected str instance")
  end.

End Json.

(** [TemplateRecord.to_dict] *)
Definition to_dict (r : TemplateRecord) : json :=
  JObj [("template_id", JStr (template_id r)); ("source_id", JStr (source_id r));
        ("regex", JStr (regex r)); ("notes", JStr (notes r));
        ("is_active", JBool (is_active r))].

(** ** knowledge/metrics.py *)

Record PipelineCounters := {
  processed_lines : Z;
  matched_lines : Z;
  learned_templates : Z;
  escalations : Z;
}.

Definition new_counters : PipelineCounters :=
  {| processed_lines := 0; matched_lines := 0; learned_templates := 0; escalations := 0 |}.

(** [MetricsStore.increment(key=delta)]: a key that is not an attribute
    of the counters is ignored. *)
Definition increment (key : string) (delta : Z) (c : PipelineCounters) : PipelineCounters :=
  if String.eqb key "processed_lines" then
    {| processed_lines := processed_lines c + delta; matched_lines := matched_lines c;
       learned_templates := learned_templates c; escalations := escalations c |}
  else if String.eqb key "matched_lines" then
    {| processed_lines := processed_lines c; matched_lines := matched_lines c + delta;
       learned_templates := learned_templates c; escalations := escalations c |}
  else if String.eqb key "learned_templates" then
    {| processed_lines := processed_lines c; matched_lines := matched_lines c;
       learned_templates := learned_templates c + delta; escalations := escalations c |}
  else if String.eqb key "escalations" then
    {| processed_lines := processed_lines c; matched_lines := matched_lines c;
       learned_templates := learned_templates c; escalations := escalations c + delta |}
  else c.

(** ** interface/interaction_service.py *)

Module InteractionTask.
Record t := {
  task_id : string;
  task_type : string;
  description : string;
  payload : json;
  status : string;
  history : list string;
}.
End InteractionTask.

Record InteractionService := {
  _queue : list InteractionTask.t;
  _counter : Z;
}.

Definition new_interaction_service : InteractionService :=
  {| _queue := []; _counter := 1 |}.

(** [InteractionService.enqueue] *)
Definition enqueue (task_type description : string) (payload : json)
    (svc : InteractionService) : InteractionService * InteractionTask.t :=
  let task := {| InteractionTask.task_id := "task-" ++ PyStr.str_Z (_counter svc);
                 InteractionTask.task_type := task_type;
                 InteractionTask.description := description;
                 InteractionTask.payload := payload;
                 InteractionTask.status := "pending";
                 InteractionTask.history := [] |} in
  ({| _queue := _queue svc ++ [task]; _counter := _counter svc + 1 |}, task).

(** ** The agents' data *)

Module TemplateProposal.
Record t := { regex : string; reasoning : string }.
End TemplateProposal.

(** What [ValidationAgent.review] returns.  The verdict is [bool(...)]
    of the reply's field; [issues] and [suggestions] are lists whose
    elements are kept as decoded, of whatever type. *)
Module ValidationReport.
Record t := {
  approved : bool;
  issues : list json;
  suggestions : list json;
  reasoning : json;
}.
End ValidationReport.

Module LearningOutcome.
Record t := {
  status : string;
  template_id : option string;
  detail : json;
}.
End LearningOutcome.

(** A request sent to a collaborator. *)
Inductive Call :=
| CallDerive (sample : ProcessedLogLine) (context : string)
| CallReview (regex : string) (sample : ProcessedLogLine) (context : string)
| CallRefine (regex : string) (issues suggestions : list json)
    (sample : ProcessedLogLine) (context : string)
| CallResolve (candidate : TemplateRecord) (sample : ProcessedLogLine)
    (context : string) (conflicts : list (TemplateRecord * string)).

(** The collaborators.  The first argument is the number of requests
    already made in the run, so that the same request may be answered
    differently the next time; [Raise] is an exception escaping the agent
    ([AgentError] after its own JSON retry, or anything else). *)
Record Collaborators := {
  llm_derive : nat -> ProcessedLogLine -> string -> result TemplateProposal.t;
  llm_review : nat -> string -> ProcessedLogLine -> string -> result ValidationReport.t;
  llm_refine : nat -> string -> list json -> list json -> ProcessedLogLine ->
               string -> result string;
  llm_resolve : nat -> TemplateRecord -> ProcessedLogLine -> string ->
                list (TemplateRecord * string) -> result (list (string * json));
}.

(** ** pipeline/matching.py *)

Module MatchResult.
Record t := {
  line_number : Z;
  template_id : option string;
  variables : groupdict;
  raw : string;
}.
End MatchResult.

(** ** The state of a run and its computations *)

Section Engine.
Context `{RegexEngine}.

(** The collaborators of the run. *)
Variable agents : Collaborators.

(** Python's [str] on a decoded JSON value. *)
Variable py_str : json -> string.

Record World := {
  library : TemplateLibrary;
  examples : gmap string ProcessedLogLine;
  metrics : PipelineCounters;
  interaction_service : InteractionService;
  calls : list Call;
}.

Definition set_library (l : TemplateLibrary) (w : World) : World :=
  {| library := l; examples := examples w; metrics := metrics w;
     interaction_service := interaction_service w; calls := calls w |}.

Definition set_examples (e : gmap string ProcessedLogLine) (w : World) : World :=
  {| library := library w; examples := e; metrics := metrics w;
     interaction_service := interaction_service w; calls := calls w |}.

Definition set_metrics (m : PipelineCounters) (w : World) : World :=
  {| library := library w; examples := examples w; metrics := m;
     interaction_service := interaction_service w; calls := calls w |}.

Definition set_interaction_service (s : InteractionService) (w : World) : World :=
  {| library := library w; examples := examples w; metrics := metrics w;
     interaction_service := s; calls := calls w |}.

Definition set_calls (c : list Call) (w : World) : World :=
  {| library := library w; examples := examples w; metrics := metrics w;
     interaction_service := interaction_service w; calls := c |}.

(** A computation may change the world and ends with a value or an
    exception. *)
Definition M (A : Type) : Type := World -> World * result A.

Definition ret {A} (a : A) : M A := fun w => (w, Ok a).

Definition raise {A} (e : exn) : M A := fun w => (w, Raise e).

Definition bind {A B} (m : M A) (k : A -> M B) : M B :=
  fun w =>
    match m w with
    | (w', Ok a) => k a w'
    | (w', Raise e) => (w', Raise e)
    end.

(** [try: x = m  except AgentError as exc: handler(exc)] followed by the
    rest of the function, [k x]; any other exception passes through. *)
Definition try_except_AgentError {A B} (m : M A) (handler : exn -> M B)
    (k : A -> M B) : M B :=
  fun w =>
    match m w with
    | (w', Ok a) => k a w'
    | (w', Raise (AgentError msg)) => handler (AgentError msg) w'
    | (w', Raise e) => (w', Raise e)
    end.

Definition gets {A} (f : World -> A) : M A := fun w => (w, Ok (f w)).

Definition modify (f : World -> World) : M unit := fun w => (f w, Ok tt).

Definition lift_result {A} (r : result A) : M A := fun w => (w, r).

(** Run a method of the library on the library of the world. *)
Definition on_library {A} (f : TemplateLibrary -> TemplateLibrary * result A) : M A :=
  fun w => let '(l, r) := f (library w) in (set_library l w, r).

Local Notation "'let*' x ':=' m 'in' k" := (bind m (fun x => k))
  (at level 10, x pattern, m at level 100, k at level 200).

(** [self.metrics.increment(key=delta)] *)
Definition metrics_increment (key : string) (delta : Z) : M unit :=
  modify (fun w => set_metrics (increment key delta (metrics w)) w).

(** [interaction_service.enqueue(...)] *)
Definition service_enqueue (task_type description : string) (payload : json) : M unit :=
  modify (fun w =>
    set_interaction_service (fst (enqueue task_type description payload (interaction_service w))) w).

(** [examples[key] = line] *)
Definition examples_setitem (key : string) (line : ProcessedLogLine) : M unit :=
  modify (fun w => set_examples (<[key := line]> (examples w)) w).

(** [examples.setdefault(key, line)] *)
Definition examples_setdefault (key : string) (line : ProcessedLogLine) : M unit :=
  modify (fun w =>
    match examples w !! key with
    | Some _ => w
    | None => set_examples (<[key := line]> (examples w)) w
    end).

(** [examples.pop(key, None)] *)
Definition examples_pop (key : string) : M unit :=
  modify (fun w => set_examples (delete key (examples w)) w).

(** A request to a collaborator: answered by the oracle and recorded. *)
Definition request {A} (c : Call) (answer : nat -> result A) : M A :=
  fun w => (set_calls (calls w ++ [c]) w, answer (length (calls w))).

(** [TemplateAgent.derive]: refuses samples without content before any
    request is made. *)
Definition derive (samples : list ProcessedLogLine) (context : string)
  : M TemplateProposal.t :=
  match List.filter (fun s => PyStr.truthy (transformed s)) samples with
  | [] => raise (AgentError "no content to derive template from")
  | primary :: _ =>
      request (CallDerive primary context)
              (fun n => llm_derive agents n primary context)
  end.

(** [ValidationAgent.review] *)
Definition review (rx : string) (sample : ProcessedLogLine) (context : string)
  : M ValidationReport.t :=
  request (CallReview rx sample context) (fun n => llm_review agents n rx sample context).

(** [RepairAgent.refine] *)
Definition refine (rx : string) (issues suggestions : list json)
    (sample : ProcessedLogLine) (context : string) : M string :=
  request (CallRefine rx issues suggestions sample context)
          (fun n => llm_refine agents n rx issues suggestions sample context).

(** [UpdateAgent.resolve_conflict]: on [AgentError] it files a task of
    its own and re-raises. *)
Definition resolve_conflict (candidate : TemplateRecord) (sample : ProcessedLogLine)
    (context : string) (conflicts : list (TemplateRecord * string))
  : M (list (string * json)) :=
  try_except_AgentError
    (request (CallResolve candidate sample context conflicts)
             (fun n => llm_resolve agents n candidate sample context conflicts))
    (fun exc =>
       let* _ := service_enqueue "template_conflict"
                   "Conflict resolution failed (invalid JSON)"
                   (JObj [("candidate", to_dict candidate);
                          ("sample", JStr (transformed sample));
                          ("conflicts", JArr (map (fun c => to_dict (fst c)) conflicts))]) in
       raise exc)
    (fun data => ret data).

(** ** pipeline/learning.py *)

Definition outcome (status : string) (tid : option string) (detail : json)
  : LearningOutcome.t :=
  {| LearningOutcome.status := status; LearningOutcome.template_id := tid;
     LearningOutcome.detail := detail |}.

(** The loop of [LearningEngine._detect_conflicts]. *)
Fixpoint conflicts_loop (pattern : Pattern) (items : list (string * TemplateRecord))
    (ex : gmap string ProcessedLogLine) : list (TemplateRecord * string) :=
  match items with
  | [] => []
  | (tid, record) :: rest =>
      if negb (is_active record) then conflicts_loop pattern rest ex
      else
        match ex !! tid with
        | None => conflicts_loop pattern rest ex
        | Some sample =>
            match re_fullmatch pattern (transformed sample) with
            | Some _ => (record, transformed sample) :: conflicts_loop pattern rest ex
            | None => conflicts_loop pattern rest ex
            end
        end
  end.

(** [LearningEngine._detect_conflicts] *)
Definition _detect_conflicts (rx : string) : M (list (TemplateRecord * string)) :=
  let* lib := gets library in
  let* ex := gets examples in
  match re_compile rx with
  | None => ret []
  | Some pattern => ret (conflicts_loop pattern (templates lib) ex)
  end.

(** [LearningEngine._escalate] *)
Definition _escalate (candidate : TemplateRecord) (line : ProcessedLogLine)
    (plan : list (string * json)) (reason : string) : M unit :=
  let* _ := metrics_increment "escalations" 1 in
  service_enqueue "template_conflict" reason
    (JObj [("candidate", to_dict candidate); ("plan", JObj plan);
           ("sample", JStr (transformed line))]).

(** One turn of [for template_id in replaced_ids]. *)
Definition replace_one (template_id : json) : M unit :=
  let* key := lift_result (Json.as_key template_id) in
  match key with
  | Some tid =>
      let* _ := on_library (fun l => (deactivate tid l, Ok tt)) in
      examples_pop tid
  | None => ret tt
  end.

Fixpoint replace_all (replaced_ids : list json) : M unit :=
  match replaced_ids with
  | [] => ret tt
  | template_id :: rest => let* _ := replace_one template_id in replace_all rest
  end.

(** [plan.get("replaced_ids") or []], made a list when it is not one. *)
Definition replaced_ids_of (plan : list (string * json)) : list json :=
  let v := match ODict.get "replaced_ids" plan with
           | Some v => if Json.truthy v then v else JArr []
           | None => JArr []
           end in
  match v with
  | JArr l => l
  | _ => [JStr (py_str v)]
  end.

(** [stored = library.add(candidate); examples[stored.template_id] = line;
    metrics.increment(learned_templates=1); return LearningOutcome(...)] *)
Definition store_candidate (candidate : TemplateRecord) (line : ProcessedLogLine)
    (status : string) (detail : json) : M LearningOutcome.t :=
  let* stored := on_library (add candidate) in
  let* _ := examples_setitem (template_id stored) line in
  let* _ := metrics_increment "learned_templates" 1 in
  ret (outcome status (Some (template_id stored)) detail).

(** [LearningEngine._apply_conflict_plan] *)
Definition _apply_conflict_plan (plan : list (string * json)) (candidate : TemplateRecord)
    (line : ProcessedLogLine) (context : string) : M LearningOutcome.t :=
  let decision := ODict.get "decision" plan in
  let new_regex := ODict.get "new_regex" plan in
  let reasoning := default (JStr EmptyString) (ODict.get "reasoning" plan) in
  if negb (Json.is_str new_regex) || negb (PyStr.truthy (PyStr.strip (Json.str_of new_regex)))
  then
    let* _ := _escalate candidate line plan "missing new_regex in conflict plan" in
    ret (outcome "escalated" None (JStr "conflict plan missing regex"))
  else
    let candidate := with_regex (PyStr.strip (Json.str_of new_regex)) candidate in
    let* validation := review (regex candidate) line context in
    if negb (ValidationReport.approved validation) then
      let* _ := _escalate candidate line plan "refined regex rejected by validator" in
      ret (outcome "escalated" None (JStr "validator rejected refined regex"))
    else if Json.eq_str decision "replace_conflicting" then
      let* _ := replace_all (replaced_ids_of plan) in
      store_candidate candidate line "replaced" reasoning
    else if Json.eq_str decision "refine_candidate" then
      store_candidate candidate line "refined" reasoning
    else
      let* _ := _escalate candidate line plan "unsupported decision" in
      ret (outcome "escalated" None (JStr "unsupported conflict decision")).

(** The candidate built by [process_line] for an approved pattern. *)
Definition new_candidate (lib : TemplateLibrary) (rx : string)
    (proposal : TemplateProposal.t) : TemplateRecord :=
  {| template_id := EmptyString; source_id := lib_source_id lib; regex := rx;
     notes := TemplateProposal.reasoning proposal; is_active := true |}.

(** [LearningEngine.process_line] from the second [if not report.approved]
    on: [rx] and [report] are the pattern and verdict that count. *)
Definition after_review (rx : string) (report : ValidationReport.t)
    (proposal : TemplateProposal.t) (line : ProcessedLogLine) (context : string)
  : M LearningOutcome.t :=
  if negb (ValidationReport.approved report) then
    let* _ := metrics_increment "escalations" 1 in
    let* detail := lift_result (Json.join "; " (ValidationReport.issues report)) in
    ret (outcome "rejected" None (JStr detail))
  else
    let* lib := gets library in
    let candidate := new_candidate lib rx proposal in
    let* conflicts := _detect_conflicts rx in
    match conflicts with
    | [] => store_candidate candidate line "stored" (JStr "stored without conflict")
    | _ =>
        try_except_AgentError
          (resolve_conflict candidate line context conflicts)
          (fun exc =>
             let* _ := _escalate candidate line [("error", JStr (str_exn exc))]
                         "conflict resolution error" in
             ret (outcome "escalated" None (JStr (str_exn exc))))
          (fun plan => _apply_conflict_plan plan candidate line context)
    end.

(** [LearningEngine.process_line].  The calls that only tag the agents'
    log lines ([set_line_context]) are left out. *)
Definition process_line (line : ProcessedLogLine) (context : string)
  : M LearningOutcome.t :=
  let* proposal := derive [line] context in
  let* report := review (TemplateProposal.regex proposal) line context in
  if negb (ValidationReport.approved report) then
    try_except_AgentError
      (refine (TemplateProposal.regex proposal) (ValidationReport.issues report)
              (ValidationReport.suggestions report) line context)
      (fun exc =>
         let* _ := metrics_increment "escalations" 1 in
         ret (outcome "repair_failed" None (JStr (str_exn exc))))
      (fun refined_regex =>
         let* report := review refined_regex line context in
         after_review refined_regex report proposal line context)
  else after_review (TemplateProposal.regex proposal) report proposal line context.

(** ** pipeline/orchestrator.py, phase 1 *)

(** The body of the streaming loop of [LogParsingOrchestrator.process]. *)
Definition phase1_step (context : string) (line : ProcessedLogLine) : M unit :=
  let* _ := metrics_increment "processed_lines" 1 in
  let* hit := on_library (match_ line) in
  match hit with
  | Some (record, _) =>
      let* _ := examples_setdefault (template_id record) line in
      metrics_increment "matched_lines" 1
  | None =>
      let* result := process_line line context in
      match LearningOutcome.template_id result with
      | Some tid => if PyStr.truthy tid then examples_setdefault tid line else ret tt
      | None => ret tt
      end
  end.

Fixpoint phase1 (context : string) (processed : list ProcessedLogLine) : M unit :=
  match processed with
  | [] => ret tt
  | line :: rest => let* _ := phase1_step context line in phase1 context rest
  end.

(** ** pipeline/matching.py and phase 2 *)

(** The loop of [match_all], [idx] being the number of the next line. *)
Fixpoint match_all_from (idx : Z) (lines : list ProcessedLogLine) (lib : TemplateLibrary)
  : TemplateLibrary * result (list MatchResult.t) :=
  match lines with
  | [] => (lib, Ok [])
  | line :: rest =>
      match match_ line lib with
      | (lib', Raise e) => (lib', Raise e)
      | (lib', Ok hit) =>
          let r :=
            match hit with
            | Some (record, variables) =>
                {| MatchResult.line_number := idx;
                   MatchResult.template_id := Some (template_id record);
                   MatchResult.variables := variables; MatchResult.raw := raw line |}
            | None =>
                {| MatchResult.line_number := idx; MatchResult.template_id := None;
                   MatchResult.variables := []; MatchResult.raw := raw line |}
            end in
          match match_all_from (idx + 1) rest lib' with
          | (lib'', Ok results) => (lib'', Ok (r :: results))
          | (lib'', Raise e) => (lib'', Raise e)
          end
      end
  end.

(** [match_all] *)
Definition match_all (lib : TemplateLibrary) (lines : list ProcessedLogLine)
  : TemplateLibrary * result (list MatchResult.t) :=
  match_all_from 1 lines lib.

End Engine.

(** ** A small regex engine

    An instance of [RegexEngine] on which the model can be run: literal
    characters, [.], and a postfix [*] on either.  Any other metacharacter
    is refused by [compile], as is a [*] with nothing to repeat.  There
    are no groups, so [groupdict()] is always empty. *)

Module MiniRe.

Inductive atom :=
| Lit (c : ascii)
| AnyChar.

Definition item : Type := atom * bool.

Definition is_meta (c : ascii) : bool :=
  existsb (Ascii.eqb c)
    ["*"; "("; ")"; "["; "]"; "\"; "?"; "+"; "{"; "}"; "|"; "^"; "$"]%char.

Definition atom_of (c : ascii) : atom :=
  if Ascii.eqb c "."%char then AnyChar else Lit c.

Fixpoint compile (s : string) : option (list item) :=
  match s with
  | EmptyString => Some []
  | String c r =>
      if is_meta c then None
      else
        match r with
        | String "*"%char r' => cons (atom_of c, true) <$> compile r'
        | _ => cons (atom_of c, false) <$> compile r
        end
  end.

Definition atom_ok (a : atom) (c : ascii) : bool :=
  match a with
  | Lit c' => Ascii.eqb c c'
  | AnyChar => negb (Ascii.eqb c "010"%char)
  end.

Fixpoint matches (p : list item) (s : string) : bool :=
  match p with
  | [] => match s with EmptyString => true | _ => false end
  | (a, false) :: p' =>
      match s with
      | String c r => atom_ok a c && matches p' r
      | EmptyString => false
      end
  | (a, true) :: p' =>
      (fix star (s : string) : bool :=
         matches p' s
         || match s with
            | String c r => atom_ok a c && star r
            | EmptyString => false
            end) s
  end.

Definition fullmatch (p : list item) (s : string) : option groupdict :=
  if matches p s then Some [] else None.

Definition engine : RegexEngine :=
  {| Pattern := list item; re_compile := compile; re_fullmatch := fullmatch |}.

End MiniRe.

(** Collaborators that answer every request the same way. *)
Definition constant_agents (proposal : result TemplateProposal.t)
    (verdict : result ValidationReport.t) (refined : result string)
    (plan : result (list (string * json))) : Collaborators :=
  {| llm_derive := fun _ _ _ => proposal;
     llm_review := fun _ _ _ _ => verdict;
     llm_refine := fun _ _ _ _ _ _ => refined;
     llm_resolve := fun _ _ _ _ _ => plan |}.

(** A stand-in for Python's [str] on decoded JSON, exact on strings. *)
Definition simple_str (v : json) : string :=
  match v with
  | JStr s => s
  | JNum z => PyStr.str_Z z
  | JBool true => "True"
  | JBool false => "False"
  | JNull => "None"
  | JArr _ => "[...]"
  | JObj _ => "{...}"
  end.

(** ** Vocabulary of the statements *)

Section Vocabulary.
Context `{RegexEngine}.

(** The pattern [match] uses for an entry: the cached one, else the one
    compiled from the record's text ([None]: [re.error]). *)
Definition entry_pattern (compiled : gmap string Pattern) (tid : string)
    (record : TemplateRecord) : option Pattern :=
  match compiled !! tid with
  | Some p => Some p
  | None => re_compile (regex record)
  end.

(** An entry that [match] passes over for [text]: inactive, or its
    pattern does not match the whole of [text]. *)
Definition passed_over (compiled : gmap string Pattern) (text : string)
    (entry : string * TemplateRecord) : Prop :=
  is_active (snd entry) = false
  \/ exists p, entry_pattern compiled (fst entry) (snd entry) = Some p
               /\ re_fullmatch p text = None.

(** Every stored id has a cached pattern. *)
Definition compiled_total (lib : TemplateLibrary) : Prop :=
  forall tid, In tid (ODict.keys (templates lib)) -> is_Some (_compiled lib !! tid).

(** The counter is above every numeric suffix of a stored id. *)
Definition sequence_above (lib : TemplateLibrary) : Prop :=
  1 <= _sequence lib
  /\ forall tid v, In tid (ODict.keys (templates lib)) ->
                   PyStr.py_int (PyStr.rsplit_last tid) = Some v -> v < _sequence lib.

(** Records are filed under their own id. *)
Definition keyed_by_id (lib : TemplateLibrary) : Prop :=
  forall tid r, In (tid, r) (templates lib) -> template_id r = tid.

(** [add] of each record in turn, going on after an exception. *)
Fixpoint add_each (records : list TemplateRecord) (lib : TemplateLibrary)
  : TemplateLibrary * list (result TemplateRecord) :=
  match records with
  | [] => (lib, [])
  | r :: rest =>
      let '(lib1, res) := add r lib in
      let '(lib2, more) := add_each rest lib1 in
      (lib2, res :: more)
  end.

(** The ids made from the counters [n], [n + 1], ...: [count] of them. *)
Definition ids_from (sid : string) (n : Z) (count : nat) : list string :=
  map (fun k => sid ++ "-" ++ PyStr.format_04d (n + Z.of_nat k)) (seq 0 count).

(** What [add] returns for a record that it files under [tid]. *)
Definition add_result (tid : string) (r : TemplateRecord) : result TemplateRecord :=
  match re_compile (regex r) with
  | Some _ => Ok (with_template_id tid r)
  | None => Raise (ReError (regex r))
  end.

(** The fixtures of conflict detection: each active record that has an
    example in the cache, with the canonical text of that example. *)
Fixpoint active_examples (items : list (string * TemplateRecord))
    (ex : gmap string ProcessedLogLine) : list (TemplateRecord * string) :=
  match items with
  | [] => []
  | (tid, r) :: rest =>
      match is_active r, ex !! tid with
      | true, Some sample => (r, transformed sample) :: active_examples rest ex
      | _, _ => active_examples rest ex
      end
  end.

(** The first hit of [match] against a fixed cache: what [match_loop]
    computes, without the filling of the cache. *)
Fixpoint first_hit (items : list (string * TemplateRecord))
    (compiled : gmap string Pattern) (text : string)
  : result (option (TemplateRecord * groupdict)) :=
  match items with
  | [] => Ok None
  | (tid, record) :: rest =>
      if negb (is_active record) then first_hit rest compiled text
      else
        match entry_pattern compiled tid record with
        | None => Raise (ReError (regex record))
        | Some p =>
            match re_fullmatch p text with
            | Some m => Ok (Some (record, m))
            | None => first_hit rest compiled text
            end
        end
  end.

(** A cache that gives every entry of [all] the pattern that [c0] gives. *)
Definition cache_ext (all : list (string * TemplateRecord))
    (c0 c : gmap string Pattern) : Prop :=
  forall tid r, In (tid, r) all -> entry_pattern c tid r = entry_pattern c0 tid r.

(** A library that differs from [lib] at most by such a cache. *)
Definition variant (lib lib1 : TemplateLibrary) : Prop :=
  templates lib1 = templates lib
  /\ lib_source_id lib1 = lib_source_id lib
  /\ _sequence lib1 = _sequence lib
  /\ cache_ext (templates lib) (_compiled lib) (_compiled lib1).


(** The state of a library that [_load], [add] without explicit ids and
    [deactivate] maintain. *)
Definition library_ok (lib : TemplateLibrary) : Prop :=
  ODict.wf (templates lib) /\ compiled_total lib /\ sequence_above lib /\ keyed_by_id lib.


(** [pattern.fullmatch(text)] taken as a condition. *)
Definition fully_matches (p : Pattern) (text : string) : bool :=
  match re_fullmatch p text with
  | Some _ => true
  | None => false
  end.


End Vocabulary.

(** The rows of the [.parsed.tsv] file written by [_write_outputs]. *)
Definition safe_raw (s : string) : string :=
  string_of_list_ascii
    (map (fun c => if Ascii.eqb c "009"%char || Ascii.eqb c "010"%char then " "%char else c)
         (list_ascii_of_string s)).

Definition tsv_row (r : MatchResult.t) : string :=
  PyStr.str_Z (MatchResult.line_number r) ++ String "009"%char
    (default EmptyString (MatchResult.template_id r) ++ String "009"%char
       (safe_raw (MatchResult.raw r) ++ String "010"%char EmptyString)).

Definition structured_output (matches : list MatchResult.t) : string :=
  "line" ++ String "009"%char ("template_id" ++ String "009"%char ("raw" ++
    String "010"%char (String.concat EmptyString (map tsv_row matches)))).

(** The pattern text of a conflict plan, as [_apply_conflict_plan] reads it. *)
Definition plan_regex (plan : list (string * json)) : string :=
  PyStr.strip (Json.str_of (ODict.get "new_regex" plan)).

(** The plan has no usable ["new_regex"]: absent, not a string, or blank. *)
Definition plan_lacks_regex (plan : list (string * json)) : bool :=
  negb (Json.is_str (ODict.get "new_regex" plan)) || negb (PyStr.truthy (plan_regex plan)).


(** The payload of the task filed by [_escalate]. *)
Definition escalation_payload (candidate : TemplateRecord)
    (plan : list (string * json)) (line : ProcessedLogLine) : json :=
  JObj [("candidate", to_dict candidate); ("plan", JObj plan);
        ("sample", JStr (transformed line))].


(** The string [id] is one of the elements of [ids]. *)
Definition mentions (id : string) (ids : list json) : bool :=
  existsb (fun v => match v with JStr s => String.eqb s id | _ => false end) ids.


(** The outcome names a template only if the line is its example. *)
Definition example_recorded `{RegexEngine} (line : ProcessedLogLine) (w' : World)
    (out : LearningOutcome.t) : Prop :=
  forall tid, LearningOutcome.template_id out = Some tid -> examples w' !! tid = Some line.


(** ** Concrete libraries, lines and collaborators

    The values on which the statements below are run, over the small
    engine. *)

Module Fixture.

Definition line_of (text : string) : ProcessedLogLine :=
  {| raw := text; transformed := text |}.

Definition line_bob : ProcessedLogLine := line_of "user bob in".
Definition line_amy : ProcessedLogLine := line_of "user amy in".

Definition rec_user : TemplateRecord :=
  {| template_id := "s-0001"; source_id := "s"; regex := "user .* in";
     notes := EmptyString; is_active := true |}.

Definition rec_any : TemplateRecord :=
  {| template_id := "s-0002"; source_id := "s"; regex := ".*";
     notes := EmptyString; is_active := true |}.

Definition rec_legacy : TemplateRecord :=
  {| template_id := "s-0007"; source_id := "s"; regex := "boot";
     notes := EmptyString; is_active := false |}.

Definition unnamed (rx : string) : TemplateRecord :=
  {| template_id := EmptyString; source_id := "s"; regex := rx;
     notes := EmptyString; is_active := true |}.

(** The library read back from a document with these records. *)
Definition loaded (payload : list TemplateRecord) : @TemplateLibrary MiniRe.engine :=
  fst (@load MiniRe.engine "s" payload).

Definition lib_one : @TemplateLibrary MiniRe.engine := loaded [rec_user].
Definition lib_two : @TemplateLibrary MiniRe.engine := loaded [rec_user; rec_any].

Definition world_of (lib : @TemplateLibrary MiniRe.engine)
    (ex : gmap string ProcessedLogLine) : @World MiniRe.engine :=
  {| library := lib; examples := ex; metrics := new_counters;
     interaction_service := new_interaction_service; calls := [] |}.

Definition proposal_of (rx : string) : TemplateProposal.t :=
  {| TemplateProposal.regex := rx; TemplateProposal.reasoning := "names vary" |}.

Definition verdict (ok : bool) : ValidationReport.t :=
  {| ValidationReport.approved := ok; ValidationReport.issues := [JStr "too general"];
     ValidationReport.suggestions := [JStr "keep the verb"];
     ValidationReport.reasoning := JStr EmptyString |}.

(** Collaborators that propose [rx], review with [ok], refine to
    [refined] and adjudicate with [plan]. *)
Definition agents_of (rx : string) (ok : bool) (refined : string)
    (plan : list (string * json)) : Collaborators :=
  constant_agents (Ok (proposal_of rx)) (Ok (verdict ok)) (Ok refined) (Ok plan).

(** A plan that replaces [s-0001] and also names the id that is about to
    be allocated. *)
Definition plan_replace : list (string * json) :=
  [("decision", JStr "replace_conflicting"); ("reasoning", JStr "wider");
   ("new_regex", JStr "user .*");
   ("replaced_ids", JArr [JStr "s-0001"; JStr "s-0002"])].


(** The world before, and the run of, the plan [plan_replace]. *)
Definition world_conflict : @World MiniRe.engine :=
  world_of lib_one {[ "s-0001" := line_bob ]}.

Definition run_replace :=
  @_apply_conflict_plan MiniRe.engine (agents_of "user .*" true "x" plan_replace)
    simple_str plan_replace
    (@new_candidate MiniRe.engine (library world_conflict) "user .*" (proposal_of "user .*"))
    line_amy "ctx" world_conflict.

(** Two lines that both match [s-0001], streamed in that order. *)
Definition run_two_lines :=
  @phase1 MiniRe.engine (agents_of "x" true "x" []) simple_str "ctx"
    [line_bob; line_amy] (world_of lib_one ∅).

(** A run in which the approved proposal is a pattern that does not
    compile. *)
Definition run_bad_pattern :=
  @phase1 MiniRe.engine (agents_of "(" true "x" []) simple_str "ctx"
    [line_bob; line_amy] (world_of (new_library "s") ∅).

(** A rejecting verdict whose list of issues holds a number, as in the
    reply [{"approved": false, "issues": [1]}]. *)
Definition verdict_number : ValidationReport.t :=
  {| ValidationReport.approved := false; ValidationReport.issues := [JNum 1];
     ValidationReport.suggestions := []; ValidationReport.reasoning := JStr EmptyString |}.

Definition agents_number : Collaborators :=
  constant_agents (Ok (proposal_of "user .*")) (Ok verdict_number) (Ok "user .* in") (Ok []).

Definition run_number :=
  @process_line MiniRe.engine agents_number simple_str line_bob "ctx" (world_of lib_one ∅).




(** A record that takes the id of [rec_any] with a pattern that does not
    compile, and the library it is added to. *)
Definition rec_broken : TemplateRecord :=
  {| template_id := "s-0002"; source_id := "s"; regex := "(";
     notes := EmptyString; is_active := true |}.

Definition run_broken := @add MiniRe.engine rec_broken lib_two.

(** Ids with very long numbers: 4300 nines, and a one followed by 4300
    zeros. *)
Fixpoint repeated (c : ascii) (k : nat) : string :=
  match k with
  | O => EmptyString
  | S k' => String c (repeated c k')
  end.

Definition rec_boot (tid : string) : TemplateRecord :=
  {| template_id := tid; source_id := "s"; regex := "boot";
     notes := EmptyString; is_active := true |}.

Definition id_nines : string := "s-" ++ repeated "9"%char 4300.

Definition id_long : string := "s-1" ++ repeated "0"%char 4300.

End Fixture.


(** ** utils/preprocessing.py *)

Module Preprocessing.

(** [s.rstrip(chars)]: the characters of [chars] are dropped from the end. *)
Fixpoint rstrip_chars (drop : ascii -> bool) (s : string) : string :=
  match s with
  | EmptyString => EmptyString
  | String c r =>
      match rstrip_chars drop r with
      | EmptyString => if drop c then EmptyString else String c EmptyString
      | r' => String c r'
      end
  end.

(** A character of ["\r\n"]. *)
Definition is_crlf (c : ascii) : bool :=
  Ascii.eqb c "013"%char || Ascii.eqb c "010"%char.

(** [_WHITESPACE.sub(" ", s)] with [_WHITESPACE = re.compile(r"\s+")]:
    every maximal run of whitespace becomes one space.  [in_run] tells
    that the previous character was whitespace. *)
Fixpoint collapse (in_run : bool) (s : string) : string :=
  match s with
  | EmptyString => EmptyString
  | String c r =>
      if PyStr.is_space c
      then (if in_run then collapse true r else String " "%char (collapse true r))
      else String c (collapse false r)
  end.

Definition sub_whitespace (s : string) : string := collapse false s.

(** [normalize] *)
Definition normalize (line : string) : ProcessedLogLine :=
  let raw := rstrip_chars is_crlf line in
  {| raw := raw; transformed := PyStr.strip (sub_whitespace raw) |}.

(** [normalize_many] *)
Definition normalize_many (lines : list string) : list ProcessedLogLine :=
  map normalize lines.

(** Every whitespace character of [s] is a space that does not follow
    another whitespace character ([after_space]: the character before [s]
    was one). *)
Fixpoint single_spaced (after_space : bool) (s : string) : bool :=
  match s with
  | EmptyString => true
  | String c r =>
      if PyStr.is_space c
      then Ascii.eqb c " "%char && negb after_space && single_spaced true r
      else single_spaced false r
  end.

(** All characters of [s] satisfy [p]. *)
Fixpoint all_chars (p : ascii -> bool) (s : string) : bool :=
  match s with
  | EmptyString => true
  | String c r => p c && all_chars p r
  end.

(** The last character of [s] satisfies [p]. *)
Fixpoint last_char (p : ascii -> bool) (s : string) : bool :=
  match s with
  | EmptyString => false
  | String c EmptyString => p c
  | String _ r => last_char p r
  end.

(** The first character of [s] satisfies [p]. *)
Definition first_char (p : ascii -> bool) (s : string) : bool :=
  match s with
  | EmptyString => false
  | String c _ => p c
  end.

End Preprocessing.

(** ** interface/interaction_service.py, the other methods *)

(** [InteractionService.list_tasks] *)
Definition list_tasks (svc : InteractionService) : list InteractionTask.t := _queue svc.

(** What [resolve] does to the task it finds. *)
Definition mark_resolved (note : string) (task : InteractionTask.t) : InteractionTask.t :=
  {| InteractionTask.task_id := InteractionTask.task_id task;
     InteractionTask.task_type := InteractionTask.task_type task;
     InteractionTask.description := InteractionTask.description task;
     InteractionTask.payload := InteractionTask.payload task;
     InteractionTask.status := "resolved";
     InteractionTask.history := InteractionTask.history task ++ [note] |}.

(** The loop of [InteractionService.resolve]: the first task with that id
    is marked and the loop stops. *)
Fixpoint resolve_loop (task_id note : string) (tasks : list InteractionTask.t)
  : list InteractionTask.t :=
  match tasks with
  | [] => []
  | task :: rest =>
      if String.eqb (InteractionTask.task_id task) task_id
      then mark_resolved note task :: rest
      else task :: resolve_loop task_id note rest
  end.

(** [InteractionService.resolve] *)
Definition resolve (task_id note : string) (svc : InteractionService) : InteractionService :=
  {| _queue := resolve_loop task_id note (_queue svc); _counter := _counter svc |}.

(** The loop of [InteractionService.next_pending]. *)
Fixpoint next_pending_in (tasks : list InteractionTask.t) : option InteractionTask.t :=
  match tasks with
  | [] => None
  | task :: rest =>
      if String.eqb (InteractionTask.status task) "pending" then Some task
      else next_pending_in rest
  end.

(** [InteractionService.next_pending] *)
Definition next_pending (svc : InteractionService) : option InteractionTask.t :=
  next_pending_in (_queue svc).

(** A call of a method that changes the service. *)
Inductive ServiceOp :=
| OpEnqueue (task_type description : string) (payload : json)
| OpResolve (task_id note : string).

Definition run_op (op : ServiceOp) (svc : InteractionService) : InteractionService :=
  match op with
  | OpEnqueue t d p => fst (enqueue t d p svc)
  | OpResolve i n => resolve i n svc
  end.

(** The calls made one after the other. *)
Definition run_ops (ops : list ServiceOp) (svc : InteractionService) : InteractionService :=
  fold_left (fun s op => run_op op s) ops svc.

(** ** agents/router_agent.py *)

Module RoutingDecision.
Record t := {
  device_type : string;
  vendor : string;
  reasoning : json;
}.
End RoutingDecision.

(** [s.replace(" ", "_")] *)
Fixpoint replace_space (s : string) : string :=
  match s with
  | EmptyString => EmptyString
  | String c r =>
      String (if Ascii.eqb c " "%char then "_"%char else c) (replace_space r)
  end.

(** [x or "unknown"] for a string. *)
Definition or_unknown (s : string) : string :=
  if PyStr.truthy s then s else "unknown".

(** [RoutingDecision.source_id] *)
Definition routing_source_id (d : RoutingDecision.t) : string :=
  replace_space (or_unknown (RoutingDecision.device_type d) ++ "_"
                 ++ or_unknown (RoutingDecision.vendor d)).

(** [(data.get(key) or "unknown").strip()]: a truthy value that is not a
    string has no [strip] ([AttributeError]). *)
Definition field_or_unknown (key : string) (data : list (string * json)) : result string :=
  match ODict.get key data with
  | None => Ok (PyStr.strip "unknown")
  | Some v =>
      if Json.truthy v then
        match v with
        | JStr s => Ok (PyStr.strip s)
        | _ => Raise (OtherError "AttributeError")
        end
      else Ok (PyStr.strip "unknown")
  end.

(** [RouterAgent.identify]; [call_json] stands for the request
    [self._call_json(...)], which is made with the first twelve stripped
    samples at most. *)
Definition identify (call_json : list string -> result (list (string * json)))
    (samples : list string) : result RoutingDecision.t :=
  let sample_list :=
    map PyStr.strip (List.filter (fun line => PyStr.truthy (PyStr.strip line)) samples) in
  match sample_list with
  | [] => Ok {| RoutingDecision.device_type := "unknown"; RoutingDecision.vendor := "unknown";
                RoutingDecision.reasoning := JStr "no samples provided" |}
  | _ =>
      match call_json (firstn 12 sample_list) with
      | Raise e => Raise e
      | Ok data =>
          match field_or_unknown "device_type" data with
          | Raise e => Raise e
          | Ok device =>
              match field_or_unknown "vendor" data with
              | Raise e => Raise e
              | Ok vendor =>
                  Ok {| RoutingDecision.device_type := device;
                        RoutingDecision.vendor := vendor;
                        RoutingDecision.reasoning :=
                          default (JStr EmptyString) (ODict.get "reasoning" data) |}
              end
          end
      end
  end.

(** Task ids come from the counter, which is ahead of all of them. *)
Definition ids_below (svc : InteractionService) : Prop :=
  1 <= _counter svc
  /\ NoDup (map InteractionTask.task_id (_queue svc))
  /\ forall task, In task (_queue svc) ->
       exists k, 1 <= k < _counter svc
                 /\ InteractionTask.task_id task = "task-" ++ PyStr.str_Z k.

(** The task is still waiting. *)
Definition is_pending (task : InteractionTask.t) : bool :=
  String.eqb (InteractionTask.status task) "pending".

(** The number of [enqueue] calls among the operations. *)
Definition count_enqueues (ops : list ServiceOp) : nat :=
  length (List.filter (fun op => match op with OpEnqueue _ _ _ => true | _ => false end) ops).

(** The character is not a space. *)
Definition not_space (c : ascii) : bool := negb (Ascii.eqb c " "%char).

(** ** Vocabulary for the accounting of a run *)

(** One more learned template, nothing else counted. *)
Definition counted_learned (m m' : PipelineCounters) : Prop :=
  processed_lines m' = processed_lines m
  /\ matched_lines m' = matched_lines m
  /\ learned_templates m' = learned_templates m + 1
  /\ escalations m' = escalations m.

(** One more escalation, nothing else counted. *)
Definition counted_escalation (m m' : PipelineCounters) : Prop :=
  processed_lines m' = processed_lines m
  /\ matched_lines m' = matched_lines m
  /\ learned_templates m' = learned_templates m
  /\ escalations m' = escalations m + 1.

(** The two kinds of outcome of [process_line]: a failure, which names no
    template, counts one escalation and leaves the library and the example
    cache alone; a success, which names the template it stored and counts
    one learned template. *)
Definition outcome_accounted `{RegexEngine} (w w' : World) (out : LearningOutcome.t) : Prop :=
  (LearningOutcome.template_id out = None
   /\ In (LearningOutcome.status out) ["rejected"; "repair_failed"; "escalated"]
   /\ counted_escalation (metrics w) (metrics w')
   /\ library w' = library w
   /\ examples w' = examples w)
  \/ (exists tid,
        LearningOutcome.template_id out = Some tid
        /\ In (LearningOutcome.status out) ["stored"; "replaced"; "refined"]
        /\ counted_learned (metrics w) (metrics w')
        /\ is_Some (ODict.get tid (templates (library w')))).

(** The collaborator a request goes to. *)
Inductive CallKind := ToProposer | ToValidator | ToRepairer | ToAdjudicator.

Definition call_kind (c : Call) : CallKind :=
  match c with
  | CallDerive _ _ => ToProposer
  | CallReview _ _ _ => ToValidator
  | CallRefine _ _ _ _ _ => ToRepairer
  | CallResolve _ _ _ _ => ToAdjudicator
  end.

(** The sequences of requests that the processing of one line can make. *)
Definition request_shapes : list (list CallKind) :=
  [ [];
    [ToProposer];
    [ToProposer; ToValidator];
    [ToProposer; ToValidator; ToAdjudicator];
    [ToProposer; ToValidator; ToAdjudicator; ToValidator];
    [ToProposer; ToValidator; ToRepairer];
    [ToProposer; ToValidator; ToRepairer; ToValidator];
    [ToProposer; ToValidator; ToRepairer; ToValidator; ToAdjudicator];
    [ToProposer; ToValidator; ToRepairer; ToValidator; ToAdjudicator; ToValidator] ].

Definition is_repair (k : CallKind) : bool :=
  match k with ToRepairer => true | _ => false end.

(** Every cached example belongs to an active template of the library. *)
Definition cache_in_library `{RegexEngine} (w : World) : Prop :=
  forall id line, examples w !! id = Some line ->
    exists r, ODict.get id (templates (library w)) = Some r /\ is_active r = true.

(** The pattern text of every record compiles. *)
Definition all_compile `{RegexEngine} (records : list TemplateRecord) : Prop :=
  Forall (fun r => re_compile (regex r) <> None) records.

(** A tab or a line feed. *)
Definition is_tab_or_newline (c : ascii) : bool :=
  Ascii.eqb c "009"%char || Ascii.eqb c "010"%char.

(** ** Vocabulary for the history of a library *)

(** [lib'] is [lib] after records were appended under the ids [l], in
    that order, and records were deactivated: no record was removed,
    reordered, reactivated or rewritten, and the counter moved on by one for
    each appended id. *)
Definition grown `{RegexEngine} (l : list string) (lib lib' : TemplateLibrary) : Prop :=
  ODict.keys (templates lib') = (ODict.keys (templates lib) ++ l)%list
  /\ (forall id r, ODict.get id (templates lib) = Some r ->
        ODict.get id (templates lib') = Some r
        \/ ODict.get id (templates lib') = Some (with_is_active false r))
  /\ _sequence lib' = _sequence lib + Z.of_nat (length l)
  /\ lib_source_id lib' = lib_source_id lib.

(** A run from [w] that appended the ids [l] and, when it ended without
    an exception, counted each of them as a learned template. *)
Definition step_grown `{RegexEngine} {A} (l : list string) (w : World)
    (run : World * result A) : Prop :=
  grown l (library w) (library (fst run))
  /\ (forall a, snd run = Ok a ->
        learned_templates (metrics (fst run))
        = learned_templates (metrics w) + Z.of_nat (length l)).


(** A cached pattern is the compiled form of the pattern text of the
    record it is cached for. *)
Definition faithful `{RegexEngine} (items : list (string * TemplateRecord))
    (compiled : gmap string Pattern) : Prop :=
  forall tid r p, In (tid, r) items -> compiled !! tid = Some p ->
                  re_compile (regex r) = Some p.

Definition cache_faithful `{RegexEngine} (lib : TemplateLibrary) : Prop :=
  faithful (templates lib) (_compiled lib).

(** ** More concrete runs *)

Module Cases.
Import Fixture.

Definition line_out : ProcessedLogLine := line_of "user bob out".

(** Collaborators whose proposal, a pattern for [line_out], is approved. *)
Definition agents_out : Collaborators := agents_of "user .* out" true "x" [].

Definition world_one : @World MiniRe.engine := world_of lib_one ∅.

(** No stored template matches the line, and the proposal matches no
    cached example: the line is learned. *)
Definition run_store :=
  @process_line MiniRe.engine agents_out simple_str line_out "ctx" world_one.

(** A pass over a line that matches [s-0001] and a line that is learned. *)
Definition run_pass :=
  @phase1 MiniRe.engine agents_out simple_str "ctx" [line_bob; line_out] world_one.


(** A service with two tasks, and its second task. *)
Definition svc_two : InteractionService :=
  run_ops [OpEnqueue "template_conflict" "first" JNull;
           OpEnqueue "template_conflict" "second" JNull] new_interaction_service.

Definition task_second : InteractionTask.t :=
  {| InteractionTask.task_id := "task-2"; InteractionTask.task_type := "template_conflict";
     InteractionTask.description := "second"; InteractionTask.payload := JNull;
     InteractionTask.status := "pending"; InteractionTask.history := [] |}.

(** The labels that the reconciliation pass gives two lines on [lib_two]. *)
Definition labelled : list MatchResult.t :=
  match snd (@match_all MiniRe.engine lib_two [line_bob; line_of "boot"]) with
  | Ok results => results
  | Raise _ => []
  end.

End Cases.


(** * Facts *)

(** ** The small engine and the text functions on examples *)

Example mini_compile_ok : MiniRe.compile "user .* logged in" <> None.
Proof. vm_compute. discriminate. Qed.

Example mini_compile_error : MiniRe.compile "(" = None.
Proof. reflexivity. Qed.

Example mini_fullmatch_yes :
  (p ← MiniRe.compile "user .* in"; MiniRe.fullmatch p "user bob in") = Some [].
Proof. reflexivity. Qed.

Example mini_fullmatch_partial_no :
  (p ← MiniRe.compile "user"; MiniRe.fullmatch p "user bob") = None.
Proof. reflexivity. Qed.

Example format_04d_7 : PyStr.format_04d 7 = "0007".
Proof. reflexivity. Qed.

Example format_04d_12345 : PyStr.format_04d 12345 = "12345".
Proof. reflexivity. Qed.

Example py_int_padded : PyStr.py_int "0042" = Some 42.
Proof. reflexivity. Qed.

Example py_int_underscore : PyStr.py_int " 1_000 " = Some 1000.
Proof. reflexivity. Qed.

Example py_int_bad : PyStr.py_int "12a" = None.
Proof. reflexivity. Qed.

Example rsplit_last_id : PyStr.rsplit_last "router_cisco-0007" = "0007".
Proof. reflexivity. Qed.

Example rsplit_last_nodash : PyStr.rsplit_last "legacy" = "legacy".
Proof. reflexivity. Qed.

Example strip_both : PyStr.strip "  a b  " = "a b".
Proof. reflexivity. Qed.

(** ** Decimal text *)

Module PyStrFacts.
Import PyStr.

Lemma is_digit_not_space c : is_digit c = true -> is_space c = false.
Proof.
  unfold is_digit, is_space. generalize (nat_of_ascii c). intros n Hn.
  apply andb_true_iff in Hn as [H1 H2].
  apply Nat.leb_le in H1. apply Nat.leb_le in H2.
  repeat match goal with
         | |- context [(?a <=? ?b)%nat] => destruct (Nat.leb_spec a b)
         | |- context [(?a =? ?b)%nat] => destruct (Nat.eqb_spec a b)
         end; simpl; try reflexivity; lia.
Qed.

Lemma is_digit_cases c :
  is_digit c = true ->
  Ascii.eqb c dash = false /\ Ascii.eqb c plus = false /\ Ascii.eqb c underscore = false.
Proof.
  intros Hd. repeat split.
  all: destruct (Ascii.eqb_spec c dash) as [->|]; try reflexivity; try discriminate.
  all: destruct (Ascii.eqb_spec c plus) as [->|]; try reflexivity; try discriminate.
  all: destruct (Ascii.eqb_spec c underscore) as [->|]; try reflexivity; discriminate.
Qed.

Lemma all_digits_uint d : all_digits (NilEmpty.string_of_uint d) = true.
Proof. induction d; simpl; auto. Qed.

Lemma to_uint_not_Nil n : N.to_uint n <> Decimal.Nil.
Proof.
  rewrite <- (DecimalN.Unsigned.of_to n) at 1.
  rewrite DecimalN.Unsigned.to_of. unfold Decimal.unorm.
  destruct (Decimal.nzhead (N.to_uint n)); discriminate.
Qed.

Lemma all_digits_str_N n : all_digits (str_N n) = true.
Proof. apply all_digits_uint. Qed.

Lemma str_N_nonempty n : str_N n <> EmptyString.
Proof.
  unfold str_N. pose proof (to_uint_not_Nil n) as Hn.
  destruct (N.to_uint n); simpl; congruence.
Qed.

Lemma all_digits_zeros k s : all_digits s = true -> all_digits (zeros k s) = true.
Proof. induction k; simpl; auto. Qed.

Lemma zeros_nonempty k s : s <> EmptyString -> zeros k s <> EmptyString.
Proof. destruct k; simpl; auto; discriminate. Qed.

Lemma lstrip_digits s : all_digits s = true -> lstrip s = s.
Proof.
  destruct s as [|c r]; simpl; [reflexivity|]. intros Hd.
  apply andb_true_iff in Hd as [Hc _]. now rewrite (is_digit_not_space _ Hc).
Qed.

Lemma rstrip_digits s : all_digits s = true -> rstrip s = s.
Proof.
  induction s as [|c r IH]; simpl; [reflexivity|]. intros Hd.
  apply andb_true_iff in Hd as [Hc Hr]. rewrite (IH Hr).
  destruct r; [|reflexivity]. now rewrite (is_digit_not_space _ Hc).
Qed.

Lemma strip_digits s : all_digits s = true -> strip s = s.
Proof. intros Hd. unfold strip. rewrite lstrip_digits, rstrip_digits; auto. Qed.

Lemma int_space_is_space c : int_space c = true -> is_space c = true.
Proof.
  unfold int_space, is_space. generalize (nat_of_ascii c). intros n.
  repeat match goal with
         | |- context [(?a <=? ?b)%nat] => destruct (Nat.leb_spec a b)
         | |- context [(?a =? ?b)%nat] => destruct (Nat.eqb_spec a b)
         end; simpl; try reflexivity; try discriminate; lia.
Qed.

Lemma is_digit_not_int_space c : is_digit c = true -> int_space c = false.
Proof.
  intros Hd. destruct (int_space c) eqn:Hs; [|reflexivity].
  apply int_space_is_space in Hs. now rewrite (is_digit_not_space _ Hd) in Hs.
Qed.

Lemma lstrip_by_digits s : all_digits s = true -> lstrip_by int_space s = s.
Proof.
  destruct s as [|c r]; simpl; [reflexivity|]. intros Hd.
  apply andb_true_iff in Hd as [Hc _]. now rewrite (is_digit_not_int_space _ Hc).
Qed.

Lemma rstrip_by_digits s : all_digits s = true -> rstrip_by int_space s = s.
Proof.
  induction s as [|c r IH]; simpl; [reflexivity|]. intros Hd.
  apply andb_true_iff in Hd as [Hc Hr]. rewrite (IH Hr).
  destruct r; [|reflexivity]. now rewrite (is_digit_not_int_space _ Hc).
Qed.

Lemma drop_underscores_digits s b :
  all_digits s = true -> (b = true \/ s <> EmptyString) ->
  drop_underscores b s = Some s.
Proof.
  revert b. induction s as [|c r IH]; simpl; intros b Hd Hb.
  - destruct Hb as [->|]; [reflexivity|congruence].
  - apply andb_true_iff in Hd as [Hc Hr].
    destruct (is_digit_cases _ Hc) as (_ & _ & ->).
    rewrite (IH true Hr); [reflexivity|now left].
Qed.

Lemma uint_of_string_zeros k s :
  NilEmpty.uint_of_string (zeros k s)
  = Nat.iter k Decimal.D0 <$> NilEmpty.uint_of_string s.
Proof.
  induction k; simpl.
  - now destruct (NilEmpty.uint_of_string s).
  - rewrite IHk. now destruct (NilEmpty.uint_of_string s).
Qed.

Lemma of_uint_iter_D0 k u : N.of_uint (Nat.iter k Decimal.D0 u) = N.of_uint u.
Proof. induction k; simpl; auto. Qed.

(** The value of a string of digits with zeros in front. *)
Lemma value_zeros_str_N k n :
  N.of_uint <$> NilEmpty.uint_of_string (zeros k (str_N n)) = Some n.
Proof.
  rewrite uint_of_string_zeros. unfold str_N. rewrite NilEmpty.usu. simpl.
  now rewrite of_uint_iter_D0, DecimalN.Unsigned.of_to.
Qed.

Lemma zeros_str_N_inj k1 k2 n1 n2 :
  zeros k1 (str_N n1) = zeros k2 (str_N n2) -> n1 = n2.
Proof.
  intros Heq. pose proof (value_zeros_str_N k1 n1) as H1.
  rewrite Heq, value_zeros_str_N in H1. congruence.
Qed.

Lemma parse_digits_zeros_str_N k n :
  (String.length (zeros k (str_N n)) <= int_max_str_digits)%nat ->
  parse_digits (zeros k (str_N n)) = Some n.
Proof.
  intros Hlen. unfold parse_digits.
  rewrite drop_underscores_digits.
  - simpl. destruct (Nat.ltb_spec int_max_str_digits (String.length (zeros k (str_N n))));
      [lia|].
    pose proof (value_zeros_str_N k n) as Hv.
    destruct (NilEmpty.uint_of_string (zeros k (str_N n))); simpl in *; congruence.
  - apply all_digits_zeros, all_digits_str_N.
  - right. apply zeros_nonempty, str_N_nonempty.
Qed.

Lemma py_int_digits s :
  all_digits s = true -> s <> EmptyString -> py_int s = Z.of_N <$> parse_digits s.
Proof.
  intros Hd Hne. unfold py_int. rewrite (lstrip_by_digits _ Hd), (rstrip_by_digits _ Hd).
  destruct s as [|c r]; [congruence|].
  simpl in Hd. apply andb_true_iff in Hd as [Hc _].
  now destruct (is_digit_cases _ Hc) as (-> & -> & _).
Qed.

Lemma rstrip_cons_nonempty c r :
  rstrip r <> EmptyString -> rstrip (String c r) = String c (rstrip r).
Proof. simpl. destruct (rstrip r); congruence. Qed.

Lemma length_zeros k s : String.length (zeros k s) = (k + String.length s)%nat.
Proof. induction k; simpl; auto. Qed.

(** When the conversion to text is allowed, its text is what
    [format_04d] says. *)
Lemma fstring_04d_Some z d : fstring_04d z = Some d -> d = format_04d z.
Proof. unfold fstring_04d. destruct (_ <? _)%nat; congruence. Qed.

Lemma fstring_04d_length z :
  0 <= z ->
  fstring_04d z <> None ->
  (String.length (format_04d z) <= int_max_str_digits)%nat.
Proof.
  intros Hz. unfold fstring_04d, format_04d, zfill. rewrite Z.abs_eq by lia.
  destruct (Z.ltb_spec z 0); [lia|].
  destruct (Nat.ltb_spec int_max_str_digits (String.length (str_N (Z.to_N z))));
    [congruence|].
  intros _. rewrite length_zeros. unfold int_max_str_digits in *. lia.
Qed.

(** [int(f"{z:04d}") == z], for a counter whose conversion to text is
    allowed. *)
Lemma py_int_format_04d z :
  0 <= z -> fstring_04d z <> None -> py_int (format_04d z) = Some z.
Proof.
  intros Hz Hfmt. pose proof (fstring_04d_length z Hz Hfmt) as Hlen.
  unfold format_04d, zfill in *. destruct (Z.ltb_spec z 0) as [Hneg|Hpos]; [lia|].
  rewrite py_int_digits.
  - rewrite parse_digits_zeros_str_N by exact Hlen. simpl. f_equal. lia.
  - apply all_digits_zeros, all_digits_str_N.
  - apply zeros_nonempty, str_N_nonempty.
Qed.

Lemma format_04d_inj z1 z2 : format_04d z1 = format_04d z2 -> z1 = z2.
Proof.
  unfold format_04d, zfill.
  assert (Hdigit : forall k n, exists c r, zeros k (str_N n) = String c r /\ is_digit c = true).
  { intros k n. pose proof (all_digits_zeros k (str_N n) (all_digits_str_N n)) as Hd.
    pose proof (zeros_nonempty k (str_N n) (str_N_nonempty n)) as Hne.
    destruct (zeros k (str_N n)) as [|c r]; [congruence|].
    simpl in Hd. apply andb_true_iff in Hd as [Hc _]. now exists c, r. }
  destruct (Z.ltb_spec z1 0) as [H1|H1], (Z.ltb_spec z2 0) as [H2|H2]; intros Heq.
  - injection Heq as Heq. apply zeros_str_N_inj in Heq. lia.
  - destruct (Hdigit (4 - String.length (str_N (Z.to_N z2)))%nat (Z.to_N z2))
      as (c & r & Hc & Hd).
    rewrite Hc in Heq. injection Heq as <- _. discriminate.
  - destruct (Hdigit (4 - String.length (str_N (Z.to_N z1)))%nat (Z.to_N z1))
      as (c & r & Hc & Hd).
    rewrite Hc in Heq. injection Heq as -> _. discriminate.
  - apply zeros_str_N_inj in Heq. lia.
Qed.

Lemma after_last_dash_digits s : all_digits s = true -> after_last_dash s = None.
Proof.
  induction s as [|c r IH]; simpl; [reflexivity|]. intros Hd.
  apply andb_true_iff in Hd as [Hc Hr]. rewrite (IH Hr).
  now destruct (is_digit_cases _ Hc) as (-> & _).
Qed.

Lemma after_last_dash_app a d :
  after_last_dash d = None -> after_last_dash (a ++ String dash d) = Some d.
Proof.
  intros Hd. induction a as [|c r IH]; simpl.
  - rewrite Hd. reflexivity.
  - now rewrite IH.
Qed.

Lemma format_04d_digits z : 0 <= z -> all_digits (format_04d z) = true.
Proof.
  intros Hz. unfold format_04d, zfill. destruct (Z.ltb_spec z 0); [lia|].
  apply all_digits_zeros, all_digits_str_N.
Qed.

(** The numeric suffix of an allocated id is the counter it was made of. *)
Lemma rsplit_last_allocated sid z :
  0 <= z -> rsplit_last (sid ++ "-" ++ format_04d z) = format_04d z.
Proof.
  intros Hz. unfold rsplit_last.
  change ("-" ++ format_04d z) with (String dash (format_04d z)).
  rewrite after_last_dash_app; [reflexivity|].
  apply after_last_dash_digits, format_04d_digits, Hz.
Qed.

Lemma append_inj_l (a x y : string) : a ++ x = a ++ y -> x = y.
Proof. induction a; simpl; intros Heq; [assumption|]. injection Heq. auto. Qed.

Lemma allocated_inj sid z1 z2 :
  sid ++ "-" ++ format_04d z1 = sid ++ "-" ++ format_04d z2 -> z1 = z2.
Proof.
  intros Heq. apply append_inj_l in Heq. apply append_inj_l in Heq.
  now apply format_04d_inj.
Qed.

(** Padding: at least four characters, and nothing added to a number
    that already has four digits or more. *)
Lemma format_04d_width z : 0 <= z -> (4 <= String.length (format_04d z))%nat.
Proof.
  intros Hz. unfold format_04d, zfill. destruct (Z.ltb_spec z 0); [lia|].
  rewrite length_zeros. lia.
Qed.

Lemma format_04d_unpadded z :
  0 <= z -> (4 <= String.length (str_Z z))%nat -> format_04d z = str_Z z.
Proof.
  intros Hz. unfold format_04d, str_Z, zfill. destruct (Z.ltb_spec z 0); [lia|].
  intros Hlen. replace (4 - _)%nat with 0%nat by lia. reflexivity.
Qed.

Lemma format_04d_padded z :
  0 <= z -> exists k, format_04d z = zeros k (str_Z z)
                      /\ k = (4 - String.length (str_Z z))%nat.
Proof.
  intros Hz. unfold format_04d, str_Z, zfill. destruct (Z.ltb_spec z 0); [lia|].
  eexists; split; reflexivity.
Qed.

End PyStrFacts.

Module DigitCount.
Import PyStr.

Lemma length_string_of_uint u :
  String.length (NilEmpty.string_of_uint u) = Decimal.nb_digits u.
Proof. induction u; simpl; auto. Qed.

Lemma of_lu_bound u :
  (DecimalPos.Unsigned.of_lu u < 10 ^ N.of_nat (Decimal.nb_digits u))%N.
Proof.
  induction u; cbn [DecimalPos.Unsigned.of_lu Decimal.nb_digits];
    rewrite ?Nat2N.inj_succ, ?N.pow_succ_r'; simpl N.of_nat; simpl N.pow; lia.
Qed.

(** A number is below ten to the number of its digits. *)
Lemma str_N_bound n : (n < 10 ^ N.of_nat (String.length (str_N n)))%N.
Proof.
  unfold str_N. rewrite length_string_of_uint.
  rewrite <- (DecimalN.Unsigned.of_to n) at 1.
  unfold N.of_uint. rewrite DecimalPos.Unsigned.of_uint_alt.
  rewrite <- (DecimalFacts.nb_digits_rev (N.to_uint n)). apply of_lu_bound.
Qed.

Lemma four_digits z : 999 < z -> (4 <= String.length (str_Z z))%nat.
Proof.
  intros Hz. unfold str_Z. destruct (Z.ltb_spec z 0); [lia|].
  pose proof (str_N_bound (Z.to_N z)) as Hb.
  destruct (le_lt_dec 4 (String.length (str_N (Z.to_N z)))) as [|Hlt]; [assumption|].
  exfalso.
  assert (Hp : (10 ^ N.of_nat (String.length (str_N (Z.to_N z))) <= 10 ^ 3)%N)
    by (apply N.pow_le_mono_r; lia).
  change (10 ^ 3)%N with 1000%N in Hp. lia.
Qed.

(** Beyond 9999 the number is printed in full, without padding. *)
Lemma format_04d_large z : 9999 < z -> format_04d z = str_Z z.
Proof.
  intros Hz. apply PyStrFacts.format_04d_unpadded; [lia|]. apply four_digits. lia.
Qed.

End DigitCount.

(** ** Ordered dictionaries *)

Module ODictFacts.
Section Facts.
Context {V : Type}.
Implicit Types (d : list (string * V)) (k : string) (v : V).

Lemma get_set_eq k v d : ODict.get k (ODict.set k v d) = Some v.
Proof.
  induction d as [|[k' v'] d IH]; simpl.
  - now rewrite String.eqb_refl.
  - destruct (String.eqb_spec k k') as [->|Hne]; simpl.
    + now rewrite String.eqb_refl.
    + destruct (String.eqb_spec k k'); [congruence|assumption].
Qed.

Lemma get_set_ne k k' v d :
  k <> k' -> ODict.get k' (ODict.set k v d) = ODict.get k' d.
Proof.
  intros Hne. induction d as [|[k0 v0] d IH]; simpl.
  - destruct (String.eqb_spec k' k); [congruence|reflexivity].
  - destruct (String.eqb_spec k k0) as [->|Hk]; simpl.
    + destruct (String.eqb_spec k' k0); [congruence|reflexivity].
    + destruct (String.eqb_spec k' k0); [reflexivity|assumption].
Qed.

Lemma get_alter_eq f k d : ODict.get k (ODict.alter f k d) = f <$> ODict.get k d.
Proof.
  induction d as [|[k' v'] d IH]; simpl; [reflexivity|].
  destruct (String.eqb_spec k k') as [->|Hne]; simpl.
  - now rewrite String.eqb_refl.
  - destruct (String.eqb_spec k k'); [congruence|assumption].
Qed.

Lemma get_alter_ne f k k' d :
  k <> k' -> ODict.get k' (ODict.alter f k d) = ODict.get k' d.
Proof.
  intros Hne. induction d as [|[k0 v0] d IH]; simpl; [reflexivity|].
  destruct (String.eqb_spec k k0) as [->|Hk]; simpl.
  - destruct (String.eqb_spec k' k0); [congruence|reflexivity].
  - destruct (String.eqb_spec k' k0); [reflexivity|assumption].
Qed.

Lemma keys_alter f k d : ODict.keys (ODict.alter f k d) = ODict.keys d.
Proof.
  induction d as [|[k' v'] d IH]; simpl; [reflexivity|].
  destruct (String.eqb_spec k k'); simpl; [reflexivity|].
  f_equal. exact IH.
Qed.

Lemma get_None_keys k d : ODict.get k d = None <-> ~ In k (ODict.keys d).
Proof.
  induction d as [|[k' v'] d IH]; simpl; [tauto|].
  destruct (String.eqb_spec k k') as [->|Hne].
  - split; [discriminate|]. intros Hn. exfalso. apply Hn. now left.
  - rewrite IH. split; intros Hn; [intros [Heq|Hin]; [congruence|tauto]|tauto].
Qed.

Lemma get_Some_keys k v d : ODict.get k d = Some v -> In k (ODict.keys d).
Proof.
  intros Hg. destruct (in_dec string_dec k (ODict.keys d)) as [|Hn]; [assumption|].
  apply get_None_keys in Hn. congruence.
Qed.

Lemma set_absent k v d : ODict.get k d = None -> ODict.set k v d = (d ++ [(k, v)])%list.
Proof.
  induction d as [|[k' v'] d IH]; simpl; [reflexivity|].
  destruct (String.eqb_spec k k'); [discriminate|].
  intros Hg. now rewrite IH.
Qed.

Lemma keys_set_present k v d :
  In k (ODict.keys d) -> ODict.keys (ODict.set k v d) = ODict.keys d.
Proof.
  induction d as [|[k' v'] d IH]; simpl; [tauto|].
  destruct (String.eqb_spec k k') as [->|Hne]; simpl; [reflexivity|].
  intros [Heq|Hin]; [congruence|]. f_equal. now apply IH.
Qed.

Lemma In_keys_set k k' v d :
  In k' (ODict.keys (ODict.set k v d)) <-> k' = k \/ In k' (ODict.keys d).
Proof.
  induction d as [|[k0 v0] d IH]; simpl.
  - intuition congruence.
  - destruct (String.eqb_spec k k0) as [->|Hne]; simpl.
    + intuition congruence.
    + rewrite IH. intuition congruence.
Qed.

Lemma get_In k v d : ODict.get k d = Some v -> In (k, v) d.
Proof.
  induction d as [|[k' v'] d IH]; simpl; [discriminate|].
  destruct (String.eqb_spec k k') as [->|Hne].
  - intros [= ->]. now left.
  - intros Hg. right. now apply IH.
Qed.

Lemma In_get k v d : ODict.wf d -> In (k, v) d -> ODict.get k d = Some v.
Proof.
  unfold ODict.wf. induction d as [|[k' v'] d IH]; simpl; [tauto|].
  intros Hnd Hin. apply NoDup_cons in Hnd as [Hnotin Hnd].
  rewrite list_elem_of_In in Hnotin.
  destruct Hin as [[= -> ->]|Hin].
  - now rewrite String.eqb_refl.
  - destruct (String.eqb_spec k k') as [->|Hne]; [|now apply IH].
    exfalso. apply Hnotin. apply (in_map fst) in Hin. exact Hin.
Qed.

Lemma wf_set k v d : ODict.wf d -> ODict.wf (ODict.set k v d).
Proof.
  unfold ODict.wf. induction d as [|[k' v'] d IH]; simpl.
  - intros _. apply NoDup_singleton.
  - intros Hnd. apply NoDup_cons in Hnd as [Hnotin Hnd].
    rewrite list_elem_of_In in Hnotin.
    destruct (String.eqb_spec k k') as [->|Hne]; simpl.
    + apply NoDup_cons. rewrite list_elem_of_In. tauto.
    + apply NoDup_cons. rewrite list_elem_of_In. split; [|now apply IH].
      intros Hin. apply In_keys_set in Hin as [Heq|Hin]; [congruence|tauto].
Qed.

Lemma wf_alter f k d : ODict.wf d -> ODict.wf (ODict.alter f k d).
Proof. unfold ODict.wf. now rewrite keys_alter. Qed.

Lemma wf_functional k v v' d :
  ODict.wf d -> In (k, v) d -> In (k, v') d -> v = v'.
Proof.
  intros Hwf H1 H2. apply (In_get _ _ _ Hwf) in H1. apply (In_get _ _ _ Hwf) in H2.
  congruence.
Qed.

End Facts.
End ODictFacts.

(** ** The template library *)

Section LibraryFacts.
Context `{RegexEngine}.
Implicit Types (lib : TemplateLibrary) (record : TemplateRecord).

Lemma with_template_id_same record : with_template_id (template_id record) record = record.
Proof. now destruct record. Qed.

(** What [add] does, whatever the pattern of the record, when an id is
    at hand for it: its own, or one that the counter can be written
    into. *)
Lemma add_spec record lib :
  PyStr.truthy (template_id record) = true \/ PyStr.fstring_04d (_sequence lib) <> None ->
  let tid := if PyStr.truthy (template_id record) then template_id record
             else lib_source_id lib ++ "-" ++ PyStr.format_04d (_sequence lib) in
  let stored := with_template_id tid record in
  let lib' := fst (add record lib) in
  templates lib' = ODict.set tid stored (templates lib)
  /\ lib_source_id lib' = lib_source_id lib
  /\ _sequence lib' = (if PyStr.truthy (template_id record) then _sequence lib
                       else _sequence lib + 1)
  /\ match re_compile (regex record) with
     | Some p => snd (add record lib) = Ok stored
                 /\ _compiled lib' = <[tid := p]> (_compiled lib)
     | None => snd (add record lib) = Raise (ReError (regex record))
               /\ _compiled lib' = _compiled lib
     end.
Proof.
  intros Hid. unfold add, allocate_id.
  destruct (PyStr.truthy (template_id record)) eqn:Ht; simpl.
  - rewrite with_template_id_same.
    destruct (re_compile (regex record)); simpl; auto.
  - destruct Hid as [Hid|Hfmt]; [discriminate|].
    destruct (PyStr.fstring_04d (_sequence lib)) as [digits|] eqn:Hd; [|congruence].
    apply PyStrFacts.fstring_04d_Some in Hd. subst digits. simpl.
    destruct (re_compile (regex record)); simpl; auto.
Qed.

(** No id at hand: [add] raises and leaves the library as it was. *)
Lemma add_no_id record lib :
  PyStr.truthy (template_id record) = false -> PyStr.fstring_04d (_sequence lib) = None ->
  add record lib = (lib, Raise (OtherError "ValueError")).
Proof. intros Ht Hd. unfold add, allocate_id. now rewrite Ht, Hd. Qed.

Lemma add_Ok_id record lib lib' stored :
  add record lib = (lib', Ok stored) ->
  PyStr.truthy (template_id record) = true \/ PyStr.fstring_04d (_sequence lib) <> None.
Proof.
  intros Hadd. destruct (PyStr.truthy (template_id record)) eqn:Ht; [now left|right].
  intros Hd. rewrite (add_no_id record lib Ht Hd) in Hadd. discriminate.
Qed.

Lemma truthy_nonempty (s : string) : PyStr.truthy s = true <-> s <> EmptyString.
Proof. destruct s; simpl; split; congruence. Qed.

(** C10 (as amended).  [add] of a record whose non-empty id is already
    in the library puts the new record in the place of the old one,
    without an error for the clash and without taking an id from the
    counter.  When the pattern of the record compiles, the compiled
    matcher is replaced too and the record is returned; when it does not,
    [add] raises [re.error] and the matcher cached under the id is the
    old one.  The counter moves only for a record that comes without an
    id, and then by one whenever the counter can be written into an id. *)
Theorem add_existing_id_overwrites
    (lib : TemplateLibrary) (record old : TemplateRecord)
    (Hid : template_id record <> EmptyString)
    (Hold : ODict.get (template_id record) (templates lib) = Some old) :
  let lib' := fst (add record lib) in
  ODict.get (template_id record) (templates lib') = Some record
  /\ ODict.keys (templates lib') = ODict.keys (templates lib)
  /\ _sequence lib' = _sequence lib
  /\ lib_source_id lib' = lib_source_id lib
  /\ (forall k, k <> template_id record ->
        ODict.get k (templates lib') = ODict.get k (templates lib)
        /\ _compiled lib' !! k = _compiled lib !! k)
  /\ match re_compile (regex record) with
     | Some p =>
         snd (add record lib) = Ok record
         /\ _compiled lib' !! template_id record = Some p
     | None =>
         snd (add record lib) = Raise (ReError (regex record))
         /\ _compiled lib' !! template_id record = _compiled lib !! template_id record
     end
  /\ (forall r l, _sequence (fst (add r l)) <> _sequence l -> template_id r = EmptyString)
  /\ (forall r l, template_id r = EmptyString ->
        PyStr.fstring_04d (_sequence l) <> None ->
        _sequence (fst (add r l)) = _sequence l + 1).
Proof.
  apply truthy_nonempty in Hid.
  pose proof (add_spec record lib (or_introl Hid)) as Hadd. cbv zeta in Hadd.
  rewrite Hid in Hadd. rewrite with_template_id_same in Hadd.
  destruct Hadd as (Ht & Hsid & Hs & Hres). cbv zeta.
  rewrite Ht. split; [apply ODictFacts.get_set_eq|].
  split; [apply ODictFacts.keys_set_present; eapply ODictFacts.get_Some_keys, Hold|].
  split; [exact Hs|]. split; [exact Hsid|]. split.
  { intros k Hk. split; [now apply ODictFacts.get_set_ne|].
    destruct (re_compile (regex record)); destruct Hres as [_ ->]; [|reflexivity].
    now apply lookup_insert_ne. }
  split.
  { destruct (re_compile (regex record)); destruct Hres as [Hr ->].
    - split; [exact Hr|apply lookup_insert_eq].
    - split; [exact Hr|reflexivity]. }
  split.
  - intros r l Hne. destruct (PyStr.truthy (template_id r)) eqn:Hr.
    + pose proof (add_spec r l (or_introl Hr)) as (_ & _ & Hs' & _).
      rewrite Hr in Hs'. congruence.
    + now destruct (template_id r).
  - intros r l Hempty Hfmt. pose proof (add_spec r l (or_intror Hfmt)) as (_ & _ & Hs' & _).
    now rewrite Hempty in Hs'.
Qed.

(** *** Reloading *)

Lemma load_sequence payload lib lib' :
  _load payload lib = (lib', Ok tt) ->
  _sequence lib <= _sequence lib'
  /\ lib_source_id lib' = lib_source_id lib
  /\ forall r v, In r payload ->
       PyStr.py_int (PyStr.rsplit_last (template_id r)) = Some v -> v < _sequence lib'.
Proof.
  revert lib. induction payload as [|r rest IH]; intros lib; cbn [_load].
  - intros [= <-]. split; [lia|]. split; [reflexivity|]. intros r v [].
  - destruct (re_compile (regex r)) as [p|]; [|discriminate].
    destruct (PyStr.py_int (PyStr.rsplit_last (template_id r))) as [suffix|] eqn:Esuf;
      intros Hload; apply IH in Hload as (Hle & Hsid & Hin); cbn in Hle, Hsid.
    + split; [lia|]. split; [assumption|].
      intros r' v [<-|Hr'] Hv; [|eauto]. rewrite Esuf in Hv. injection Hv as <-. lia.
    + split; [lia|]. split; [assumption|].
      intros r' v [<-|Hr'] Hv; [|eauto]. congruence.
Qed.

(** The counter after a load is the one before, or one more than a
    suffix that [int] accepted. *)
Lemma load_counter_exact payload lib lib' :
  _load payload lib = (lib', Ok tt) ->
  _sequence lib' = _sequence lib
  \/ exists r, In r payload
               /\ PyStr.py_int (PyStr.rsplit_last (template_id r)) = Some (_sequence lib' - 1).
Proof.
  revert lib. induction payload as [|r rest IH]; intros lib; cbn [_load].
  - intros [= <-]. now left.
  - destruct (re_compile (regex r)) as [p|]; [|discriminate].
    destruct (PyStr.py_int (PyStr.rsplit_last (template_id r))) as [suffix|] eqn:Esuf;
      intros Hload; apply IH in Hload as [Hsame|(r' & Hin & Hr')].
    + cbn in Hsame. destruct (Z.max_spec (_sequence lib) (suffix + 1)) as [[_ Hm]|[_ Hm]].
      * right. exists r. split; [now left|]. rewrite Hsame, Hm, Esuf. f_equal. lia.
      * left. now rewrite Hsame, Hm.
    + right. exists r'. split; [now right|exact Hr'].
    + now left.
    + right. exists r'. split; [now right|exact Hr'].
Qed.

(** *** Matching *)

Lemma match_loop_first_hit all c0 text :
  ODict.wf all ->
  forall items c, incl items all -> cache_ext all c0 c ->
    cache_ext all c0 (fst (match_loop items c text))
    /\ snd (match_loop items c text) = first_hit items c0 text.
Proof.
  intros Hwf. induction items as [|[tid r] rest IH]; intros c Hincl Hext;
    cbn [match_loop first_hit].
  - split; [assumption|reflexivity].
  - assert (Hin : In (tid, r) all) by (apply Hincl; now left).
    assert (Hrest : incl rest all) by (intros x Hx; apply Hincl; now right).
    destruct (is_active r) eqn:Hact; cbn [negb]; [|now apply IH].
    pose proof (Hext tid r Hin) as He. rewrite <- He. unfold entry_pattern in He |- *.
    destruct (c !! tid) as [p|] eqn:Hc.
    + destruct (re_fullmatch p text); [split; [assumption|reflexivity]|now apply IH].
    + destruct (re_compile (regex r)) as [p|] eqn:Hcomp;
        [|split; [assumption|reflexivity]].
      assert (Hext' : cache_ext all c0 (<[tid := p]> c)).
      { intros tid' r' Hin'. destruct (decide (tid' = tid)) as [->|Hne].
        - assert (r' = r) as -> by (eapply ODictFacts.wf_functional; eauto).
          rewrite <- (Hext tid r Hin). unfold entry_pattern.
          now rewrite lookup_insert_eq, Hc, Hcomp.
        - rewrite <- (Hext tid' r' Hin'). unfold entry_pattern.
          now rewrite lookup_insert_ne by congruence. }
      destruct (re_fullmatch p text); [split; [assumption|reflexivity]|now apply IH].
Qed.

Lemma match_loop_total text items c :
  (forall tid, In tid (ODict.keys items) -> is_Some (c !! tid)) ->
  fst (match_loop items c text) = c /\ exists hit, snd (match_loop items c text) = Ok hit.
Proof.
  induction items as [|[tid r] rest IH]; intros Hall; cbn [match_loop].
  - split; [reflexivity|]. now exists None.
  - assert (Hrest : forall t, In t (ODict.keys rest) -> is_Some (c !! t))
      by (intros t Ht; apply Hall; now right).
    destruct (is_active r); cbn [negb]; [|now apply IH].
    destruct (Hall tid) as [p Hp]; [now left|]. rewrite Hp.
    destruct (re_fullmatch p text) as [m|]; [|now apply IH].
    split; [reflexivity|]. now eexists.
Qed.

Lemma first_hit_Some items c text r g :
  first_hit items c text = Ok (Some (r, g)) <->
  exists l1 tid l2 p,
    items = (l1 ++ (tid, r) :: l2)%list
    /\ is_active r = true
    /\ entry_pattern c tid r = Some p
    /\ re_fullmatch p text = Some g
    /\ Forall (passed_over c text) l1.
Proof.
  induction items as [|[tid0 r0] rest IH]; cbn [first_hit].
  - split; [discriminate|]. intros (l1 & tid & l2 & p & Heq & _). now destruct l1.
  - split.
    + destruct (is_active r0) eqn:Hact; cbn [negb].
      * destruct (entry_pattern c tid0 r0) as [p0|] eqn:Hp0; [|discriminate].
        destruct (re_fullmatch p0 text) as [m|] eqn:Hm.
        -- intros [= <- <-]. exists [], tid0, rest, p0. auto.
        -- intros Hrest. apply IH in Hrest as (l1 & tid & l2 & p & -> & Ha & Hp & Hg & Hl1).
           exists ((tid0, r0) :: l1), tid, l2, p. repeat split; auto.
           constructor; [|assumption]. right. exists p0. auto.
      * intros Hrest. apply IH in Hrest as (l1 & tid & l2 & p & -> & Ha & Hp & Hg & Hl1).
        exists ((tid0, r0) :: l1), tid, l2, p. repeat split; auto.
        constructor; [|assumption]. now left.
    + intros (l1 & tid & l2 & p & Heq & Ha & Hp & Hg & Hl1).
      destruct l1 as [|e l1]; cbn [app] in Heq.
      * injection Heq as -> -> ->. rewrite Ha. cbn [negb]. now rewrite Hp, Hg.
      * injection Heq as <- ->. apply Forall_cons in Hl1 as [He Hl1].
        assert (Hrest : first_hit (l1 ++ (tid, r) :: l2) c text = Ok (Some (r, g))).
        { apply IH. exists l1, tid, l2, p. auto. }
        destruct He as [Hinact|(p0 & Hp0 & Hno)]; cbn [fst snd] in *.
        -- now rewrite Hinact.
        -- destruct (is_active r0); cbn [negb]; [|assumption]. now rewrite Hp0, Hno.
Qed.

Lemma first_hit_None items c text :
  first_hit items c text = Ok None <-> Forall (passed_over c text) items.
Proof.
  induction items as [|[tid0 r0] rest IH]; cbn [first_hit].
  - split; [constructor|reflexivity].
  - rewrite Forall_cons. split.
    + destruct (is_active r0) eqn:Hact; cbn [negb].
      * destruct (entry_pattern c tid0 r0) as [p0|] eqn:Hp0; [|discriminate].
        destruct (re_fullmatch p0 text) as [m|] eqn:Hm; [discriminate|].
        intros Hrest. split; [|now apply IH]. right. exists p0. auto.
      * intros Hrest. split; [now left|now apply IH].
    + intros [[Hinact|(p0 & Hp0 & Hno)] Hrest]; cbn [fst snd] in *.
      * rewrite Hinact. now apply IH.
      * destruct (is_active r0); cbn [negb]; [|now apply IH].
        rewrite Hp0, Hno. now apply IH.
Qed.

Lemma variant_refl lib : variant lib lib.
Proof. repeat split. Qed.

Lemma match_variant lib lib1 line :
  ODict.wf (templates lib) -> variant lib lib1 ->
  variant lib (fst (match_ line lib1))
  /\ snd (match_ line lib1)
     = first_hit (templates lib) (_compiled lib) (transformed line).
Proof.
  intros Hwf (Ht & Hsid & Hseq & Hext). unfold match_.
  pose proof (match_loop_first_hit (templates lib) (_compiled lib) (transformed line) Hwf
                (templates lib) (_compiled lib1) (incl_refl _) Hext) as [Hext' Hres].
  rewrite Ht.
  destruct (match_loop (templates lib) (_compiled lib1) (transformed line)) as [c res].
  cbn [fst snd] in *. split; [|exact Hres]. repeat split; assumption.
Qed.

(** C2.  [match] goes through the entries in insertion order, skips the
    inactive ones, and returns the first active record whose compiled
    pattern matches the whole canonical text, with the captured
    variables: a record is returned exactly when every entry before it is
    inactive or fails to match in full, and nothing is returned exactly
    when that holds of all entries.  The records are left as they are,
    asking again gives the same answer, and a library whose entries all
    have their compiled pattern is not changed at all. *)
Theorem match_returns_first_full_match
    (lib : TemplateLibrary) (line : ProcessedLogLine)
    (Hwf : ODict.wf (templates lib)) :
  let text := transformed line in
  let lib' := fst (match_ line lib) in
  let res := snd (match_ line lib) in
  (forall r g,
      res = Ok (Some (r, g)) <->
      exists l1 tid l2 p,
        templates lib = (l1 ++ (tid, r) :: l2)%list
        /\ is_active r = true
        /\ entry_pattern (_compiled lib) tid r = Some p
        /\ re_fullmatch p text = Some g
        /\ Forall (passed_over (_compiled lib) text) l1)
  /\ (res = Ok None <-> Forall (passed_over (_compiled lib) text) (templates lib))
  /\ templates lib' = templates lib
  /\ _sequence lib' = _sequence lib
  /\ snd (match_ line lib') = res
  /\ (compiled_total lib -> lib' = lib /\ exists hit, res = Ok hit).
Proof.
  cbv zeta.
  pose proof (match_variant lib lib line Hwf (variant_refl lib)) as [Hvar Hres].
  pose proof (match_variant lib _ line Hwf Hvar) as [_ Hres'].
  rewrite Hres', Hres. destruct Hvar as (Ht & _ & Hs & _).
  split; [intros r g; apply first_hit_Some|].
  split; [apply first_hit_None|].
  split; [exact Ht|]. split; [exact Hs|]. split; [reflexivity|].
  intros Htotal. rewrite <- Hres. unfold match_.
  destruct (match_loop_total (transformed line) (templates lib) (_compiled lib) Htotal)
    as [Hc Hhit].
  destruct (match_loop (templates lib) (_compiled lib) (transformed line)) as [c res].
  cbn [fst snd] in *. subst c. split; [now destruct lib|exact Hhit].
Qed.

(** *** The reconciliation pass *)

Lemma match_all_variant lib :
  ODict.wf (templates lib) ->
  forall lines idx lib1 lib2, variant lib lib1 -> variant lib lib2 ->
    variant lib (fst (match_all_from idx lines lib1))
    /\ snd (match_all_from idx lines lib1) = snd (match_all_from idx lines lib2).
Proof.
  intros Hwf. induction lines as [|line rest IH]; intros idx lib1 lib2 Hv1 Hv2;
    cbn [match_all_from].
  - split; [assumption|reflexivity].
  - destruct (match_variant lib lib1 line Hwf Hv1) as [Hv1' Hr1].
    destruct (match_variant lib lib2 line Hwf Hv2) as [Hv2' Hr2].
    destruct (match_ line lib1) as [lib1' r1], (match_ line lib2) as [lib2' r2].
    cbn [fst snd] in *. rewrite Hr1, Hr2.
    destruct (first_hit (templates lib) (_compiled lib) (transformed line)) as [hit|e];
      [|split; [assumption|reflexivity]].
    destruct (IH (idx + 1) lib1' lib2' Hv1' Hv2') as [Hv Hr].
    destruct (match_all_from (idx + 1) rest lib1') as [l1 [res1|e1]],
             (match_all_from (idx + 1) rest lib2') as [l2 [res2|e2]];
      cbn [fst snd] in *; split; congruence.
Qed.

Lemma match_all_total lines :
  forall idx lib, compiled_total lib ->
    fst (match_all_from idx lines lib) = lib
    /\ exists results, snd (match_all_from idx lines lib) = Ok results
                       /\ length results = length lines.
Proof.
  induction lines as [|line rest IH]; intros idx lib Htotal; cbn [match_all_from].
  - split; [reflexivity|]. now exists [].
  - unfold match_.
    destruct (match_loop_total (transformed line) (templates lib) (_compiled lib) Htotal)
      as [Hc [hit Hhit]].
    destruct (match_loop (templates lib) (_compiled lib) (transformed line)) as [c res].
    cbn [fst snd] in *. subst c res.
    replace (set_compiled (_compiled lib) lib) with lib by now destruct lib.
    destruct (IH (idx + 1) lib Htotal) as [Hlib (results & Hres & Hlen)].
    destruct (match_all_from (idx + 1) rest lib) as [lib' res]. cbn [fst snd] in *.
    subst lib' res. split; [reflexivity|]. eexists. split; [reflexivity|].
    cbn [length]. now rewrite Hlen.
Qed.

(** C3.  The reconciliation pass only matches: run twice on the same
    store and the same lines it gives the same per-line results, hence
    the same rows in the output file; it leaves every record, the id
    counter and the source id as they were, and on a store whose entries
    all carry their compiled pattern (every store built by [_load] and
    [add]) it changes nothing at all and labels every line. *)
Theorem phase2_is_reproducible
    (lib : TemplateLibrary) (lines : list ProcessedLogLine)
    (Hwf : ODict.wf (templates lib)) :
  let first := match_all lib lines in
  let second := match_all (fst first) lines in
  snd second = snd first
  /\ (forall r1 r2, snd first = Ok r1 -> snd second = Ok r2 ->
                    structured_output r2 = structured_output r1)
  /\ templates (fst first) = templates lib
  /\ _sequence (fst first) = _sequence lib
  /\ lib_source_id (fst first) = lib_source_id lib
  /\ (compiled_total lib ->
      fst first = lib
      /\ exists results, snd first = Ok results /\ length results = length lines).
Proof.
  cbv zeta. unfold match_all.
  destruct (match_all_variant lib Hwf lines 1 lib lib (variant_refl lib) (variant_refl lib))
    as [Hv _].
  destruct (match_all_variant lib Hwf lines 1 _ lib Hv (variant_refl lib)) as [_ Hsame].
  split; [exact Hsame|].
  split; [intros r1 r2 H1 H2; rewrite Hsame, H1 in H2; now injection H2 as ->|].
  destruct Hv as (Ht & Hsid & Hs & _).
  split; [exact Ht|]. split; [exact Hs|]. split; [exact Hsid|].
  intros Htotal. now apply match_all_total.
Qed.

(** *** The invariant of the library *)

Lemma new_library_ok sid : library_ok (new_library sid).
Proof.
  unfold library_ok, compiled_total, sequence_above, keyed_by_id, ODict.wf. cbn.
  repeat split; try tauto; try lia. constructor.
Qed.

(** The next id is not in use. *)
Lemma next_id_fresh lib :
  sequence_above lib -> PyStr.fstring_04d (_sequence lib) <> None ->
  ODict.get (lib_source_id lib ++ "-" ++ PyStr.format_04d (_sequence lib)) (templates lib)
  = None.
Proof.
  intros [Hone Habove] Hfmt. apply ODictFacts.get_None_keys. intros Hin.
  specialize (Habove _ (_sequence lib) Hin).
  rewrite PyStrFacts.rsplit_last_allocated in Habove by lia.
  assert (Hz : 0 <= _sequence lib) by lia.
  specialize (Habove (PyStrFacts.py_int_format_04d _ Hz Hfmt)). lia.
Qed.

Lemma In_set_inv {V} k v (e : string * V) d :
  In e (ODict.set k v d) -> e = (k, v) \/ In e d.
Proof.
  induction d as [|[k0 v0] d IH]; cbn [ODict.set].
  - intros [<-|[]]. now left.
  - destruct (String.eqb k k0).
    + intros [<-|Hin]; [now left|right; now right].
    + intros [<-|Hin]; [right; now left|].
      destruct (IH Hin); [now left|right; now right].
Qed.

Lemma In_alter_inv {V} (f : V -> V) k (e : string * V) d :
  In e (ODict.alter f k d) -> In e d \/ exists v, In (k, v) d /\ e = (k, f v).
Proof.
  induction d as [|[k0 v0] d IH]; cbn [ODict.alter]; [tauto|].
  destruct (String.eqb_spec k k0) as [->|Hne].
  - intros [<-|Hin]; [right; exists v0; split; [now left|reflexivity]|left; now right].
  - intros [<-|Hin]; [left; now left|].
    destruct (IH Hin) as [|(v & Hv & ->)]; [left; now right|].
    right. exists v. split; [now right|reflexivity].
Qed.

(** [add] of a record without id keeps the counter above the suffixes,
    whether the pattern compiles or not. *)
Lemma add_sequence_above record lib :
  sequence_above lib -> template_id record = EmptyString ->
  PyStr.fstring_04d (_sequence lib) <> None ->
  sequence_above (fst (add record lib)).
Proof.
  intros [Hone Habove] Hid Hfmt.
  pose proof (add_spec record lib (or_intror Hfmt)) as Hspec. cbv zeta in Hspec.
  rewrite Hid in Hspec. cbn [PyStr.truthy] in Hspec.
  destruct Hspec as (Ht & _ & Hseq & _).
  unfold sequence_above. rewrite Ht, Hseq. split; [lia|].
  intros k v Hk Hv. apply ODictFacts.In_keys_set in Hk as [->|Hk].
  - rewrite PyStrFacts.rsplit_last_allocated in Hv by lia.
    rewrite PyStrFacts.py_int_format_04d in Hv by (lia || assumption).
    injection Hv as <-. lia.
  - specialize (Habove _ _ Hk Hv). lia.
Qed.

Lemma add_ok record lib lib' stored :
  library_ok lib -> template_id record = EmptyString ->
  add record lib = (lib', Ok stored) -> library_ok lib'.
Proof.
  intros (Hwf & Htot & Habove & Hkey) Hid Hadd.
  assert (Hfmt : PyStr.fstring_04d (_sequence lib) <> None).
  { destruct (add_Ok_id _ _ _ _ Hadd) as [Ht|Hf]; [|exact Hf].
    rewrite Hid in Ht. discriminate. }
  pose proof (add_sequence_above record lib Habove Hid Hfmt) as Habove'.
  pose proof (add_spec record lib (or_intror Hfmt)) as Hspec. cbv zeta in Hspec.
  rewrite Hadd, Hid in Hspec. rewrite Hadd in Habove'.
  cbn [fst snd PyStr.truthy] in Hspec, Habove'.
  destruct Hspec as (Ht & Hsid & Hseq & Hres).
  destruct (re_compile (regex record)) as [p|]; destruct Hres as [Hres Hc]; [|discriminate].
  set (tid := lib_source_id lib ++ "-" ++ PyStr.format_04d (_sequence lib)) in *.
  split; [rewrite Ht; now apply ODictFacts.wf_set|]. split; [|split; [exact Habove'|]].
  - unfold compiled_total. rewrite Ht, Hc.
    intros k Hk. apply ODictFacts.In_keys_set in Hk as [->|Hk].
    + rewrite lookup_insert_eq. now eexists.
    + destruct (decide (tid = k)) as [->|Hne].
      * rewrite lookup_insert_eq. now eexists.
      * rewrite lookup_insert_ne by assumption. now apply Htot.
  - unfold keyed_by_id. rewrite Ht.
    intros k r Hin. apply In_set_inv in Hin as [[= -> ->]|Hin]; [reflexivity|].
    now apply Hkey.
Qed.

Lemma deactivate_ok tid lib : library_ok lib -> library_ok (deactivate tid lib).
Proof.
  intros (Hwf & Htot & Habove & Hkey). unfold deactivate.
  destruct (ODict.get tid (templates lib));
    [|exact (conj Hwf (conj Htot (conj Habove Hkey)))].
  unfold library_ok, compiled_total, sequence_above, keyed_by_id.
  cbn [templates _compiled _sequence set_templates].
  rewrite ODictFacts.keys_alter.
  split; [now apply ODictFacts.wf_alter|]. split; [assumption|]. split; [assumption|].
  intros k r Hin. apply In_alter_inv in Hin as [Hin|(v & Hv & [= -> ->])].
  - now apply Hkey.
  - cbn. now apply Hkey.
Qed.

Lemma load_ok payload lib lib' :
  library_ok lib -> _load payload lib = (lib', Ok tt) -> library_ok lib'.
Proof.
  revert lib. induction payload as [|r rest IH]; intros lib Hok; cbn [_load].
  - now intros [= <-].
  - destruct (re_compile (regex r)) as [p|]; [|discriminate].
    destruct Hok as (Hwf & Htot & [Hone Habove] & Hkey).
    assert (Hbase : forall n, _sequence lib <= n ->
              (forall v, PyStr.py_int (PyStr.rsplit_last (template_id r)) = Some v -> v < n) ->
              library_ok
                (set_sequence n
                   (set_compiled (<[template_id r := p]> (_compiled lib))
                      (set_templates (ODict.set (template_id r) r (templates lib)) lib)))).
    { intros n Hn Hsuf.
      unfold library_ok, compiled_total, sequence_above, keyed_by_id. cbn.
      split; [now apply ODictFacts.wf_set|]. split; [|split].
      - intros k Hk. apply ODictFacts.In_keys_set in Hk as [->|Hk].
        + rewrite lookup_insert_eq. now eexists.
        + destruct (decide (template_id r = k)) as [->|Hne].
          * rewrite lookup_insert_eq. now eexists.
          * rewrite lookup_insert_ne by assumption. now apply Htot.
      - split; [lia|]. intros k v Hk Hv.
        apply ODictFacts.In_keys_set in Hk as [->|Hk]; [now apply Hsuf|].
        specialize (Habove _ _ Hk Hv). lia.
      - intros k r' Hin. apply In_set_inv in Hin as [[= -> ->]|Hin]; [reflexivity|].
        now apply Hkey. }
    destruct (PyStr.py_int (PyStr.rsplit_last (template_id r))) as [suffix|] eqn:Esuf.
    + apply IH. apply (Hbase (Z.max (_sequence lib) (suffix + 1))); [lia|].
      intros v [= <-]. lia.
    + intros Hload. eapply IH; [|exact Hload].
      specialize (Hbase (_sequence lib) (Z.le_refl _)).
      cbn in Hbase. apply Hbase. discriminate.
Qed.

(** *** Allocation of ids *)

Lemma ids_from_S sid n count :
  ids_from sid n (S count)
  = (sid ++ "-" ++ PyStr.format_04d n) :: ids_from sid (n + 1) count.
Proof.
  unfold ids_from. cbn [seq map]. rewrite <- seq_shift, map_map, Z.add_0_r. f_equal.
  apply map_ext. intros k. do 3 f_equal. lia.
Qed.

Lemma In_ids_from sid n count tid :
  In tid (ids_from sid n count) <->
  exists k, (k < count)%nat /\ tid = sid ++ "-" ++ PyStr.format_04d (n + Z.of_nat k).
Proof.
  unfold ids_from. rewrite in_map_iff. split.
  - intros (k & <- & Hk). apply in_seq in Hk. exists k. split; [lia|reflexivity].
  - intros (k & Hk & ->). exists k. split; [reflexivity|]. apply in_seq. lia.
Qed.

Lemma NoDup_ids_from sid count : forall n, NoDup (ids_from sid n count).
Proof.
  induction count as [|count IH]; intros n; [constructor|].
  rewrite ids_from_S. constructor; [|apply IH].
  intros Hin. apply list_elem_of_In, In_ids_from in Hin as (k & _ & Heq).
  apply PyStrFacts.allocated_inj in Heq. lia.
Qed.

(** The outcome of one [add] of a record without id. *)
Lemma add_unnamed record lib :
  template_id record = EmptyString ->
  PyStr.fstring_04d (_sequence lib) <> None ->
  let tid := lib_source_id lib ++ "-" ++ PyStr.format_04d (_sequence lib) in
  templates (fst (add record lib))
  = ODict.set tid (with_template_id tid record) (templates lib)
  /\ lib_source_id (fst (add record lib)) = lib_source_id lib
  /\ _sequence (fst (add record lib)) = _sequence lib + 1
  /\ snd (add record lib) = add_result tid record.
Proof.
  intros Hid Hfmt. pose proof (add_spec record lib (or_intror Hfmt)) as Hspec.
  cbv zeta in *. rewrite Hid in Hspec. cbn [PyStr.truthy] in Hspec.
  destruct Hspec as (Ht & Hsid & Hseq & Hres).
  split; [exact Ht|]. split; [exact Hsid|]. split; [exact Hseq|].
  unfold add_result. cbn [regex with_template_id].
  destruct (re_compile (regex record)); now destruct Hres.
Qed.

Lemma room_next (n : Z) (count : nat) :
  (forall k, (k < S count)%nat -> PyStr.fstring_04d (n + Z.of_nat k) <> None) ->
  PyStr.fstring_04d n <> None
  /\ forall k, (k < count)%nat -> PyStr.fstring_04d (n + 1 + Z.of_nat k) <> None.
Proof.
  intros Hroom. split.
  - specialize (Hroom 0%nat). rewrite Z.add_0_r in Hroom. apply Hroom. lia.
  - intros k Hk. specialize (Hroom (S k)).
    replace (n + 1 + Z.of_nat k) with (n + Z.of_nat (S k)) by lia. apply Hroom. lia.
Qed.

(** A sequence of [add] calls for records without ids: the results, the
    counter, and the place of every record in the library. *)
Lemma add_each_unnamed records :
  forall lib,
    Forall (fun r => template_id r = EmptyString) records ->
    (forall k, (k < length records)%nat ->
               PyStr.fstring_04d (_sequence lib + Z.of_nat k) <> None) ->
    let ids := ids_from (lib_source_id lib) (_sequence lib) (length records) in
    snd (add_each records lib) = zip_with add_result ids records
    /\ _sequence (fst (add_each records lib)) = _sequence lib + Z.of_nat (length records)
    /\ lib_source_id (fst (add_each records lib)) = lib_source_id lib
    /\ (forall tid, ~ In tid ids ->
          ODict.get tid (templates (fst (add_each records lib)))
          = ODict.get tid (templates lib))
    /\ (forall i tid r, ids !! i = Some tid -> records !! i = Some r ->
          ODict.get tid (templates (fst (add_each records lib)))
          = Some (with_template_id tid r)).
Proof.
  induction records as [|r rest IH]; intros lib Hnoid Hroom; cbv zeta.
  - cbn. split; [reflexivity|]. split; [lia|]. split; [reflexivity|].
    split; [reflexivity|]. intros i tid r Hi. now rewrite lookup_nil in Hi.
  - apply Forall_cons in Hnoid as [Hid Hnoid]. cbn [length] in *.
    apply room_next in Hroom as [Hfmt Hroom].
    destruct (add_unnamed r lib Hid Hfmt) as (Ht & Hsid & Hseq & Hres).
    rewrite ids_from_S. cbn [add_each zip_with].
    destruct (add r lib) as [lib1 res]. cbn [fst snd] in Ht, Hsid, Hseq, Hres.
    specialize (IH lib1 Hnoid). rewrite Hseq, Hsid in IH. specialize (IH Hroom).
    cbv zeta in IH. destruct IH as (Hresults & Hcount & Hsource & Hother & Hfiled).
    destruct (add_each rest lib1) as [lib2 more]. cbn [fst snd] in *.
    split; [now rewrite Hres, Hresults|]. split; [lia|]. split; [exact Hsource|].
    split.
    + intros tid Hnot. rewrite Hother by (intros Hin; apply Hnot; now right).
      rewrite Ht. apply ODictFacts.get_set_ne. intros <-. apply Hnot. now left.
    + intros [|i] tid r' Hi Hr; cbn in Hi, Hr.
      * injection Hi as <-. injection Hr as <-. rewrite Hother.
        -- rewrite Ht. apply ODictFacts.get_set_eq.
        -- intros Hin. apply In_ids_from in Hin as (k & _ & Heq).
           apply PyStrFacts.allocated_inj in Heq. lia.
      * now apply (Hfiled i).
Qed.

(** On a library whose counter is above the suffixes in use, the
    records are appended: nothing that was there is overwritten. *)
Lemma add_each_appends records :
  forall lib,
    sequence_above lib ->
    Forall (fun r => template_id r = EmptyString) records ->
    (forall k, (k < length records)%nat ->
               PyStr.fstring_04d (_sequence lib + Z.of_nat k) <> None) ->
    templates (fst (add_each records lib))
    = (templates lib
       ++ zip_with (fun tid r => (tid, with_template_id tid r))
            (ids_from (lib_source_id lib) (_sequence lib) (length records)) records)%list.
Proof.
  induction records as [|r rest IH]; intros lib Habove Hnoid Hroom.
  - cbn. now rewrite app_nil_r.
  - apply Forall_cons in Hnoid as [Hid Hnoid]. cbn [length] in *.
    apply room_next in Hroom as [Hfmt Hroom].
    destruct (add_unnamed r lib Hid Hfmt) as (Ht & Hsid & Hseq & _).
    pose proof (add_sequence_above r lib Habove Hid Hfmt) as Habove1.
    rewrite (ODictFacts.set_absent _ _ _ (next_id_fresh lib Habove Hfmt)) in Ht.
    rewrite ids_from_S. cbn [add_each zip_with].
    destruct (add r lib) as [lib1 res]. cbn [fst snd] in Ht, Hsid, Hseq, Habove1.
    specialize (IH lib1 Habove1 Hnoid). rewrite Hseq, Hsid in IH. specialize (IH Hroom).
    destruct (add_each rest lib1) as [lib2 more]. cbn [fst snd] in *.
    rewrite IH, Ht, <- app_assoc. reflexivity.
Qed.

(** C8 (as amended).  As long as the counter can be written out (it has
    at most 4300 digits), [allocate_id] gives the source id, a dash and
    the counter padded with zeros to four digits, and moves the counter
    on by one; beyond 9999 the number is printed in full.  A counter with
    more digits makes [allocate_id] raise [ValueError], with the counter
    left as it was.  Two different counters never give the same id.  In a
    sequence of [add] calls for records without ids, the call number [k]
    files its record under the id made from the counter plus [k] and
    returns it (or raises [re.error] after filing it); these ids are
    pairwise distinct, and on a library whose counter is above the
    suffixes in use they are appended behind the records that were there.
    After a reload the counter is at least one, above every suffix of the
    document that [int] accepts, and exactly one more than the greatest of
    them when there is one; the next id, when it can be allocated, has the
    counter as its suffix. *)
Theorem id_allocation_unique_monotone
    (lib : TemplateLibrary) (records : list TemplateRecord)
    (sid : string) (payload : list TemplateRecord) (loaded : TemplateLibrary)
    (Hnoid : Forall (fun r => template_id r = EmptyString) records)
    (Hroom : forall k, (k < length records)%nat ->
                       PyStr.fstring_04d (_sequence lib + Z.of_nat k) <> None)
    (Hload : load sid payload = (loaded, Ok tt)) :
  let next := lib_source_id lib ++ "-" ++ PyStr.format_04d (_sequence lib) in
  let ids := ids_from (lib_source_id lib) (_sequence lib) (length records) in
  let out := add_each records lib in
  ((PyStr.fstring_04d (_sequence lib) <> None ->
    allocate_id lib = (set_sequence (_sequence lib + 1) lib, Ok next)
    /\ (0 <= _sequence lib ->
        PyStr.py_int (PyStr.rsplit_last next) = Some (_sequence lib))
    /\ (sequence_above lib -> ODict.get next (templates lib) = None))
   /\ (PyStr.fstring_04d (_sequence lib) = None ->
       allocate_id lib = (lib, Raise (OtherError "ValueError")))
   /\ (PyStr.fstring_04d (_sequence lib) = None <->
       (PyStr.int_max_str_digits
        < String.length (PyStr.str_N (Z.to_N (Z.abs (_sequence lib)))))%nat)
   /\ (0 <= _sequence lib ->
       PyStr.format_04d (_sequence lib)
       = PyStr.zeros (4 - String.length (PyStr.str_Z (_sequence lib)))
                     (PyStr.str_Z (_sequence lib)))
   /\ (9999 < _sequence lib -> PyStr.format_04d (_sequence lib) = PyStr.str_Z (_sequence lib)))
  /\ (forall sid' n m, n <> m ->
        sid' ++ "-" ++ PyStr.format_04d n <> sid' ++ "-" ++ PyStr.format_04d m)
  /\ (snd out = zip_with add_result ids records
      /\ _sequence (fst out) = _sequence lib + Z.of_nat (length records)
      /\ NoDup ids
      /\ (forall i tid r, ids !! i = Some tid -> records !! i = Some r ->
            ODict.get tid (templates (fst out)) = Some (with_template_id tid r))
      /\ (forall tid, ~ In tid ids ->
            ODict.get tid (templates (fst out)) = ODict.get tid (templates lib))
      /\ (sequence_above lib ->
          templates (fst out)
          = (templates lib
             ++ zip_with (fun tid r => (tid, with_template_id tid r)) ids records)%list))
  /\ (1 <= _sequence loaded
      /\ (forall r v, In r payload ->
            PyStr.py_int (PyStr.rsplit_last (template_id r)) = Some v ->
            v < _sequence loaded)
      /\ (_sequence loaded = 1
          \/ exists r, In r payload
                       /\ PyStr.py_int (PyStr.rsplit_last (template_id r))
                          = Some (_sequence loaded - 1))
      /\ (PyStr.fstring_04d (_sequence loaded) <> None ->
          exists tid,
            snd (allocate_id loaded) = Ok tid
            /\ PyStr.py_int (PyStr.rsplit_last tid) = Some (_sequence loaded))).
Proof.
  cbv zeta. split; [|split; [|split]].
  - split; [|split; [|split; [|split]]].
    + intros Hfmt. unfold allocate_id.
      destruct (PyStr.fstring_04d (_sequence lib)) as [digits|] eqn:Hd; [|congruence].
      apply PyStrFacts.fstring_04d_Some in Hd as Hd'. subst digits.
      split; [reflexivity|]. split.
      * intros Hz. rewrite PyStrFacts.rsplit_last_allocated by exact Hz.
        apply PyStrFacts.py_int_format_04d; [exact Hz|]. now rewrite Hd.
      * intros Habove. apply next_id_fresh; [exact Habove|]. now rewrite Hd.
    + intros Hfmt. unfold allocate_id. now rewrite Hfmt.
    + unfold PyStr.fstring_04d.
      destruct (PyStr.int_max_str_digits
                <? String.length (PyStr.str_N (Z.to_N (Z.abs (_sequence lib)))))%nat eqn:Hlt.
      * apply Nat.ltb_lt in Hlt. split; [intros _; exact Hlt|reflexivity].
      * apply Nat.ltb_ge in Hlt. split; [discriminate|lia].
    + intros Hz. destruct (PyStrFacts.format_04d_padded (_sequence lib) Hz) as (k & -> & ->).
      reflexivity.
    + apply DigitCount.format_04d_large.
  - intros sid' n m Hne Heq. now apply PyStrFacts.allocated_inj in Heq.
  - destruct (add_each_unnamed records lib Hnoid Hroom)
      as (Hresults & Hcount & _ & Hother & Hfiled).
    split; [exact Hresults|]. split; [exact Hcount|]. split; [apply NoDup_ids_from|].
    split; [exact Hfiled|]. split; [exact Hother|].
    intros Habove. now apply add_each_appends.
  - unfold load in Hload.
    pose proof (load_counter_exact _ _ _ Hload) as Hexact.
    apply load_sequence in Hload as (Hle & _ & Hin).
    cbn [new_library _sequence] in Hle, Hexact.
    split; [exact Hle|]. split; [exact Hin|]. split; [exact Hexact|].
    intros Hfmt. unfold allocate_id.
    destruct (PyStr.fstring_04d (_sequence loaded)) as [digits|] eqn:Hd; [|congruence].
    apply PyStrFacts.fstring_04d_Some in Hd as Hd'. subst digits.
    eexists. split; [reflexivity|].
    rewrite PyStrFacts.rsplit_last_allocated by lia.
    apply PyStrFacts.py_int_format_04d; [lia|]. now rewrite Hd.
Qed.

End LibraryFacts.

(** ** The learning engine *)

Section EngineFacts.
Context `{RegexEngine}.
Variable agents : Collaborators.
Variable py_str : json -> string.

(** *** Conflict detection *)

Lemma conflicts_loop_filter p items ex :
  conflicts_loop p items ex
  = List.filter (fun pair => fully_matches p (snd pair)) (active_examples items ex).
Proof.
  induction items as [|[tid r] rest IH]; cbn [conflicts_loop active_examples]; [reflexivity|].
  destruct (is_active r); cbn [negb]; [|assumption].
  destruct (ex !! tid) as [sample|]; [|assumption].
  cbn [List.filter snd]. unfold fully_matches at 1.
  destruct (re_fullmatch p (transformed sample)); now rewrite IH.
Qed.

Lemma In_active_examples items ex r e :
  In (r, e) (active_examples items ex) <->
  exists tid sample, In (tid, r) items /\ is_active r = true
                     /\ ex !! tid = Some sample /\ e = transformed sample.
Proof.
  induction items as [|[tid0 r0] rest IH]; cbn [active_examples].
  - split; [intros []|]. intros (tid & sample & [] & _).
  - split.
    + intros Hin.
      assert (Hrest : In (r, e) (active_examples rest ex) ->
                exists tid sample, In (tid, r) ((tid0, r0) :: rest) /\ is_active r = true
                                   /\ ex !! tid = Some sample /\ e = transformed sample).
      { intros Hr. apply IH in Hr as (tid & sample & Hin' & Hmore).
        exists tid, sample. split; [now right|exact Hmore]. }
      destruct (is_active r0) eqn:Hact, (ex !! tid0) as [s0|] eqn:Hex; auto.
      destruct Hin as [[= <- <-]|Hin]; [|auto].
      exists tid0, s0. repeat split; auto. now left.
    + intros (tid & sample & [[= -> ->]|Hin] & Ha & Hex & ->).
      * rewrite Ha, Hex. now left.
      * assert (In (r, transformed sample) (active_examples rest ex))
          by (apply IH; eauto 6).
        destruct (is_active r0), (ex !! tid0); auto. now right.
Qed.

(** C1.  [_detect_conflicts] returns, in the order of the library,
    exactly those (active record, example) pairs whose example text the
    candidate pattern matches in full: a record is reported if and only
    if it is active, has an example in the cache and the compiled
    candidate matches the whole of that example.  A candidate that does
    not compile gives the empty list.  The call always returns, without
    an exception, and leaves the world as it was. *)
Theorem detect_conflicts_exact (rx : string) (w : World) :
  exists cs,
    _detect_conflicts rx w = (w, Ok cs)
    /\ (re_compile rx = None -> cs = [])
    /\ (forall p, re_compile rx = Some p ->
          cs = List.filter (fun pair => fully_matches p (snd pair))
                 (active_examples (templates (library w)) (examples w)))
    /\ (forall r e,
          In (r, e) cs <->
          exists p tid sample,
            re_compile rx = Some p
            /\ In (tid, r) (templates (library w)) /\ is_active r = true
            /\ examples w !! tid = Some sample /\ e = transformed sample
            /\ re_fullmatch p e <> None).
Proof.
  unfold _detect_conflicts, bind, gets, ret. 
  destruct (re_compile rx) as [p|] eqn:Hc.
  - eexists. split; [reflexivity|]. split; [discriminate|].
    split; [intros p' [= <-]; apply conflicts_loop_filter|].
    intros r e. rewrite conflicts_loop_filter, filter_In, In_active_examples.
    cbn [snd]. unfold fully_matches. split.
    + intros [(tid & sample & Hin & Ha & Hex & ->) Hm].
      exists p, tid, sample. repeat split; auto.
      destruct (re_fullmatch p (transformed sample)); [discriminate|discriminate].
    + intros (p' & tid & sample & [= <-] & Hin & Ha & Hex & -> & Hm).
      split; [eauto 6|]. destruct (re_fullmatch p (transformed sample)); [reflexivity|congruence].
  - exists []. split; [reflexivity|]. split; [reflexivity|]. split; [discriminate|].
    intros r e. split; [intros []|]. intros (p & _ & _ & [=] & _).
Qed.
(** *** The request log *)

Ltac norm_calls :=
  repeat (progress (cbn [calls set_calls length])
          || rewrite length_app || rewrite Nat.add_1_r).

Lemma filter_content line :
  transformed line <> EmptyString ->
  List.filter (fun s => PyStr.truthy (transformed s)) [line] = [line].
Proof. intros Hne. cbn. destruct (transformed line); [congruence|reflexivity]. Qed.

Lemma store_candidate_calls candidate line status detail (w : World) :
  calls (fst (store_candidate candidate line status detail w)) = calls w.
Proof.
  unfold store_candidate, bind, on_library.
  now destruct (add candidate (library w)) as [l [stored|e]].
Qed.

Lemma replace_all_calls ids : forall w : World, calls (fst (replace_all ids w)) = calls w.
Proof.
  induction ids as [|v rest IH]; intros w; cbn [replace_all]; [reflexivity|].
  unfold bind at 1. unfold replace_one, bind, lift_result.
  destruct v; cbn [Json.as_key]; try reflexivity; try apply IH.
  unfold on_library, examples_pop, modify. cbn [library set_library set_examples].
  now rewrite IH.
Qed.

Lemma apply_plan_calls plan candidate line context (w : World) :
  exists l,
    calls (fst (_apply_conflict_plan agents py_str plan candidate line context w))
    = (calls w ++ l)%list
    /\ In (map call_kind l) [ []; [ToValidator] ].
Proof.
  unfold _apply_conflict_plan, bind, review, request, _escalate, metrics_increment,
    service_enqueue, modify, ret.
  destruct (negb (Json.is_str (ODict.get "new_regex" plan))
            || negb (PyStr.truthy (PyStr.strip (Json.str_of (ODict.get "new_regex" plan))))).
  { exists []. cbn. rewrite app_nil_r. auto. }
  eexists [_]. split.
  { destruct (llm_review _ _ _ _ _) as [v|e]; [|reflexivity].
    destruct (negb (ValidationReport.approved v)); [reflexivity|].
    destruct (Json.eq_str (ODict.get "decision" plan) "replace_conflicting").
    { match goal with
      | |- context [replace_all ?ids ?w0] =>
          pose proof (replace_all_calls ids w0) as Hloop;
          destruct (replace_all ids w0) as [w1 [[]|e]]
      end; cbn [fst] in Hloop; [|exact Hloop].
      now rewrite store_candidate_calls. }
    destruct (Json.eq_str (ODict.get "decision" plan) "refine_candidate");
      [now rewrite store_candidate_calls|reflexivity]. }
  cbn. auto.
Qed.

Lemma after_review_calls rx report proposal line context (w : World) :
  exists l,
    calls (fst (after_review agents py_str rx report proposal line context w))
    = (calls w ++ l)%list
    /\ In (map call_kind l) [ []; [ToAdjudicator]; [ToAdjudicator; ToValidator] ].
Proof.
  unfold after_review. destruct (negb (ValidationReport.approved report)).
  { exists []. unfold bind, metrics_increment, modify, lift_result, ret.
    destruct (Json.join _ _); cbn; rewrite app_nil_r; auto. }
  unfold bind at 1. unfold gets at 1. unfold bind at 1. unfold _detect_conflicts at 1.
  unfold bind, gets.
  set (cs := match re_compile rx with
             | Some pattern => ret (conflicts_loop pattern (templates (library w)) (examples w))
             | None => ret []
             end w).
  assert (Hcs : fst cs = w /\ exists l, snd cs = Ok l).
  { subst cs. destruct (re_compile rx); cbn; eauto. }
  destruct cs as [w1 res]. cbn in Hcs. destruct Hcs as [-> [cs ->]].
  destruct cs as [|c cs].
  { exists []. rewrite store_candidate_calls, app_nil_r. cbn. auto. }
  unfold try_except_AgentError at 1. unfold resolve_conflict, try_except_AgentError, request.
  destruct (llm_resolve _ _ _ _ _ _) as [plan|[msg|p|msg|msg]].
  - cbn [ret].
    match goal with
    | |- context [_apply_conflict_plan agents py_str plan ?c line context ?w0] =>
        destruct (apply_plan_calls plan c line context w0) as (l & Hl & Hshape)
    end.
    eexists (_ :: l). rewrite Hl. cbn [calls set_calls]. rewrite <- app_assoc.
    split; [reflexivity|]. cbn [map call_kind].
    destruct Hshape as [<-|[<-|[]]]; cbn; auto.
  - eexists [_]. split; [reflexivity|cbn; auto].
  - eexists [_]. split; [reflexivity|cbn; auto].
  - eexists [_]. split; [reflexivity|cbn; auto].
  - eexists [_]. split; [reflexivity|cbn; auto].
Qed.

(** After the reviews of the proposal, no further refinement is asked
    for. *)
Lemma after_review_no_repair rx report proposal line context (w : World) :
  exists l,
    calls (fst (after_review agents py_str rx report proposal line context w))
    = (calls w ++ l)%list
    /\ Forall (fun c => is_repair (call_kind c) = false) l.
Proof.
  destruct (after_review_calls rx report proposal line context w) as (l & Hl & Hshape).
  exists l. split; [exact Hl|].
  destruct Hshape as [Hs|[Hs|[Hs|[]]]]; destruct l as [|c1 [|c2 [|c3 l]]];
    try discriminate; [constructor| |].
  - injection Hs as Hs. constructor; [now rewrite <- Hs|constructor].
  - injection Hs as Hs1 Hs2.
    constructor; [now rewrite <- Hs1|]. constructor; [now rewrite <- Hs2|constructor].
Qed.

(** *** Rejection *)

(** What the rejecting branch of [after_review] does: one escalation is
    counted, then the issues are joined, which is where a verdict whose
    issues are not all strings stops the run. *)
Lemma after_review_rejected rx report proposal line context (w : World) :
  ValidationReport.approved report = false ->
  after_review agents py_str rx report proposal line context w
  = (set_metrics (increment "escalations" 1 (metrics w)) w,
     match Json.strs (ValidationReport.issues report) with
     | Some texts => Ok (outcome "rejected" None (JStr (PyStr.join "; " texts)))
     | None => Raise (TypeError "sequence item: expected str instance")
     end).
Proof.
  intros Hrej. unfold after_review. rewrite Hrej. cbn [negb].
  unfold bind, metrics_increment, modify, lift_result, ret, Json.join.
  now destruct (Json.strs (ValidationReport.issues report)).
Qed.

(** C5.  When the validator rejects the proposed pattern, one refinement
    is requested, with the issues and suggestions of the verdict, and no
    other refinement is requested for the line, however the run goes on;
    when the repairer answers, the refined pattern is what is reviewed
    next.  If that review rejects too, nothing more is requested, the
    escalation counter has grown by exactly one, and the library, the
    example cache and the task queue are unchanged; the outcome is
    [rejected], with the issues joined as its detail, when all the issues of
    the second verdict are strings, and the run ends with [TypeError]
    (raised by the join, after the escalation was counted) when one of them
    is not. *)
Theorem rejected_twice_is_rejected
    (w : World) (line : ProcessedLogLine) (context : string)
    (proposal : TemplateProposal.t) (report1 : ValidationReport.t)
    (Hcontent : transformed line <> EmptyString)
    (Hderive : llm_derive agents (length (calls w)) line context = Ok proposal)
    (Hreview1 : llm_review agents (S (length (calls w)))
                  (TemplateProposal.regex proposal) line context = Ok report1)
    (Hrejected1 : ValidationReport.approved report1 = false) :
  let run := process_line agents py_str line context w in
  let asked :=
    [CallDerive line context;
     CallReview (TemplateProposal.regex proposal) line context;
     CallRefine (TemplateProposal.regex proposal) (ValidationReport.issues report1)
       (ValidationReport.suggestions report1) line context] in
  let answer :=
    llm_refine agents (S (S (length (calls w)))) (TemplateProposal.regex proposal)
      (ValidationReport.issues report1) (ValidationReport.suggestions report1)
      line context in
  (exists rest,
      calls (fst run) = (calls w ++ asked ++ rest)%list
      /\ Forall (fun c => is_repair (call_kind c) = false) rest)
  /\ (forall refined, answer = Ok refined ->
        exists rest,
          calls (fst run) = (calls w ++ asked ++ CallReview refined line context :: rest)%list)
  /\ (forall refined report2,
        answer = Ok refined ->
        llm_review agents (S (S (S (length (calls w))))) refined line context = Ok report2 ->
        ValidationReport.approved report2 = false ->
        calls (fst run) = (calls w ++ asked ++ [CallReview refined line context])%list
        /\ snd run
           = match Json.strs (ValidationReport.issues report2) with
             | Some texts => Ok (outcome "rejected" None (JStr (PyStr.join "; " texts)))
             | None => Raise (TypeError "sequence item: expected str instance")
             end
        /\ escalations (metrics (fst run)) = escalations (metrics w) + 1
        /\ processed_lines (metrics (fst run)) = processed_lines (metrics w)
        /\ matched_lines (metrics (fst run)) = matched_lines (metrics w)
        /\ learned_templates (metrics (fst run)) = learned_templates (metrics w)
        /\ library (fst run) = library w
        /\ examples (fst run) = examples w
        /\ interaction_service (fst run) = interaction_service w).
Proof.
  cbv zeta.
  destruct (process_line agents py_str line context w) as [w' res] eqn:Hrun.
  cbn [fst snd]. unfold process_line, derive in Hrun.
  rewrite (filter_content line Hcontent) in Hrun.
  unfold bind at 1 in Hrun. unfold request at 1 in Hrun. rewrite Hderive in Hrun.
  unfold bind at 1 in Hrun. unfold review at 1, request at 1 in Hrun.
  cbn [calls set_calls] in Hrun. rewrite length_app, Nat.add_1_r in Hrun.
  rewrite Hreview1, Hrejected1 in Hrun. cbn [negb] in Hrun.
  unfold try_except_AgentError, refine, request in Hrun.
  cbn [calls set_calls] in Hrun. rewrite !length_app, !Nat.add_1_r in Hrun.
  cbn [length] in Hrun.
  set (asked := [CallDerive line context;
                 CallReview (TemplateProposal.regex proposal) line context;
                 CallRefine (TemplateProposal.regex proposal)
                   (ValidationReport.issues report1)
                   (ValidationReport.suggestions report1) line context]).
  assert (Hasked : (((calls w ++ [CallDerive line context]) ++
                     [CallReview (TemplateProposal.regex proposal) line context]) ++
                    [CallRefine (TemplateProposal.regex proposal)
                       (ValidationReport.issues report1)
                       (ValidationReport.suggestions report1) line context])%list
                   = (calls w ++ asked)%list)
    by (subst asked; now rewrite <- !app_assoc).
  rewrite Hasked in Hrun.
  destruct (llm_refine agents (S (S (length (calls w)))) (TemplateProposal.regex proposal)
              (ValidationReport.issues report1) (ValidationReport.suggestions report1)
              line context) as [refined|e] eqn:Hrefine.
  - unfold bind at 1 in Hrun. unfold review, request in Hrun.
    cbn [calls set_calls] in Hrun. rewrite length_app, Nat.add_comm in Hrun.
    change (length asked) with 3%nat in Hrun. cbn [Nat.add] in Hrun.
    set (w3 := set_calls ((calls w ++ asked) ++ [CallReview refined line context])%list _) in Hrun.
    assert (Hw3 : calls w3 = (calls w ++ asked ++ [CallReview refined line context])%list)
      by (subst w3; cbn [calls set_calls]; now rewrite <- app_assoc).
    assert (Hrest3 : library w3 = library w /\ examples w3 = examples w
                     /\ metrics w3 = metrics w
                     /\ interaction_service w3 = interaction_service w)
      by (subst w3; cbn; auto).
    clearbody w3.
    destruct (llm_review agents (S (S (S (length (calls w))))) refined line context)
      as [report2|e2] eqn:Hreview2.
    + destruct (after_review_no_repair refined report2 proposal line context w3)
        as (l & Hl & Hno).
      rewrite Hrun in Hl. cbn [fst] in Hl.
      split; [|split].
      * exists (CallReview refined line context :: l). split.
        -- rewrite Hl, Hw3, <- !app_assoc. reflexivity.
        -- constructor; [reflexivity|exact Hno].
      * intros refined' [= <-]. exists l. rewrite Hl, Hw3, <- !app_assoc. reflexivity.
      * intros refined' report2' [= <-] Hr2 Hrejected2.
        rewrite Hreview2 in Hr2. injection Hr2 as <-.
        rewrite (after_review_rejected refined report2 proposal line context w3 Hrejected2)
          in Hrun.
        injection Hrun as <- <-. destruct Hrest3 as (Hlib & Hex & Hm & Hsvc).
        cbn [calls library examples metrics interaction_service set_metrics].
        rewrite Hm. cbn. repeat split; auto.
    + injection Hrun as <- <-. split; [|split].
      * exists [CallReview refined line context]. split; [exact Hw3|].
        constructor; [reflexivity|constructor].
      * intros refined' [= <-]. exists []. exact Hw3.
      * intros refined' report2' [= <-] Hr2. rewrite Hreview2 in Hr2. discriminate.
  - assert (Hcalls : calls w' = (calls w ++ asked)%list).
    { destruct e as [msg|p|msg|msg]; injection Hrun as <- _; reflexivity. }
    split; [|split; [intros ? [=]|intros ? ? [=]]].
    exists []. rewrite app_nil_r. split; [exact Hcalls|constructor].
Qed.

(** *** Escalation *)

(** What [_escalate] does. *)
Lemma escalate_spec candidate line plan reason (w : World) :
  exists w' task,
    _escalate candidate line plan reason w = (w', Ok tt)
    /\ library w' = library w /\ examples w' = examples w /\ calls w' = calls w
    /\ metrics w' = increment "escalations" 1 (metrics w)
    /\ _queue (interaction_service w') = (_queue (interaction_service w) ++ [task])%list
    /\ _counter (interaction_service w') = _counter (interaction_service w) + 1
    /\ InteractionTask.task_type task = "template_conflict"
    /\ InteractionTask.description task = reason
    /\ InteractionTask.status task = "pending"
    /\ InteractionTask.payload task = escalation_payload candidate plan line.
Proof.
  unfold _escalate, bind, metrics_increment, service_enqueue, modify, enqueue.
  cbn. eexists. eexists. split; [reflexivity|]. cbn. repeat split; reflexivity.
Qed.


(** *** Replacement *)

Lemma mentions_In id ids : mentions id ids = true <-> In (JStr id) ids.
Proof.
  unfold mentions. rewrite existsb_exists. split.
  - intros (v & Hin & Hv). destruct v; try discriminate.
    apply String.eqb_eq in Hv. now subst.
  - intros Hin. exists (JStr id). split; [assumption|]. apply String.eqb_refl.
Qed.

Lemma deactivate_get tid id (lib : TemplateLibrary) :
  ODict.get id (templates (deactivate tid lib))
  = if String.eqb id tid then with_is_active false <$> ODict.get id (templates lib)
    else ODict.get id (templates lib).
Proof.
  unfold deactivate. destruct (String.eqb_spec id tid) as [->|Hne].
  - destruct (ODict.get tid (templates lib)) eqn:Hg; cbn [templates set_templates].
    + now rewrite ODictFacts.get_alter_eq, Hg.
    + now rewrite Hg.
  - destruct (ODict.get tid (templates lib)); cbn [templates set_templates]; [|reflexivity].
    apply ODictFacts.get_alter_ne. congruence.
Qed.

Lemma deactivate_frame tid (lib : TemplateLibrary) :
  ODict.keys (templates (deactivate tid lib)) = ODict.keys (templates lib)
  /\ _sequence (deactivate tid lib) = _sequence lib
  /\ lib_source_id (deactivate tid lib) = lib_source_id lib
  /\ _compiled (deactivate tid lib) = _compiled lib.
Proof.
  unfold deactivate. destruct (ODict.get tid (templates lib));
    cbn [templates set_templates _sequence lib_source_id _compiled]; auto.
  rewrite ODictFacts.keys_alter. auto.
Qed.

(** The loop over [replaced_ids], when it runs to its end. *)
Lemma replace_all_spec ids :
  forall (w w' : World),
    replace_all ids w = (w', Ok tt) ->
    (forall id,
        ODict.get id (templates (library w'))
        = (if mentions id ids then with_is_active false <$> ODict.get id (templates (library w))
           else ODict.get id (templates (library w)))
        /\ examples w' !! id = (if mentions id ids then None else examples w !! id))
    /\ ODict.keys (templates (library w')) = ODict.keys (templates (library w))
    /\ _sequence (library w') = _sequence (library w)
    /\ lib_source_id (library w') = lib_source_id (library w)
    /\ _compiled (library w') = _compiled (library w)
    /\ metrics w' = metrics w
    /\ interaction_service w' = interaction_service w
    /\ calls w' = calls w.
Proof.
  induction ids as [|v rest IH]; intros w w'; cbn [replace_all].
  - intros [= <-]. cbn. repeat split; reflexivity.
  - unfold bind at 1. unfold replace_one, bind, lift_result.
    destruct v; cbn [Json.as_key]; try discriminate.
    1-3: intros Hrest; apply IH in Hrest; cbn [mentions existsb orb] in *; exact Hrest.
    unfold on_library, examples_pop, modify. cbn [library set_library examples set_examples].
    intros Hrest. apply IH in Hrest as (Hget & Hk & Hsq & Hsid & Hc & Hm & Hi & Hcl).
    cbn [library set_library examples set_examples metrics interaction_service calls] in *.
    destruct (deactivate_frame s (library w)) as (Hk1 & Hsq1 & Hsid1 & Hc1).
    split; [|repeat split; congruence].
    intros id. destruct (Hget id) as [Hg He]. rewrite Hg, He, deactivate_get.
    cbn [mentions existsb]. fold (mentions id rest).
    rewrite (String.eqb_sym s id).
    destruct (String.eqb_spec id s) as [->|Hne]; cbn [orb].
    + rewrite lookup_delete_eq. split; [|now destruct (mentions s rest)].
      destruct (mentions s rest); [|reflexivity].
      now destruct (ODict.get s (templates (library w))) as [[]|].
    + rewrite lookup_delete_ne by congruence. split; reflexivity.
Qed.

Ltac run_escalate Hrun :=
  unfold bind in Hrun;
  match type of Hrun with
  | context [_escalate ?c ?l ?p ?r ?w] =>
      let w1 := fresh "w1" in
      let task := fresh "task" in
      let Hesc := fresh "Hesc" in
      destruct (escalate_spec c l p r w) as (w1 & task & Hesc & _);
      rewrite Hesc in Hrun; cbn [ret] in Hrun
  end.

(** What [store_candidate] does with a candidate that has no id yet,
    when the counter can be written out. *)
Lemma store_candidate_spec candidate line status detail (w : World) :
  template_id candidate = EmptyString ->
  PyStr.fstring_04d (_sequence (library w)) <> None ->
  let tid := lib_source_id (library w) ++ "-" ++ PyStr.format_04d (_sequence (library w)) in
  let run := store_candidate candidate line status detail w in
  templates (library (fst run))
  = ODict.set tid (with_template_id tid candidate) (templates (library w))
  /\ _sequence (library (fst run)) = _sequence (library w) + 1
  /\ lib_source_id (library (fst run)) = lib_source_id (library w)
  /\ interaction_service (fst run) = interaction_service w
  /\ calls (fst run) = calls w
  /\ match re_compile (regex candidate) with
     | Some p =>
         snd run = Ok (outcome status (Some tid) detail)
         /\ _compiled (library (fst run)) = <[tid := p]> (_compiled (library w))
         /\ examples (fst run) = <[tid := line]> (examples w)
         /\ metrics (fst run) = increment "learned_templates" 1 (metrics w)
     | None =>
         snd run = Raise (ReError (regex candidate))
         /\ _compiled (library (fst run)) = _compiled (library w)
         /\ examples (fst run) = examples w
         /\ metrics (fst run) = metrics w
     end.
Proof.
  intros Hid Hfmt. cbv zeta.
  pose proof (add_spec candidate (library w) (or_intror Hfmt)) as Hadd. cbv zeta in Hadd.
  rewrite Hid in Hadd. cbn [PyStr.truthy] in Hadd.
  unfold store_candidate, bind, on_library.
  destruct (add candidate (library w)) as [l r] eqn:Eadd. cbn [fst snd] in Hadd.
  destruct Hadd as (Ht & Hsid & Hseq & Hres).
  destruct (re_compile (regex candidate)) as [p|]; destruct Hres as [-> Hc].
  - cbn. repeat split; assumption.
  - cbn. repeat split; assumption.
Qed.

Lemma set_library_same (w : World) : set_library (library w) w = w.
Proof. now destruct w. Qed.

(** When the counter cannot be written out, [store_candidate] stops with
    the [ValueError] of [allocate_id] and nothing has changed. *)
Lemma store_candidate_no_id candidate line status detail (w : World) :
  template_id candidate = EmptyString ->
  PyStr.fstring_04d (_sequence (library w)) = None ->
  store_candidate candidate line status detail w = (w, Raise (OtherError "ValueError")).
Proof.
  intros Hid Hfmt. unfold store_candidate, bind, on_library.
  rewrite (add_no_id candidate (library w)) by (rewrite ?Hid; auto).
  now rewrite set_library_same.
Qed.

Lemma store_candidate_Ok_id candidate line status detail (w w' : World) out :
  template_id candidate = EmptyString ->
  store_candidate candidate line status detail w = (w', Ok out) ->
  PyStr.fstring_04d (_sequence (library w)) <> None.
Proof.
  intros Hid Hrun Hfmt.
  rewrite (store_candidate_no_id _ _ _ _ _ Hid Hfmt) in Hrun. discriminate.
Qed.

(** C7 (as amended).  After a [replace_conflicting] plan has been
    applied to a library whose counter is above every numeric id suffix:
    the candidate is stored under the newly allocated id, active, with
    the plan's pattern, a compiled matcher and the current line as its
    example; every id listed in [replaced_ids] other than that new id is
    inactive and has no example; every other record and example is as
    before; and a record that was inactive is unchanged, listed or not. *)
Theorem replace_conflicting_effect
    (plan : list (string * json)) (rx : string) (proposal : TemplateProposal.t)
    (line : ProcessedLogLine) (context : string) (w w' : World)
    (out : LearningOutcome.t)
    (Habove : sequence_above (library w))
    (Hdecision : Json.eq_str (ODict.get "decision" plan) "replace_conflicting" = true)
    (Hrun : _apply_conflict_plan agents py_str plan
              (new_candidate (library w) rx proposal) line context w = (w', Ok out))
    (Hstatus : LearningOutcome.status out = "replaced") :
  let replaced := replaced_ids_of py_str plan in
  let tid := lib_source_id (library w) ++ "-" ++ PyStr.format_04d (_sequence (library w)) in
  LearningOutcome.template_id out = Some tid
  /\ (exists stored,
         ODict.get tid (templates (library w')) = Some stored
         /\ template_id stored = tid
         /\ regex stored = plan_regex plan
         /\ is_active stored = true)
  /\ is_Some (_compiled (library w') !! tid)
  /\ examples w' !! tid = Some line
  /\ (forall id, In (JStr id) replaced -> id <> tid ->
        (forall r, ODict.get id (templates (library w')) = Some r -> is_active r = false)
        /\ examples w' !! id = None)
  /\ (forall id, ~ In (JStr id) replaced -> id <> tid ->
        ODict.get id (templates (library w')) = ODict.get id (templates (library w))
        /\ examples w' !! id = examples w !! id)
  /\ (forall id r, ODict.get id (templates (library w)) = Some r -> is_active r = false ->
        ODict.get id (templates (library w')) = Some r).
Proof.
  cbv zeta. unfold _apply_conflict_plan in Hrun.
  fold (plan_regex plan) in Hrun. fold (plan_lacks_regex plan) in Hrun.
  destruct (plan_lacks_regex plan).
  { run_escalate Hrun. injection Hrun as <- <-. discriminate. }
  unfold bind at 1 in Hrun. unfold review at 1, request at 1 in Hrun.
  cbn [regex with_regex new_candidate] in Hrun.
  destruct (llm_review agents (length (calls w)) (plan_regex plan) line context)
    as [v|e]; [|discriminate].
  destruct (ValidationReport.approved v); cbn [negb] in Hrun.
  2:{ run_escalate Hrun. injection Hrun as <- <-. discriminate. }
  rewrite Hdecision in Hrun. unfold bind at 1 in Hrun.
  set (w0 := set_calls _ w) in Hrun.
  destruct (replace_all (replaced_ids_of py_str plan) w0) as [w1 [[]|e]] eqn:Hloop;
    [|discriminate].
  apply replace_all_spec in Hloop as (Hget & Hkeys & Hseq & Hsid & Hcomp & _).
  change (library w0) with (library w) in *. change (examples w0) with (examples w) in *.
  assert (Hfmt : PyStr.fstring_04d (_sequence (library w)) <> None).
  { rewrite <- Hseq. eapply store_candidate_Ok_id; [|exact Hrun]. reflexivity. }
  match type of Hrun with store_candidate ?c _ _ _ _ = _ =>
    pose proof (store_candidate_spec c line "replaced"
                  (default (JStr EmptyString) (ODict.get "reasoning" plan)) w1 eq_refl)
      as Hstore end.
  rewrite Hseq in Hstore. specialize (Hstore Hfmt).
  cbv zeta in Hstore. rewrite Hrun in Hstore. cbn [fst snd regex with_regex] in Hstore.
  rewrite ?Hseq, Hsid in Hstore.
  set (tid := lib_source_id (library w) ++ "-" ++ PyStr.format_04d (_sequence (library w))) in *.
  destruct Hstore as (Ht & _ & _ & _ & _ & Hres).
  destruct (re_compile (plan_regex plan)) as [p|]; destruct Hres as (Hout & Hc & Hex & _);
    [|discriminate].
  injection Hout as ->.
  assert (Hfresh : ODict.get tid (templates (library w1)) = None).
  { apply ODictFacts.get_None_keys. rewrite Hkeys. apply ODictFacts.get_None_keys.
    now apply next_id_fresh. }
  assert (Hother : forall id, id <> tid ->
            ODict.get id (templates (library w')) = ODict.get id (templates (library w1))
            /\ examples w' !! id = examples w1 !! id).
  { intros id Hne. rewrite Ht, Hex. split.
    - apply ODictFacts.get_set_ne. congruence.
    - apply lookup_insert_ne. congruence. }
  split; [reflexivity|]. split; [|split; [|split; [|split; [|split]]]].
  - eexists. rewrite Ht, ODictFacts.get_set_eq. split; [reflexivity|]. cbn. auto.
  - rewrite Hc, lookup_insert_eq. now eexists.
  - rewrite Hex. apply lookup_insert_eq.
  - intros id Hin Hne. apply mentions_In in Hin.
    destruct (Hother id Hne) as [-> ->]. destruct (Hget id) as [-> ->]. rewrite Hin.
    split; [|reflexivity]. intros r Hr.
    destruct (ODict.get id (templates (library w))); [|discriminate].
    injection Hr as <-. reflexivity.
  - intros id Hin Hne.
    destruct (Hother id Hne) as [-> ->]. destruct (Hget id) as [-> ->].
    destruct (mentions id (replaced_ids_of py_str plan)) eqn:Hm; [|auto].
    apply mentions_In in Hm. contradiction.
  - intros id r Hr Hinactive.
    assert (Hne : id <> tid).
    { intros ->. apply next_id_fresh in Habove; [|exact Hfmt]. fold tid in Habove. congruence. }
    destruct (Hother id Hne) as [-> _]. destruct (Hget id) as [-> _]. rewrite Hr.
    destruct (mentions id _); [|reflexivity]. cbn. f_equal.
    destruct r; cbn in *. now subst.
Qed.

(** *** The example cache *)

Lemma store_candidate_example candidate line status detail (w w' : World) out :
  store_candidate candidate line status detail w = (w', Ok out) ->
  example_recorded line w' out.
Proof.
  unfold store_candidate, bind, on_library.
  destruct (add candidate (library w)) as [l [stored|e]]; [|discriminate].
  cbn. intros [= <- <-] tid [= <-]. cbn. apply lookup_insert_eq.
Qed.

Lemma apply_plan_example plan candidate line context (w w' : World) out :
  _apply_conflict_plan agents py_str plan candidate line context w = (w', Ok out) ->
  example_recorded line w' out.
Proof.
  unfold _apply_conflict_plan, bind, review, request, _escalate, metrics_increment,
    service_enqueue, modify, ret.
  intros Hrun.
  destruct (negb (Json.is_str (ODict.get "new_regex" plan))
            || negb (PyStr.truthy (PyStr.strip (Json.str_of (ODict.get "new_regex" plan))))).
  { injection Hrun as <- <-. intros tid [=]. }
  destruct (llm_review _ _ _ _ _) as [v|e]; [|discriminate].
  destruct (negb (ValidationReport.approved v)).
  { injection Hrun as <- <-. intros tid [=]. }
  destruct (Json.eq_str (ODict.get "decision" plan) "replace_conflicting").
  { destruct (replace_all _ _) as [w1 [[]|e]]; [|discriminate].
    eapply store_candidate_example, Hrun. }
  destruct (Json.eq_str (ODict.get "decision" plan) "refine_candidate").
  { eapply store_candidate_example, Hrun. }
  injection Hrun as <- <-. intros tid [=].
Qed.

Lemma after_review_example rx report proposal line context (w w' : World) out :
  after_review agents py_str rx report proposal line context w = (w', Ok out) ->
  example_recorded line w' out.
Proof.
  unfold after_review. destruct (negb (ValidationReport.approved report)).
  { unfold bind, metrics_increment, modify, lift_result, ret.
    destruct (Json.join _ _); [|discriminate]. intros [= <- <-] tid [=]. }
  unfold bind at 1. unfold gets at 1. unfold bind at 1. unfold _detect_conflicts at 1.
  unfold bind, gets.
  set (cs := match re_compile rx with
             | Some pattern => ret (conflicts_loop pattern (templates (library w)) (examples w))
             | None => ret []
             end w).
  assert (Hcs : fst cs = w /\ exists l, snd cs = Ok l).
  { subst cs. destruct (re_compile rx); cbn; eauto. }
  destruct cs as [w0 res]. cbn in Hcs. destruct Hcs as [-> [cs ->]].
  destruct cs as [|c cs].
  { apply store_candidate_example. }
  unfold try_except_AgentError at 1.
  destruct (resolve_conflict _ _ _ _ _ w) as [w1 [plan|[msg|p|msg|msg]]]; try discriminate.
  - apply apply_plan_example.
  - unfold bind, _escalate, bind, metrics_increment, service_enqueue, modify, ret.
    intros [= <- <-] tid [=].
Qed.

Lemma process_line_example line context (w w' : World) out :
  process_line agents py_str line context w = (w', Ok out) ->
  example_recorded line w' out.
Proof.
  unfold process_line. unfold bind at 1.
  destruct (derive _ _ _ w) as [w1 [proposal|e]]; [|discriminate].
  unfold bind at 1.
  destruct (review _ _ _ _ w1) as [w2 [report|e]]; [|discriminate].
  destruct (negb (ValidationReport.approved report)); [|apply after_review_example].
  unfold try_except_AgentError.
  destruct (refine _ _ _ _ _ _ w2) as [w3 [refined|[msg|p|msg|msg]]]; try discriminate.
  - unfold bind at 1.
    destruct (review _ _ _ _ w3) as [w4 [report2|e]]; [|discriminate].
    apply after_review_example.
  - unfold bind, metrics_increment, modify, ret. intros [= <- <-] tid [=].
Qed.

(** C9 (as amended).  In the streaming loop, a line that matches a
    stored template becomes that template's example only when the
    template has none yet: an entry already in the cache is kept, so the
    cache holds the first line of the run that matched the template or
    triggered its storage.  A line whose processing stores a template is
    recorded as the example of the stored id. *)
Theorem example_cache_keeps_first_line
    (context : string) (line : ProcessedLogLine) (w : World) (lib1 : TemplateLibrary) :
  let run := phase1_step agents py_str context line w in
  let w0 := set_library lib1 (set_metrics (increment "processed_lines" 1 (metrics w)) w) in
  (forall r g,
      match_ line (library w) = (lib1, Ok (Some (r, g))) ->
      snd run = Ok tt
      /\ examples (fst run)
         = match examples w !! template_id r with
           | Some _ => examples w
           | None => <[template_id r := line]> (examples w)
           end
      /\ (forall earlier, examples w !! template_id r = Some earlier ->
                          examples (fst run) !! template_id r = Some earlier)
      /\ (examples w !! template_id r = None ->
          examples (fst run) !! template_id r = Some line)
      /\ matched_lines (metrics (fst run)) = matched_lines (metrics w) + 1
      /\ library (fst run) = lib1)
  /\ (forall w1 out tid,
        match_ line (library w) = (lib1, Ok None) ->
        process_line agents py_str line context w0 = (w1, Ok out) ->
        LearningOutcome.template_id out = Some tid ->
        snd run = Ok tt
        /\ examples (fst run) = examples w1
        /\ examples (fst run) !! tid = Some line
        /\ library (fst run) = library w1).
Proof.
  cbv zeta. split.
  - intros r g Hhit. unfold phase1_step, bind, metrics_increment, modify, on_library.
    cbn [library set_metrics]. rewrite Hhit. unfold examples_setdefault, modify.
    cbn [examples set_library set_metrics].
    destruct (examples w !! template_id r) as [earlier|] eqn:Hex; cbn.
    + split; [reflexivity|]. split; [reflexivity|].
      split; [intros e [= <-]; exact Hex|]. split; [discriminate|]. split; reflexivity.
    + split; [reflexivity|]. split; [reflexivity|]. split; [discriminate|].
      split; [intros _; apply lookup_insert_eq|]. split; reflexivity.
  - intros w1 out tid Hmiss Hlearn Htid.
    unfold phase1_step, bind, metrics_increment, modify, on_library.
    cbn [library set_metrics]. rewrite Hmiss, Hlearn, Htid.
    pose proof (process_line_example _ _ _ _ _ Hlearn tid Htid) as Hex.
    unfold examples_setdefault, modify, ret.
    destruct (PyStr.truthy tid); cbn [fst snd]; [|auto].
    rewrite Hex. auto.
Qed.

(** *** A pattern that does not compile *)

Lemma match_sequence line (lib : TemplateLibrary) :
  _sequence (fst (match_ line lib)) = _sequence lib.
Proof.
  unfold match_. now destruct (match_loop (templates lib) (_compiled lib) (transformed line)).
Qed.

(** C4.  What the code does with a pattern that the validator approves
    but that does not compile: [add] has already filed the record under a
    new id when [re.compile] raises, nothing in [process_line] catches
    [re.error], and the streaming loop ends with that exception instead
    of going on to the next line.  (When the counter of the library is
    too long to be written out, [allocate_id] raises [ValueError] before
    that, nothing is filed, and the loop ends with that exception.) *)
Theorem uncompilable_pattern_aborts
    (w : World) (line : ProcessedLogLine) (context : string)
    (proposal : TemplateProposal.t) (report : ValidationReport.t)
    (Hcontent : transformed line <> EmptyString)
    (Hderive : llm_derive agents (length (calls w)) line context = Ok proposal)
    (Hreview : llm_review agents (S (length (calls w)))
                 (TemplateProposal.regex proposal) line context = Ok report)
    (Happroved : ValidationReport.approved report = true)
    (Hbad : re_compile (TemplateProposal.regex proposal) = None) :
  let rx := TemplateProposal.regex proposal in
  let tid := lib_source_id (library w) ++ "-" ++ PyStr.format_04d (_sequence (library w)) in
  let run := process_line agents py_str line context w in
  (PyStr.fstring_04d (_sequence (library w)) <> None ->
   snd run = Raise (ReError rx)
   /\ ODict.get tid (templates (library (fst run)))
      = Some (with_template_id tid (new_candidate (library w) rx proposal))
   /\ _compiled (library (fst run)) !! tid = _compiled (library w) !! tid
   /\ metrics (fst run) = metrics w
   /\ interaction_service (fst run) = interaction_service w
   /\ (forall rest lib1,
         match_ line (library w) = (lib1, Ok None) ->
         snd (phase1 agents py_str context (line :: rest) w) = Raise (ReError rx)))
  /\ (PyStr.fstring_04d (_sequence (library w)) = None ->
      snd run = Raise (OtherError "ValueError")
      /\ library (fst run) = library w
      /\ metrics (fst run) = metrics w
      /\ interaction_service (fst run) = interaction_service w
      /\ (forall rest lib1,
            match_ line (library w) = (lib1, Ok None) ->
            snd (phase1 agents py_str context (line :: rest) w)
            = Raise (OtherError "ValueError"))).
Proof.
  assert (Hgen : forall (w0 : World) e, calls w0 = calls w ->
            snd (add (new_candidate (library w0) (TemplateProposal.regex proposal) proposal)
                   (library w0)) = Raise e ->
            snd (process_line agents py_str line context w0) = Raise e
            /\ library (fst (process_line agents py_str line context w0))
               = fst (add (new_candidate (library w0) (TemplateProposal.regex proposal) proposal)
                        (library w0))
            /\ metrics (fst (process_line agents py_str line context w0)) = metrics w0
            /\ interaction_service (fst (process_line agents py_str line context w0))
               = interaction_service w0).
  { intros w0 e Hcalls. unfold process_line, derive. rewrite (filter_content line Hcontent).
    unfold bind, review, request. rewrite Hcalls, Hderive. norm_calls.
    rewrite Hreview, Happroved. cbn [negb].
    unfold after_review. rewrite Happroved. cbn [negb].
    unfold bind, gets, _detect_conflicts, bind, gets. rewrite Hbad. cbn [ret].
    unfold store_candidate, bind, on_library. cbn [library set_calls].
    destruct (add (new_candidate (library w0) (TemplateProposal.regex proposal) proposal)
                (library w0)) as [l r].
    cbn [fst snd]. intros ->. cbn. auto. }
  assert (Hloop : forall e rest lib1,
            (forall w0 : World,
               calls w0 = calls w -> _sequence (library w0) = _sequence (library w) ->
               snd (add (new_candidate (library w0) (TemplateProposal.regex proposal) proposal)
                      (library w0)) = Raise e) ->
            match_ line (library w) = (lib1, Ok None) ->
            snd (phase1 agents py_str context (line :: rest) w) = Raise e).
  { intros e rest lib1 Hadd Hmiss. cbn [phase1]. unfold bind at 1.
    unfold phase1_step, bind, metrics_increment, modify, on_library.
    cbn [library set_metrics]. rewrite Hmiss.
    pose proof (match_sequence line (library w)) as Hseq. rewrite Hmiss in Hseq.
    cbn [fst] in Hseq.
    match goal with
    | |- context [process_line agents py_str line context ?w0] =>
        destruct (Hgen w0 e eq_refl (Hadd w0 eq_refl Hseq)) as (Hres0 & _);
        destruct (process_line agents py_str line context w0) as [w1 r]
    end.
    cbn [snd] in Hres0. subst r. reflexivity. }
  cbv zeta. split.
  - intros Hfmt.
    assert (Hraise : forall w0 : World,
              PyStr.fstring_04d (_sequence (library w0)) <> None ->
              snd (add (new_candidate (library w0) (TemplateProposal.regex proposal) proposal)
                     (library w0)) = Raise (ReError (TemplateProposal.regex proposal))).
    { intros w0 Hf.
      pose proof (add_spec (new_candidate (library w0) (TemplateProposal.regex proposal) proposal)
                    (library w0) (or_intror Hf)) as Hadd.
      cbv zeta in Hadd. cbn [regex new_candidate] in Hadd. rewrite Hbad in Hadd.
      now destruct Hadd as (_ & _ & _ & Hres & _). }
    destruct (Hgen w _ eq_refl (Hraise w Hfmt)) as (Hres & Hlib & Hm & Hi).
    split; [exact Hres|]. rewrite Hlib.
    pose proof (add_spec (new_candidate (library w) (TemplateProposal.regex proposal) proposal)
                  (library w) (or_intror Hfmt)) as Hadd.
    cbv zeta in Hadd. cbn [regex new_candidate template_id PyStr.truthy] in Hadd.
    rewrite Hbad in Hadd. destruct Hadd as (Ht & _ & _ & _ & Hc).
    split; [rewrite Ht; apply ODictFacts.get_set_eq|].
    split; [now rewrite Hc|]. split; [exact Hm|]. split; [exact Hi|].
    intros rest lib1. apply Hloop. intros w0 _ Hseq. apply Hraise. now rewrite Hseq.
  - intros Hfmt.
    assert (Hraise : forall w0 : World,
              PyStr.fstring_04d (_sequence (library w0)) = None ->
              add (new_candidate (library w0) (TemplateProposal.regex proposal) proposal)
                (library w0) = (library w0, Raise (OtherError "ValueError"))).
    { intros w0 Hf. now apply add_no_id. }
    assert (Hsnd : snd (add (new_candidate (library w) (TemplateProposal.regex proposal) proposal)
                          (library w)) = Raise (OtherError "ValueError"))
      by now rewrite Hraise.
    destruct (Hgen w _ eq_refl Hsnd) as (Hres & Hlib & Hm & Hi).
    split; [exact Hres|]. split; [now rewrite Hlib, Hraise|].
    split; [exact Hm|]. split; [exact Hi|].
    intros rest lib1. apply Hloop. intros w0 _ Hseq. rewrite Hraise; [reflexivity|].
    now rewrite Hseq.
Qed.

(** *** The library invariant along a run *)

Lemma match_ok line (lib : TemplateLibrary) :
  library_ok lib -> fst (match_ line lib) = lib.
Proof.
  intros (_ & Htotal & _). unfold match_.
  destruct (match_loop_total (transformed line) (templates lib) (_compiled lib) Htotal)
    as [Hc _].
  destruct (match_loop (templates lib) (_compiled lib) (transformed line)) as [c res].
  cbn [fst] in *. subst c. now destruct lib.
Qed.

Lemma replace_all_ok ids :
  forall (w w' : World) r,
    library_ok (library w) -> replace_all ids w = (w', r) -> library_ok (library w').
Proof.
  induction ids as [|v rest IH]; intros w w' r Hok; cbn [replace_all].
  - now intros [= <- _].
  - unfold bind at 1. unfold replace_one, bind, lift_result.
    destruct v; cbn [Json.as_key]; try (now intros [= <- _]); try (now apply IH).
    unfold on_library, examples_pop, modify. cbn [library set_library set_examples].
    apply IH. cbn [library set_library set_examples]. now apply deactivate_ok.
Qed.

Lemma store_candidate_ok candidate line status detail (w w' : World) out :
  template_id candidate = EmptyString -> library_ok (library w) ->
  store_candidate candidate line status detail w = (w', Ok out) ->
  library_ok (library w').
Proof.
  intros Hid Hok. unfold store_candidate, bind, on_library.
  destruct (add candidate (library w)) as [l [stored|e]] eqn:Hadd; [|discriminate].
  cbn. intros [= <- _]. cbn. eapply add_ok; eauto.
Qed.

Lemma apply_plan_ok plan candidate line context (w w' : World) out :
  template_id candidate = EmptyString -> library_ok (library w) ->
  _apply_conflict_plan agents py_str plan candidate line context w = (w', Ok out) ->
  library_ok (library w').
Proof.
  intros Hid Hok.
  unfold _apply_conflict_plan, bind, review, request, _escalate, metrics_increment,
    service_enqueue, modify, ret.
  intros Hrun.
  destruct (negb (Json.is_str (ODict.get "new_regex" plan))
            || negb (PyStr.truthy (PyStr.strip (Json.str_of (ODict.get "new_regex" plan))))).
  { now injection Hrun as <- _. }
  destruct (llm_review _ _ _ _ _) as [v|e]; [|discriminate].
  destruct (negb (ValidationReport.approved v)).
  { now injection Hrun as <- _. }
  destruct (Json.eq_str (ODict.get "decision" plan) "replace_conflicting").
  { destruct (replace_all _ _) as [w1 [[]|e]] eqn:Hloop; [|discriminate].
    apply replace_all_ok in Hloop; [|exact Hok].
    apply store_candidate_ok in Hrun; [assumption|exact Hid|exact Hloop]. }
  destruct (Json.eq_str (ODict.get "decision" plan) "refine_candidate").
  { apply store_candidate_ok in Hrun; [assumption|exact Hid|exact Hok]. }
  now injection Hrun as <- _.
Qed.

Lemma request_library {A} c (answer : nat -> result A) (w : World) :
  library (fst (request c answer w)) = library w.
Proof. reflexivity. Qed.

Lemma resolve_conflict_library candidate line context conflicts (w : World) :
  library (fst (resolve_conflict agents candidate line context conflicts w)) = library w.
Proof.
  unfold resolve_conflict, try_except_AgentError, request, bind, service_enqueue, modify,
    raise, ret.
  now destruct (llm_resolve _ _ _ _ _ _) as [plan|[msg|p|msg|msg]].
Qed.

Lemma after_review_ok rx report proposal line context (w w' : World) out :
  library_ok (library w) ->
  after_review agents py_str rx report proposal line context w = (w', Ok out) ->
  library_ok (library w').
Proof.
  intros Hok. unfold after_review. destruct (negb (ValidationReport.approved report)).
  { unfold bind, metrics_increment, modify, lift_result, ret.
    destruct (Json.join _ _); [|discriminate]. now intros [= <- _]. }
  unfold bind at 1. unfold gets at 1. unfold bind at 1. unfold _detect_conflicts at 1.
  unfold bind, gets.
  set (cs := match re_compile rx with
             | Some pattern => ret (conflicts_loop pattern (templates (library w)) (examples w))
             | None => ret []
             end w).
  assert (Hcs : fst cs = w /\ exists l, snd cs = Ok l).
  { subst cs. destruct (re_compile rx); cbn; eauto. }
  destruct cs as [w0 res]. cbn in Hcs. destruct Hcs as [-> [cs ->]].
  destruct cs as [|c cs].
  { now apply store_candidate_ok. }
  unfold try_except_AgentError at 1.
  pose proof (resolve_conflict_library (new_candidate (library w) rx proposal) line context
                (c :: cs) w) as Hlib.
  destruct (resolve_conflict _ _ _ _ _ w) as [w1 [plan|[msg|p|msg|msg]]]; try discriminate;
    cbn [fst] in Hlib.
  - apply apply_plan_ok; [reflexivity|now rewrite Hlib].
  - unfold bind, _escalate, bind, metrics_increment, service_enqueue, modify, ret.
    intros [= <- _]. cbn. now rewrite Hlib.
Qed.

Lemma process_line_ok line context (w w' : World) out :
  library_ok (library w) ->
  process_line agents py_str line context w = (w', Ok out) ->
  library_ok (library w').
Proof.
  intros Hok. unfold process_line. unfold bind at 1.
  assert (Hd : library (fst (derive agents [line] context w)) = library w).
  { unfold derive. destruct (List.filter _ _); reflexivity. }
  destruct (derive _ _ _ w) as [w1 [proposal|e]]; [|discriminate]. cbn [fst] in Hd.
  unfold bind at 1.
  pose proof (request_library (CallReview (TemplateProposal.regex proposal) line context)
                (fun n => llm_review agents n (TemplateProposal.regex proposal) line context) w1)
    as Hr.
  fold (review agents (TemplateProposal.regex proposal) line context) in Hr.
  destruct (review _ _ _ _ w1) as [w2 [report|e]]; [|discriminate]. cbn [fst] in Hr.
  assert (Hok2 : library_ok (library w2)) by (now rewrite Hr, Hd).
  destruct (negb (ValidationReport.approved report)); [|now apply after_review_ok].
  unfold try_except_AgentError.
  assert (Hf : library (fst (refine agents (TemplateProposal.regex proposal)
                               (ValidationReport.issues report)
                               (ValidationReport.suggestions report) line context w2))
               = library w2) by reflexivity.
  destruct (refine _ _ _ _ _ _ w2) as [w3 [refined|[msg|p|msg|msg]]]; try discriminate;
    cbn [fst] in Hf.
  - unfold bind at 1.
    assert (Hr2 : library (fst (review agents refined line context w3)) = library w3)
      by reflexivity.
    destruct (review _ _ _ _ w3) as [w4 [report2|e]]; [|discriminate]. cbn [fst] in Hr2.
    apply after_review_ok. now rewrite Hr2, Hf.
  - unfold bind, metrics_increment, modify, ret. intros [= <- _]. cbn. now rewrite Hf.
Qed.

Lemma phase1_step_ok context line (w w' : World) :
  library_ok (library w) ->
  phase1_step agents py_str context line w = (w', Ok tt) ->
  library_ok (library w').
Proof.
  intros Hok. unfold phase1_step, bind, metrics_increment, modify, on_library.
  cbn [library set_metrics]. pose proof (match_ok line (library w) Hok) as Hm.
  destruct (match_ line (library w)) as [l [[[r g]|]|e]]; cbn [fst] in Hm; subst l;
    [| |discriminate].
  - unfold examples_setdefault, modify. cbn [examples set_library set_metrics].
    destruct (examples w !! template_id r); intros [= <-]; exact Hok.
  - match goal with
    | |- context [process_line agents py_str line context ?w0] =>
        pose proof (process_line_ok line context w0) as Hp;
        destruct (process_line agents py_str line context w0) as [w1 [out|e]]
    end; [|discriminate].
    specialize (Hp w1 out Hok eq_refl).
    unfold examples_setdefault, modify, ret.
    destruct (LearningOutcome.template_id out) as [tid|]; [|now intros [= <-]].
    destruct (PyStr.truthy tid); [|now intros [= <-]].
    destruct (examples w1 !! tid); now intros [= <-].
Qed.

(** A streaming pass that ends normally hands the reconciliation pass a
    library in which ids are distinct, every entry has its compiled
    pattern, and the counter is above every numeric suffix. *)
Lemma phase1_ok context lines :
  forall (w w' : World),
    library_ok (library w) ->
    phase1 agents py_str context lines w = (w', Ok tt) ->
    library_ok (library w').
Proof.
  induction lines as [|line rest IH]; intros w w' Hok; cbn [phase1].
  - now intros [= <-].
  - unfold bind at 1.
    pose proof (phase1_step_ok context line w) as Hs.
    destruct (phase1_step agents py_str context line w) as [w1 [[]|e]]; [|discriminate].
    apply IH. now apply Hs.
Qed.

End EngineFacts.

(** ** The statements on concrete runs *)

Module Runs.
Import Fixture.

Lemma wf_lib_two : ODict.wf (templates lib_two).
Proof.
  change (NoDup ["s-0001"; "s-0002"]).
  apply (bool_decide_unpack _). vm_compute. exact I.
Defined.

(** Both templates of [lib_two] match the line in full; the one
    inserted first is returned. *)
Lemma match_returns_first_full_match_witness :
  snd (@match_ MiniRe.engine line_bob lib_two) = Ok (Some (rec_user, [])).
Proof.
  apply (proj1 (@match_returns_first_full_match MiniRe.engine lib_two line_bob wf_lib_two)).
  exists [], "s-0001", [("s-0002", rec_any)]. eexists.
  split; [vm_compute; reflexivity|]. split; [reflexivity|].
  split; [vm_compute; reflexivity|]. split; [vm_compute; reflexivity|]. constructor.
Defined.

Lemma phase2_is_reproducible_witness :
  snd (@match_all MiniRe.engine
         (fst (@match_all MiniRe.engine lib_two [line_bob; line_of "boot"; line_amy]))
         [line_bob; line_of "boot"; line_amy])
  = snd (@match_all MiniRe.engine lib_two [line_bob; line_of "boot"; line_amy]).
Proof.
  exact (proj1 (@phase2_is_reproducible MiniRe.engine lib_two
                  [line_bob; line_of "boot"; line_amy] wf_lib_two)).
Defined.

Lemma add_existing_id_overwrites_witness :
  ODict.get "s-0002" (templates (fst (@add MiniRe.engine rec_any
                                        (loaded [with_template_id "s-0002" rec_user]))))
  = Some rec_any.
Proof.
  refine (proj1 (@add_existing_id_overwrites MiniRe.engine
                   (loaded [with_template_id "s-0002" rec_user]) rec_any
                   (with_template_id "s-0002" rec_user) _ _)).
  - discriminate.
  - vm_compute. reflexivity.
Defined.

(** C10, as stated, fails: [rec_broken] comes with the id of a record
    that is in the library, and [add] ends with an error; the record is
    replaced, the compiled matcher under the id is still the one of the
    old record. *)
Lemma existing_id_may_raise :
  template_id rec_broken <> EmptyString
  /\ ODict.get (template_id rec_broken) (templates lib_two) = Some rec_any
  /\ snd run_broken = Raise (ReError "(")
  /\ ODict.get "s-0002" (templates (fst run_broken)) = Some rec_broken
  /\ _compiled (fst run_broken) !! "s-0002" = @re_compile MiniRe.engine (regex rec_any)
  /\ @re_compile MiniRe.engine (regex rec_any) <> @re_compile MiniRe.engine (regex rec_broken).
Proof.
  split; [discriminate|]. split; [vm_compute; reflexivity|].
  split; [vm_compute; reflexivity|]. split; [vm_compute; reflexivity|].
  split; [vm_compute; reflexivity|]. vm_compute. discriminate.
Qed.

Lemma id_allocation_unique_monotone_witness :
  snd (@add_each MiniRe.engine [unnamed "a"; unnamed "("; unnamed "b"] lib_one)
  = [Ok (with_template_id "s-0002" (unnamed "a")); Raise (ReError "(");
     Ok (with_template_id "s-0004" (unnamed "b"))]
  /\ ODict.get "s-0003" (templates (fst (@add_each MiniRe.engine
                                           [unnamed "a"; unnamed "("; unnamed "b"] lib_one)))
     = Some (with_template_id "s-0003" (unnamed "("))
  /\ forall r v, In r [rec_user; rec_legacy] ->
       PyStr.py_int (PyStr.rsplit_last (template_id r)) = Some v ->
       v < _sequence (loaded [rec_user; rec_legacy]).
Proof.
  assert (Hnoid : Forall (fun r => template_id r = EmptyString)
                    [unnamed "a"; unnamed "("; unnamed "b"])
    by (repeat constructor).
  assert (Hroom : forall k, (k < length [unnamed "a"; unnamed "("; unnamed "b"])%nat ->
                    PyStr.fstring_04d (_sequence lib_one + Z.of_nat k) <> None).
  { intros [|[|[|k]]] Hk; [vm_compute; discriminate..|cbn in Hk; lia]. }
  assert (Hload : @load MiniRe.engine "s" [rec_user; rec_legacy]
                  = (loaded [rec_user; rec_legacy], Ok tt))
    by (vm_compute; reflexivity).
  destruct (@id_allocation_unique_monotone MiniRe.engine lib_one
              [unnamed "a"; unnamed "("; unnamed "b"] "s" [rec_user; rec_legacy]
              (loaded [rec_user; rec_legacy]) Hnoid Hroom Hload)
    as (_ & _ & (Hresults & _ & _ & Hfiled & _) & _ & Habove & _).
  split; [rewrite Hresults; vm_compute; reflexivity|].
  split; [apply (Hfiled 1%nat); reflexivity|exact Habove].
Defined.

(** C8, as stated, fails on ids with very long numbers.  A document
    whose only id ends in 4300 nines loads, and the counter is then a
    number of 4301 digits, which [allocate_id] cannot write out: it raises
    [ValueError].  A document whose only id ends in a one and 4300 zeros
    loads too; [int] refuses that suffix, the counter stays at one, and the
    next id is [s-0001]. *)
Lemma allocation_fails_on_long_counter :
  snd (@load MiniRe.engine "s" [rec_boot id_nines]) = Ok tt
  /\ snd (allocate_id (loaded [rec_boot id_nines])) = Raise (OtherError "ValueError")
  /\ snd (@load MiniRe.engine "s" [rec_boot id_long]) = Ok tt
  /\ PyStr.rsplit_last id_long = PyStr.str_Z (10 ^ 4300)
  /\ snd (allocate_id (loaded [rec_boot id_long])) = Ok "s-0001".
Proof.
  split; [vm_compute; reflexivity|]. split; [vm_compute; reflexivity|].
  split; [vm_compute; reflexivity|]. split; [vm_compute; reflexivity|].
  vm_compute. reflexivity.
Qed.

Lemma rejected_twice_is_rejected_witness :
  snd run_number = Raise (TypeError "sequence item: expected str instance")
  /\ escalations (metrics (fst run_number)) = 1
  /\ library (fst run_number) = lib_one.
Proof.
  destruct (proj2 (proj2 (@rejected_twice_is_rejected MiniRe.engine agents_number simple_str
                            (world_of lib_one ∅) line_bob "ctx" (proposal_of "user .*")
                            verdict_number ltac:(discriminate) eq_refl eq_refl eq_refl))
              "user .* in" verdict_number eq_refl eq_refl eq_refl)
    as (_ & Hout & Hesc & _ & _ & _ & Hlib & _).
  split; [exact Hout|]. split; [exact Hesc|exact Hlib].
Defined.

(** The same run with a verdict whose issues are strings ends with the
    outcome [rejected]. *)
Lemma rejected_twice_with_text :
  snd (@process_line MiniRe.engine (agents_of "user .*" false "user .* in" []) simple_str
         line_bob "ctx" (world_of lib_one ∅))
  = Ok (outcome "rejected" None (JStr "too general")).
Proof. vm_compute. reflexivity. Qed.



Lemma sequence_above_lib_one : sequence_above lib_one.
Proof.
  split; [vm_compute; discriminate|].
  intros tid v [<-|[]]. vm_compute. intros [= <-]. reflexivity.
Defined.

Lemma replace_conflicting_effect_witness :
  (forall r, ODict.get "s-0001" (templates (library (fst run_replace))) = Some r ->
             is_active r = false)
  /\ examples (fst run_replace) !! "s-0001" = None.
Proof.
  assert (Hrun : run_replace
                 = (fst run_replace, Ok (outcome "replaced" (Some "s-0002") (JStr "wider"))))
    by (vm_compute; reflexivity).
  destruct (@replace_conflicting_effect MiniRe.engine
              (agents_of "user .*" true "x" plan_replace) simple_str plan_replace
              "user .*" (proposal_of "user .*") line_amy "ctx" world_conflict
              (fst run_replace) (outcome "replaced" (Some "s-0002") (JStr "wider"))
              sequence_above_lib_one eq_refl Hrun eq_refl)
    as (_ & _ & _ & _ & Hreplaced & _).
  apply (Hreplaced "s-0001").
  - left. reflexivity.
  - discriminate.
Defined.

(** C7, as stated, fails: the plan lists [s-0002], the id that the
    store gives to the candidate, and after the replacement that id is
    active and has an example. *)
Lemma replaced_id_may_be_the_new_one :
  snd run_replace = Ok (outcome "replaced" (Some "s-0002") (JStr "wider"))
  /\ ~ (forall id, In (JStr id) (replaced_ids_of simple_str plan_replace) ->
          (forall r, ODict.get id (templates (library (fst run_replace))) = Some r ->
                     is_active r = false)
          /\ examples (fst run_replace) !! id = None).
Proof.
  split; [vm_compute; reflexivity|]. intros Hclaim.
  destruct (Hclaim "s-0002") as [_ Hex]; [right; left; reflexivity|].
  vm_compute in Hex. discriminate.
Qed.

Lemma example_cache_keeps_first_line_witness :
  examples (fst (@phase1_step MiniRe.engine (agents_of "x" true "x" []) simple_str "ctx"
                   line_amy (world_of lib_one {[ "s-0001" := line_bob ]})))
    !! "s-0001" = Some line_bob.
Proof.
  refine (proj1 (proj2 (proj2
    (proj1 (@example_cache_keeps_first_line MiniRe.engine (agents_of "x" true "x" [])
              simple_str "ctx" line_amy (world_of lib_one {[ "s-0001" := line_bob ]})
              lib_one)
       rec_user [] _))) line_bob _).
  - vm_compute. reflexivity.
  - vm_compute. reflexivity.
Defined.

(** C9, as stated, fails: the second line matches [s-0001] after the
    first one did, and the cache still holds the first line. *)
Lemma example_cache_not_most_recent :
  snd run_two_lines = Ok tt
  /\ snd (@match_ MiniRe.engine line_amy lib_one) = Ok (Some (rec_user, []))
  /\ examples (fst run_two_lines) !! "s-0001" = Some line_bob
  /\ examples (fst run_two_lines) !! "s-0001" <> Some line_amy.
Proof.
  split; [vm_compute; reflexivity|]. split; [vm_compute; reflexivity|].
  split; [vm_compute; reflexivity|]. vm_compute. discriminate.
Qed.

Lemma uncompilable_pattern_aborts_witness :
  snd run_bad_pattern = Raise (ReError "(").
Proof.
  refine (proj2 (proj2 (proj2 (proj2 (proj2
    (proj1 (@uncompilable_pattern_aborts MiniRe.engine (agents_of "(" true "x" []) simple_str
              (world_of (new_library "s") ∅) line_bob "ctx" (proposal_of "(") (verdict true)
              _ eq_refl eq_refl eq_refl eq_refl) _))))) [line_amy] (new_library "s") _).
  - discriminate.
  - vm_compute. discriminate.
  - vm_compute. reflexivity.
Defined.

(** The run stops at the first line: the record with the pattern that
    does not compile is in the library, without a compiled matcher, and
    the second line has not been counted. *)
Lemma bad_pattern_run :
  snd run_bad_pattern = Raise (ReError "(")
  /\ ODict.keys (templates (library (fst run_bad_pattern))) = ["s-0001"]
  /\ _compiled (library (fst run_bad_pattern)) !! "s-0001" = None
  /\ processed_lines (metrics (fst run_bad_pattern)) = 1
  /\ escalations (metrics (fst run_bad_pattern)) = 0.
Proof. vm_compute. repeat split; reflexivity. Qed.

End Runs.

(** ** The line normalizer *)

Module PreprocessingFacts.
Import Preprocessing.

Lemma crlf_is_space c : is_crlf c = true -> PyStr.is_space c = true.
Proof.
  unfold is_crlf. intros Hc. apply orb_true_iff in Hc as [Hc|Hc];
    apply Ascii.eqb_eq in Hc; subst c; reflexivity.
Qed.

(** *** Stripping *)

Lemma rstrip_chars_empty drop s :
  rstrip_chars drop s = EmptyString <-> all_chars drop s = true.
Proof.
  induction s as [|c r IH]; cbn [rstrip_chars all_chars]; [tauto|].
  destruct (rstrip_chars drop r) eqn:Hr.
  - destruct (drop c); cbn [andb].
    + split; [intros _; now apply IH|reflexivity].
    + split; discriminate.
  - split; [discriminate|]. intros Hall. apply andb_true_iff in Hall as [_ Hall].
    apply IH in Hall. discriminate.
Qed.

Lemma rstrip_chars_last drop s : last_char drop (rstrip_chars drop s) = false.
Proof.
  induction s as [|c r IH]; cbn [rstrip_chars]; [reflexivity|].
  destruct (rstrip_chars drop r) as [|c' r'] eqn:Hr.
  - destruct (drop c) eqn:Hc; [reflexivity|]. cbn. exact Hc.
  - cbn [last_char]. exact IH.
Qed.

Lemma rstrip_chars_fixed drop s : last_char drop s = false -> rstrip_chars drop s = s.
Proof.
  induction s as [|c r IH]; cbn [rstrip_chars]; [reflexivity|]. intros Hlast.
  destruct r as [|c' r'].
  - cbn in *. now rewrite Hlast.
  - cbn [last_char] in Hlast. rewrite (IH Hlast). reflexivity.
Qed.

Lemma rstrip_chars_split drop s :
  exists tail, s = rstrip_chars drop s ++ tail /\ all_chars drop tail = true.
Proof.
  induction s as [|c r (tail & Hs & Htail)]; cbn [rstrip_chars].
  - exists EmptyString. split; reflexivity.
  - destruct (rstrip_chars drop r) as [|c' r'] eqn:Hr.
    + destruct (drop c) eqn:Hc.
      * exists (String c r). split; [reflexivity|]. cbn [all_chars]. rewrite Hc.
        now apply rstrip_chars_empty.
      * exists tail. split; [|exact Htail].
        change (String c r = String c tail). change (r = tail) in Hs. congruence.
    + exists tail. split; [|exact Htail].
      change (String c r = String c (String c' r' ++ tail)). congruence.
Qed.

Lemma rstrip_is_rstrip_chars s : PyStr.rstrip s = rstrip_chars PyStr.is_space s.
Proof.
  induction s as [|c r IH]; cbn [PyStr.rstrip rstrip_chars]; [reflexivity|].
  now rewrite IH.
Qed.

Lemma lstrip_first s : first_char PyStr.is_space (PyStr.lstrip s) = false.
Proof.
  induction s as [|c r IH]; cbn [PyStr.lstrip]; [reflexivity|].
  destruct (PyStr.is_space c) eqn:Hc; [exact IH|]. cbn. exact Hc.
Qed.

Lemma lstrip_fixed s : first_char PyStr.is_space s = false -> PyStr.lstrip s = s.
Proof. destruct s as [|c r]; cbn; [reflexivity|]. now intros ->. Qed.

Lemma rstrip_chars_first drop p s :
  first_char p s = false -> first_char p (rstrip_chars drop s) = false.
Proof.
  destruct s as [|c r]; cbn [rstrip_chars first_char]; [reflexivity|].
  intros Hc. destruct (rstrip_chars drop r); [|exact Hc].
  destruct (drop c); [reflexivity|exact Hc].
Qed.

Lemma strip_first s : first_char PyStr.is_space (PyStr.strip s) = false.
Proof.
  unfold PyStr.strip. rewrite rstrip_is_rstrip_chars.
  apply rstrip_chars_first, lstrip_first.
Qed.

Lemma strip_last s : last_char PyStr.is_space (PyStr.strip s) = false.
Proof. unfold PyStr.strip. rewrite rstrip_is_rstrip_chars. apply rstrip_chars_last. Qed.

Lemma strip_fixed s :
  first_char PyStr.is_space s = false -> last_char PyStr.is_space s = false ->
  PyStr.strip s = s.
Proof.
  intros Hf Hl. unfold PyStr.strip. rewrite (lstrip_fixed _ Hf), rstrip_is_rstrip_chars.
  now apply rstrip_chars_fixed.
Qed.

(** [s.strip().strip() == s.strip()] *)
Lemma strip_idempotent s : PyStr.strip (PyStr.strip s) = PyStr.strip s.
Proof. apply strip_fixed; [apply strip_first|apply strip_last]. Qed.

Lemma all_chars_app p a b : all_chars p (a ++ b) = all_chars p a && all_chars p b.
Proof.
  induction a as [|c r IH]; [reflexivity|].
  change (all_chars p (String c r ++ b)) with (p c && all_chars p (r ++ b)).
  rewrite IH. cbn [all_chars]. now rewrite andb_assoc.
Qed.

Lemma all_chars_lstrip s :
  all_chars PyStr.is_space (PyStr.lstrip s) = all_chars PyStr.is_space s.
Proof.
  induction s as [|c r IH]; cbn [PyStr.lstrip all_chars]; [reflexivity|].
  destruct (PyStr.is_space c) eqn:Hc; cbn [all_chars andb]; [exact IH|].
  now rewrite Hc.
Qed.

Lemma strip_empty s : PyStr.strip s = EmptyString <-> all_chars PyStr.is_space s = true.
Proof.
  unfold PyStr.strip. rewrite rstrip_is_rstrip_chars, rstrip_chars_empty, all_chars_lstrip.
  tauto.
Qed.

(** *** Collapsing *)

Lemma single_spaced_collapse b s : single_spaced b (collapse b s) = true.
Proof.
  revert b. induction s as [|c r IH]; intros b; cbn [collapse]; [reflexivity|].
  destruct (PyStr.is_space c) eqn:Hc.
  - destruct b; [apply IH|].
    cbn [single_spaced]. change (PyStr.is_space " "%char) with true. cbn. apply IH.
  - cbn [single_spaced]. rewrite Hc. apply IH.
Qed.

Lemma collapse_fixed b s : single_spaced b s = true -> collapse b s = s.
Proof.
  revert b. induction s as [|c r IH]; intros b; cbn [collapse single_spaced]; [reflexivity|].
  destruct (PyStr.is_space c).
  - intros Hs. apply andb_true_iff in Hs as [Hs Hr]. apply andb_true_iff in Hs as [Hc Hb].
    apply Ascii.eqb_eq in Hc. subst c. destruct b; [discriminate|]. now rewrite (IH true).
  - intros Hr. now rewrite (IH false).
Qed.

Lemma single_spaced_lstrip b s :
  single_spaced b s = true -> single_spaced false (PyStr.lstrip s) = true.
Proof.
  revert b. induction s as [|c r IH]; intros b; cbn [PyStr.lstrip]; [reflexivity|].
  destruct (PyStr.is_space c) eqn:Hc; cbn [single_spaced]; rewrite Hc.
  - intros Hs. apply andb_true_iff in Hs as [_ Hr]. now apply (IH true).
  - auto.
Qed.

Lemma single_spaced_rstrip_chars drop b s :
  single_spaced b s = true -> single_spaced b (rstrip_chars drop s) = true.
Proof.
  revert b. induction s as [|c r IH]; intros b; cbn [rstrip_chars]; [reflexivity|].
  intros Hs. cbn [single_spaced] in Hs.
  destruct (PyStr.is_space c) eqn:Hc.
  - apply andb_true_iff in Hs as [Hcb Hr]. specialize (IH true Hr).
    destruct (rstrip_chars drop r) as [|c' r'].
    + destruct (drop c); [reflexivity|]. cbn [single_spaced]. rewrite Hc, Hcb. reflexivity.
    + cbn [single_spaced] in *. rewrite Hc, Hcb. exact IH.
  - specialize (IH false Hs).
    destruct (rstrip_chars drop r) as [|c' r'].
    + destruct (drop c); [reflexivity|]. cbn [single_spaced]. now rewrite Hc.
    + cbn [single_spaced] in *. rewrite Hc. exact IH.
Qed.

Lemma all_chars_collapse b s :
  all_chars PyStr.is_space (collapse b s) = all_chars PyStr.is_space s.
Proof.
  revert b. induction s as [|c r IH]; intros b; cbn [collapse all_chars]; [reflexivity|].
  destruct (PyStr.is_space c) eqn:Hc; cbn [andb].
  - destruct b; [apply IH|]. cbn [all_chars]. change (PyStr.is_space " "%char) with true.
    apply IH.
  - cbn [all_chars]. now rewrite Hc.
Qed.

Lemma last_char_crlf_space s :
  last_char PyStr.is_space s = false -> last_char is_crlf s = false.
Proof.
  induction s as [|c r IH]; cbn [last_char]; [reflexivity|].
  destruct r; [|exact IH]. intros Hc. destruct (is_crlf c) eqn:Hcr; [|reflexivity].
  apply crlf_is_space in Hcr. congruence.
Qed.

Lemma all_chars_crlf_space s :
  all_chars is_crlf s = true -> all_chars PyStr.is_space s = true.
Proof.
  induction s as [|c r IH]; cbn [all_chars]; [reflexivity|].
  intros Hs. apply andb_true_iff in Hs as [Hc Hr]. now rewrite (crlf_is_space _ Hc), IH.
Qed.

(** *** [normalize] *)

Lemma normalize_blank (line : string) :
  transformed (normalize line) = EmptyString <-> all_chars PyStr.is_space line = true.
Proof.
  cbn [normalize transformed].
  rewrite strip_empty. unfold sub_whitespace. rewrite all_chars_collapse.
  destruct (rstrip_chars_split is_crlf line) as (tail & Hline & Htail).
  rewrite Hline at 2. rewrite all_chars_app, (all_chars_crlf_space _ Htail), andb_true_r.
  tauto.
Qed.

(** X1.  The canonical text of a line has no whitespace at either end,
    and its only whitespace characters are single spaces between other
    characters. *)
Theorem normalize_canonical (line : string) :
  let t := transformed (normalize line) in
  first_char PyStr.is_space t = false
  /\ last_char PyStr.is_space t = false
  /\ single_spaced false t = true.
Proof.
  cbv zeta. cbn [normalize transformed]. split; [apply strip_first|].
  split; [apply strip_last|].
  unfold PyStr.strip. rewrite rstrip_is_rstrip_chars.
  apply single_spaced_rstrip_chars, (single_spaced_lstrip false), single_spaced_collapse.
Qed.

(** X2.  Normalizing is idempotent: the canonical text of a line is its
    own raw and canonical text. *)
Theorem normalize_idempotent (line : string) :
  let t := transformed (normalize line) in
  normalize t = {| raw := t; transformed := t |}.
Proof.
  cbv zeta.
  assert (Hf : first_char PyStr.is_space (transformed (normalize line)) = false)
    by apply strip_first.
  assert (Hl : last_char PyStr.is_space (transformed (normalize line)) = false)
    by apply strip_last.
  assert (Hs : single_spaced false (transformed (normalize line)) = true).
  { cbn [normalize transformed]. unfold PyStr.strip. rewrite rstrip_is_rstrip_chars.
    apply single_spaced_rstrip_chars, (single_spaced_lstrip false), single_spaced_collapse. }
  set (t := transformed (normalize line)) in *. unfold normalize.
  rewrite (rstrip_chars_fixed is_crlf t) by now apply last_char_crlf_space.
  unfold sub_whitespace. rewrite (collapse_fixed false t Hs).
  now rewrite (strip_fixed t Hf Hl).
Qed.

(** X3.  The raw text is the line without the carriage returns and line
    feeds at its end, and nothing else is taken away; the canonical text is
    empty exactly when the line consists of whitespace only. *)
Theorem normalize_raw (line : string) :
  (exists tail, line = raw (normalize line) ++ tail /\ all_chars is_crlf tail = true)
  /\ last_char is_crlf (raw (normalize line)) = false
  /\ (transformed (normalize line) = EmptyString <-> all_chars PyStr.is_space line = true).
Proof.
  split; [apply rstrip_chars_split|]. split; [apply rstrip_chars_last|].
  apply normalize_blank.
Qed.

End PreprocessingFacts.

(** ** The interaction service *)

Module ServiceFacts.

Lemma str_N_inj a b : PyStr.str_N a = PyStr.str_N b -> a = b.
Proof.
  unfold PyStr.str_N. intros Heq.
  apply DecimalN.Unsigned.to_uint_inj.
  pose proof (NilEmpty.usu (N.to_uint a)) as Ha. rewrite Heq, NilEmpty.usu in Ha.
  congruence.
Qed.

Lemma str_Z_inj_nonneg a b : 0 <= a -> 0 <= b -> PyStr.str_Z a = PyStr.str_Z b -> a = b.
Proof.
  intros Ha Hb. unfold PyStr.str_Z.
  destruct (Z.ltb_spec a 0); [lia|]. destruct (Z.ltb_spec b 0); [lia|].
  intros Heq. apply str_N_inj in Heq. lia.
Qed.

Lemma task_id_inj a b :
  0 <= a -> 0 <= b -> "task-" ++ PyStr.str_Z a = "task-" ++ PyStr.str_Z b -> a = b.
Proof.
  intros Ha Hb Heq. apply PyStrFacts.append_inj_l in Heq. now apply str_Z_inj_nonneg.
Qed.

Lemma new_service_ids_below : ids_below new_interaction_service.
Proof.
  unfold ids_below. cbn. split; [lia|]. split; [constructor|]. intros task [].
Qed.

Lemma map_id_resolve_loop task_id note tasks :
  map InteractionTask.task_id (resolve_loop task_id note tasks)
  = map InteractionTask.task_id tasks.
Proof.
  induction tasks as [|t rest IH]; cbn [resolve_loop]; [reflexivity|].
  destruct (String.eqb (InteractionTask.task_id t) task_id); cbn [map]; [reflexivity|].
  now rewrite IH.
Qed.

Lemma In_resolve_loop task_id note tasks task :
  In task (resolve_loop task_id note tasks) ->
  exists old, In old tasks /\ InteractionTask.task_id task = InteractionTask.task_id old.
Proof.
  induction tasks as [|t rest IH]; cbn [resolve_loop]; [intros []|].
  destruct (String.eqb (InteractionTask.task_id t) task_id).
  - intros [<-|Hin]; [exists t; split; [now left|reflexivity]|].
    exists task. split; [now right|reflexivity].
  - intros [<-|Hin]; [exists t; split; [now left|reflexivity]|].
    destruct (IH Hin) as (old & Hold & Hid). exists old. split; [now right|exact Hid].
Qed.

Lemma run_op_ids_below op svc : ids_below svc -> ids_below (run_op op svc).
Proof.
  intros (Hone & Hnodup & Hids). destruct op as [tt d p|i n]; cbn [run_op].
  - unfold enqueue, ids_below. cbn [fst _queue _counter]. split; [lia|]. split.
    + rewrite map_app. cbn [map InteractionTask.task_id].
      apply NoDup_app. split; [exact Hnodup|]. split; [|apply NoDup_singleton].
      intros id Hin Hnew. apply list_elem_of_In in Hin. apply list_elem_of_In in Hnew.
      destruct Hnew as [<-|[]]. apply in_map_iff in Hin as (task & Hid & Hin).
      destruct (Hids task Hin) as (k & Hk & Hidk). rewrite Hidk in Hid.
      apply task_id_inj in Hid; lia.
    + intros task Hin. apply in_app_or in Hin as [Hin|[<-|[]]].
      * destruct (Hids task Hin) as (k & Hk & Hidk). exists k. split; [lia|exact Hidk].
      * exists (_counter svc). split; [lia|reflexivity].
  - unfold resolve, ids_below. cbn [_queue _counter]. split; [exact Hone|].
    split; [now rewrite map_id_resolve_loop|].
    intros task Hin. apply In_resolve_loop in Hin as (old & Hold & ->). now apply Hids.
Qed.

Lemma run_ops_ids_below ops : forall svc, ids_below svc -> ids_below (run_ops ops svc).
Proof.
  unfold run_ops. induction ops as [|op rest IH]; intros svc Hok; cbn [fold_left];
    [exact Hok|].
  apply IH. now apply run_op_ids_below.
Qed.

Lemma length_resolve_loop task_id note tasks :
  length (resolve_loop task_id note tasks) = length tasks.
Proof.
  rewrite <- (length_map InteractionTask.task_id), map_id_resolve_loop.
  apply length_map.
Qed.

Lemma run_ops_length ops :
  forall svc, length (_queue (run_ops ops svc)) = (length (_queue svc) + count_enqueues ops)%nat.
Proof.
  unfold run_ops, count_enqueues. induction ops as [|op rest IH]; intros svc;
    cbn [fold_left List.filter]; [cbn; lia|].
  rewrite IH. destruct op as [tt d p|i n]; cbn [run_op length].
  - unfold enqueue. cbn [fst _queue]. rewrite length_app. cbn. lia.
  - unfold resolve. cbn [_queue]. rewrite length_resolve_loop. lia.
Qed.

(** X4.  Whatever tasks are filed and resolved on a new service, in any
    order: the ids in the queue are pairwise distinct, and no task is ever
    removed - the queue holds one task for each [enqueue]. *)
Theorem task_ids_unique (ops : list ServiceOp) :
  let svc := run_ops ops new_interaction_service in
  NoDup (map InteractionTask.task_id (list_tasks svc))
  /\ length (list_tasks svc) = count_enqueues ops.
Proof.
  cbv zeta. split.
  - apply (run_ops_ids_below ops new_interaction_service new_service_ids_below).
  - unfold list_tasks. now rewrite run_ops_length.
Qed.

(** *** [resolve] *)

Lemma resolve_loop_absent task_id note tasks :
  ~ In task_id (map InteractionTask.task_id tasks) ->
  resolve_loop task_id note tasks = tasks.
Proof.
  induction tasks as [|t rest IH]; cbn [resolve_loop map]; [reflexivity|].
  intros Hnot. destruct (String.eqb_spec (InteractionTask.task_id t) task_id) as [Heq|Hne].
  - exfalso. apply Hnot. now left.
  - rewrite IH; [reflexivity|]. intros Hin. apply Hnot. now right.
Qed.

Lemma resolve_loop_map task_id note tasks :
  NoDup (map InteractionTask.task_id tasks) ->
  resolve_loop task_id note tasks
  = map (fun t => if String.eqb (InteractionTask.task_id t) task_id
                  then mark_resolved note t else t) tasks.
Proof.
  induction tasks as [|t rest IH]; cbn [resolve_loop map]; [reflexivity|].
  intros Hnodup. apply NoDup_cons in Hnodup as [Hnotin Hnodup].
  rewrite list_elem_of_In in Hnotin.
  destruct (String.eqb_spec (InteractionTask.task_id t) task_id) as [Heq|Hne].
  - f_equal. rewrite <- (resolve_loop_absent task_id note rest) at 1 by congruence.
    symmetry. rewrite <- IH by assumption. reflexivity.
  - f_equal. now apply IH.
Qed.

(** X5.  [resolve] on a queue with distinct ids: the task with that id,
    if there is one, gets status [resolved] and the note at the end of its
    history; every other task, the order and the number of tasks stay as
    they were, and an id that is not in the queue changes nothing. *)
Theorem resolve_marks_one
    (task_id note : string) (svc : InteractionService)
    (Hdistinct : NoDup (map InteractionTask.task_id (_queue svc))) :
  _queue (resolve task_id note svc)
  = map (fun t => if String.eqb (InteractionTask.task_id t) task_id
                  then mark_resolved note t else t) (_queue svc)
  /\ _counter (resolve task_id note svc) = _counter svc
  /\ (~ In task_id (map InteractionTask.task_id (_queue svc)) -> resolve task_id note svc = svc)
  /\ (forall task, In task (_queue svc) -> InteractionTask.task_id task = task_id ->
        exists task', In task' (_queue (resolve task_id note svc))
          /\ InteractionTask.task_id task' = task_id
          /\ InteractionTask.status task' = "resolved"
          /\ InteractionTask.history task' = (InteractionTask.history task ++ [note])%list
          /\ InteractionTask.payload task' = InteractionTask.payload task).
Proof.
  unfold resolve. cbn [_queue _counter]. split; [now apply resolve_loop_map|].
  split; [reflexivity|]. split.
  - intros Hnot. rewrite resolve_loop_absent by assumption. now destruct svc.
  - intros task Hin Hid. exists (mark_resolved note task).
    rewrite resolve_loop_map by assumption. split.
    + apply in_map_iff. exists task. split; [|exact Hin].
      now rewrite Hid, String.eqb_refl.
    + cbn. auto.
Qed.

(** *** [next_pending] *)

Lemma next_pending_in_app l1 l2 :
  Forall (fun t => is_pending t = false) l1 ->
  next_pending_in (l1 ++ l2) = next_pending_in l2.
Proof.
  induction 1 as [|t l1 Ht Hl1 IH]; [reflexivity|].
  cbn [app next_pending_in]. unfold is_pending in Ht. now rewrite Ht.
Qed.

Lemma next_pending_in_split tasks task :
  next_pending_in tasks = Some task ->
  exists l1 l2, tasks = (l1 ++ task :: l2)%list
                /\ Forall (fun t => is_pending t = false) l1
                /\ is_pending task = true.
Proof.
  induction tasks as [|t rest IH]; cbn [next_pending_in]; [discriminate|].
  destruct (String.eqb (InteractionTask.status t) "pending") eqn:Hp.
  - intros [= <-]. exists [], rest. split; [reflexivity|]. split; [constructor|exact Hp].
  - intros Hrest. destruct (IH Hrest) as (l1 & l2 & -> & Hl1 & Htask).
    exists (t :: l1), l2. split; [reflexivity|]. split; [|exact Htask].
    constructor; assumption.
Qed.

Lemma resolve_loop_skip task_id note l1 l2 :
  ~ In task_id (map InteractionTask.task_id l1) ->
  resolve_loop task_id note (l1 ++ l2) = (l1 ++ resolve_loop task_id note l2)%list.
Proof.
  induction l1 as [|t l1 IH]; cbn [app resolve_loop map]; [reflexivity|].
  intros Hnot. destruct (String.eqb_spec (InteractionTask.task_id t) task_id) as [Heq|Hne].
  - exfalso. apply Hnot. now left.
  - rewrite IH; [reflexivity|]. intros Hin. apply Hnot. now right.
Qed.

(** X6.  [next_pending] gives the pending task that was filed first.
    When that task is resolved (ids being distinct), [next_pending] moves
    on to the pending task filed next after it; and a newly filed task is
    pending but never comes before one that was already waiting. *)
Theorem next_pending_is_fifo
    (svc : InteractionService) (task : InteractionTask.t) (note : string)
    (Hdistinct : NoDup (map InteractionTask.task_id (_queue svc)))
    (Hnext : next_pending svc = Some task) :
  exists before after,
    _queue svc = (before ++ task :: after)%list
    /\ Forall (fun t => is_pending t = false) before
    /\ is_pending task = true
    /\ next_pending (resolve (InteractionTask.task_id task) note svc)
       = next_pending_in after
    /\ (forall tt d p, next_pending (fst (enqueue tt d p svc)) = Some task).
Proof.
  unfold next_pending in *. destruct (next_pending_in_split _ _ Hnext)
    as (before & after & Hq & Hbefore & Hpending).
  exists before, after. split; [exact Hq|]. split; [exact Hbefore|].
  split; [exact Hpending|]. split.
  - unfold resolve. cbn [_queue]. rewrite Hq in Hdistinct |- *.
    rewrite map_app in Hdistinct. apply NoDup_app in Hdistinct as (_ & Hdisj & _).
    rewrite resolve_loop_skip.
    + rewrite next_pending_in_app by assumption.
      cbn [resolve_loop]. rewrite String.eqb_refl. cbn [next_pending_in mark_resolved].
      reflexivity.
    + intros Hin. apply list_elem_of_In in Hin. apply (Hdisj _ Hin).
      cbn [map]. apply list_elem_of_In. now left.
  - intros tt d p. unfold enqueue. cbn [fst _queue]. rewrite Hq, <- app_assoc.
    rewrite next_pending_in_app by assumption. cbn [app next_pending_in].
    unfold is_pending in Hpending. now rewrite Hpending.
Qed.

(** With nothing waiting, the task just filed is the next one. *)
Lemma next_pending_after_enqueue svc tt d p :
  next_pending svc = None ->
  next_pending (fst (enqueue tt d p svc)) = Some (snd (enqueue tt d p svc)).
Proof.
  unfold next_pending, enqueue. cbn [fst snd _queue]. intros Hnone.
  assert (Hall : Forall (fun t => is_pending t = false) (_queue svc)).
  { induction (_queue svc) as [|t rest IH]; [constructor|].
    cbn [next_pending_in] in Hnone. unfold is_pending.
    destruct (String.eqb (InteractionTask.status t) "pending") eqn:Hp; [discriminate|].
    constructor; [exact Hp|now apply IH]. }
  rewrite next_pending_in_app by assumption. reflexivity.
Qed.

End ServiceFacts.

(** ** The router *)

Module RouterFacts.

Lemma replace_space_no_space s : Preprocessing.all_chars not_space (replace_space s) = true.
Proof.
  induction s as [|c r IH]; cbn [replace_space Preprocessing.all_chars]; [reflexivity|].
  rewrite IH, andb_true_r. unfold not_space.
  destruct (Ascii.eqb_spec c " "%char); [reflexivity|].
  now destruct (Ascii.eqb_spec c " "%char).
Qed.

Lemma length_replace_space s : String.length (replace_space s) = String.length s.
Proof. induction s as [|c r IH]; cbn; auto. Qed.

Lemma field_or_unknown_stripped key data s :
  field_or_unknown key data = Ok s -> PyStr.strip s = s.
Proof.
  unfold field_or_unknown.
  destruct (ODict.get key data) as [v|]; [|intros [= <-]; reflexivity].
  destruct (Json.truthy v); [|intros [= <-]; reflexivity].
  destruct v; try discriminate. intros [= <-]. apply PreprocessingFacts.strip_idempotent.
Qed.

(** X7.  The source id built from a routing decision is never empty and
    never contains a space, whatever the classifier answered; and the
    device type and vendor returned by [identify] carry no whitespace at
    their ends. *)
Theorem source_id_has_no_space
    (call_json : list string -> result (list (string * json)))
    (samples : list string) (d : RoutingDecision.t) :
  Preprocessing.all_chars not_space (routing_source_id d) = true
  /\ routing_source_id d <> EmptyString
  /\ (identify call_json samples = Ok d ->
      PyStr.strip (RoutingDecision.device_type d) = RoutingDecision.device_type d
      /\ PyStr.strip (RoutingDecision.vendor d) = RoutingDecision.vendor d).
Proof.
  split; [apply replace_space_no_space|]. split.
  - unfold routing_source_id, or_unknown.
    destruct (RoutingDecision.device_type d) as [|c r]; cbn; discriminate.
  - unfold identify.
    destruct (map PyStr.strip _) as [|s0 rest]; [intros [= <-]; split; reflexivity|].
    destruct (call_json _) as [data|e]; [|discriminate].
    destruct (field_or_unknown "device_type" data) as [device|e] eqn:Hd; [|discriminate].
    destruct (field_or_unknown "vendor" data) as [vendor|e] eqn:Hv; [|discriminate].
    intros [= <-]. cbn. split; eapply field_or_unknown_stripped; eassumption.
Qed.

(** X8.  When every sample is blank, [identify] answers
    unknown/unknown without consulting the classifier: the result is the
    same whatever the classifier would have said. *)
Theorem identify_without_samples
    (call_json : list string -> result (list (string * json)))
    (samples : list string)
    (Hblank : Forall (fun line => Preprocessing.all_chars PyStr.is_space line = true) samples) :
  identify call_json samples
  = Ok {| RoutingDecision.device_type := "unknown"; RoutingDecision.vendor := "unknown";
          RoutingDecision.reasoning := JStr "no samples provided" |}.
Proof.
  unfold identify.
  assert (Hnone : List.filter (fun line => PyStr.truthy (PyStr.strip line)) samples = []).
  { induction Hblank as [|line rest Hline Hrest IH]; [reflexivity|].
    cbn [List.filter]. apply PreprocessingFacts.strip_empty in Hline. now rewrite Hline. }
  now rewrite Hnone.
Qed.

End RouterFacts.

(** ** Accounting of the learning engine *)

Section EngineAccounting.
Context `{RegexEngine}.
Variable agents : Collaborators.
Variable py_str : json -> string.

Lemma counted_learned_increment m : counted_learned m (increment "learned_templates" 1 m).
Proof. unfold counted_learned. cbn. auto. Qed.

Lemma counted_escalation_increment m : counted_escalation m (increment "escalations" 1 m).
Proof. unfold counted_escalation. cbn. auto. Qed.

Lemma store_candidate_accounted candidate line status detail (w0 w w' : World) out :
  store_candidate candidate line status detail w = (w', Ok out) ->
  template_id candidate = EmptyString ->
  metrics w = metrics w0 ->
  In status ["stored"; "replaced"; "refined"] ->
  outcome_accounted w0 w' out.
Proof.
  intros Hrun Hid Hm Hstatus.
  pose proof (store_candidate_spec candidate line status detail w Hid
                (store_candidate_Ok_id _ _ _ _ _ _ _ Hid Hrun)) as Hspec.
  cbv zeta in Hspec. rewrite Hrun in Hspec. cbn [fst snd] in Hspec.
  destruct Hspec as (Ht & _ & _ & _ & _ & Hres).
  destruct (re_compile (regex candidate)); destruct Hres as (Hout & _ & _ & Hmet);
    [|discriminate].
  injection Hout as ->. right. eexists. split; [reflexivity|]. split; [exact Hstatus|].
  split; [rewrite Hmet, Hm; apply counted_learned_increment|].
  rewrite Ht, ODictFacts.get_set_eq. now eexists.
Qed.

Lemma apply_plan_accounted plan candidate line context (w0 w w' : World) out :
  template_id candidate = EmptyString ->
  metrics w = metrics w0 -> library w = library w0 -> examples w = examples w0 ->
  _apply_conflict_plan agents py_str plan candidate line context w = (w', Ok out) ->
  outcome_accounted w0 w' out.
Proof.
  intros Hid Hm Hl He.
  unfold _apply_conflict_plan, bind, review, request, _escalate, metrics_increment,
    service_enqueue, modify, ret.
  intros Hrun.
  destruct (negb (Json.is_str (ODict.get "new_regex" plan))
            || negb (PyStr.truthy (PyStr.strip (Json.str_of (ODict.get "new_regex" plan))))).
  { injection Hrun as <- <-. left. cbn. rewrite Hm, Hl, He. split; [reflexivity|].
    split; [auto|]. split; [apply counted_escalation_increment|]. auto. }
  destruct (llm_review _ _ _ _ _) as [v|e]; [|discriminate].
  destruct (negb (ValidationReport.approved v)).
  { injection Hrun as <- <-. left. cbn. rewrite Hm, Hl, He. split; [reflexivity|].
    split; [auto|]. split; [apply counted_escalation_increment|]. auto. }
  destruct (Json.eq_str (ODict.get "decision" plan) "replace_conflicting").
  { destruct (replace_all _ _) as [w1 [[]|e]] eqn:Hloop; [|discriminate].
    apply replace_all_spec in Hloop as (_ & _ & _ & _ & _ & Hm1 & _).
    eapply store_candidate_accounted; [exact Hrun|exact Hid| |cbn; auto].
    rewrite Hm1. exact Hm. }
  destruct (Json.eq_str (ODict.get "decision" plan) "refine_candidate").
  { eapply store_candidate_accounted; [exact Hrun|exact Hid|exact Hm|cbn; auto]. }
  injection Hrun as <- <-. left. cbn. rewrite Hm, Hl, He. split; [reflexivity|].
  split; [auto|]. split; [apply counted_escalation_increment|]. auto.
Qed.

Lemma resolve_conflict_quiet candidate line context conflicts (w : World) :
  let w1 := fst (resolve_conflict agents candidate line context conflicts w) in
  metrics w1 = metrics w /\ library w1 = library w /\ examples w1 = examples w.
Proof.
  cbv zeta.
  unfold resolve_conflict, try_except_AgentError, request, bind, service_enqueue, modify,
    raise, ret.
  now destruct (llm_resolve _ _ _ _ _ _) as [plan|[msg|p|msg|msg]].
Qed.

Lemma after_review_accounted rx report proposal line context (w0 w w' : World) out :
  metrics w = metrics w0 -> library w = library w0 -> examples w = examples w0 ->
  after_review agents py_str rx report proposal line context w = (w', Ok out) ->
  outcome_accounted w0 w' out.
Proof.
  intros Hm Hl He. unfold after_review. destruct (negb (ValidationReport.approved report)).
  { unfold bind, metrics_increment, modify, lift_result, ret.
    destruct (Json.join _ _); [|discriminate]. intros [= <- <-]. left. cbn.
    rewrite Hm, Hl, He. split; [reflexivity|]. split; [auto|].
    split; [apply counted_escalation_increment|]. auto. }
  unfold bind at 1. unfold gets at 1. unfold bind at 1. unfold _detect_conflicts at 1.
  unfold bind, gets.
  set (cs := match re_compile rx with
             | Some pattern => ret (conflicts_loop pattern (templates (library w)) (examples w))
             | None => ret []
             end w).
  assert (Hcs : fst cs = w /\ exists l, snd cs = Ok l).
  { subst cs. destruct (re_compile rx); cbn; eauto. }
  destruct cs as [w1 res]. cbn in Hcs. destruct Hcs as [-> [cs ->]].
  destruct cs as [|c cs].
  { intros Hrun. eapply store_candidate_accounted; [exact Hrun|reflexivity|exact Hm|].
    cbn. auto. }
  unfold try_except_AgentError at 1.
  destruct (resolve_conflict_quiet (new_candidate (library w) rx proposal) line context
              (c :: cs) w) as (Hm1 & Hl1 & He1).
  destruct (resolve_conflict _ _ _ _ _ w) as [w1 [plan|[msg|p|msg|msg]]]; try discriminate;
    cbn [fst] in Hm1, Hl1, He1.
  - apply apply_plan_accounted; [reflexivity|congruence|congruence|congruence].
  - unfold bind, _escalate, bind, metrics_increment, service_enqueue, modify, ret.
    intros [= <- <-]. left. cbn. rewrite Hm1, Hl1, He1, Hm, Hl, He.
    split; [reflexivity|]. split; [auto|]. split; [apply counted_escalation_increment|].
    auto.
Qed.

Lemma process_line_outcome
    (line : ProcessedLogLine) (context : string) (w w' : World) (out : LearningOutcome.t)
    (Hrun : process_line agents py_str line context w = (w', Ok out)) :
  outcome_accounted w w' out.
Proof.
  revert Hrun. unfold process_line. unfold bind at 1.
  assert (Hd : let w1 := fst (derive agents [line] context w) in
               metrics w1 = metrics w /\ library w1 = library w /\ examples w1 = examples w).
  { unfold derive. destruct (List.filter _ _); cbn; auto. }
  cbv zeta in Hd.
  destruct (derive _ _ _ w) as [w1 [proposal|e]]; [|discriminate]. cbn [fst] in Hd.
  destruct Hd as (Hm1 & Hl1 & He1).
  unfold bind at 1. unfold review at 1, request at 1.
  destruct (llm_review _ _ _ _ _) as [report|e]; [|discriminate].
  destruct (negb (ValidationReport.approved report)).
  2:{ apply after_review_accounted; assumption. }
  unfold try_except_AgentError. unfold refine at 1, request at 1.
  destruct (llm_refine _ _ _ _ _ _ _) as [refined|[msg|p|msg|msg]]; try discriminate.
  - unfold bind at 1. unfold review at 1, request at 1.
    destruct (llm_review _ _ _ _ _) as [report2|e]; [|discriminate].
    apply after_review_accounted; assumption.
  - unfold bind, metrics_increment, modify, ret. intros [= <- <-]. left. cbn.
    rewrite Hm1, Hl1, He1. split; [reflexivity|]. split; [auto|].
    split; [apply counted_escalation_increment|]. auto.
Qed.

(** X9.  Every outcome of [process_line] is accounted for in one of two
    ways.  A failure ([rejected], [repair_failed] or [escalated]) names no
    template, adds one to the escalation counter, and leaves the library
    and the example cache exactly as they were.  A success ([stored],
    [replaced] or [refined]) names the template it stored, which is in the
    library, and adds one to the learned-template counter.  The other
    counters do not move. *)
Theorem process_line_accounted
    (line : ProcessedLogLine) (context : string) (w w' : World) (out : LearningOutcome.t)
    (Hrun : process_line agents py_str line context w = (w', Ok out)) :
  outcome_accounted w w' out.
Proof. exact (process_line_outcome line context w w' out Hrun). Qed.

(** *** The counters over a streaming pass *)

Lemma phase1_step_counts context line (w w' : World) :
  phase1_step agents py_str context line w = (w', Ok tt) ->
  processed_lines (metrics w') = processed_lines (metrics w) + 1
  /\ matched_lines (metrics w') + learned_templates (metrics w') + escalations (metrics w')
     = matched_lines (metrics w) + learned_templates (metrics w) + escalations (metrics w) + 1.
Proof.
  unfold phase1_step, bind, metrics_increment, modify, on_library.
  cbn [library set_metrics].
  destruct (match_ line (library w)) as [l [[[r g]|]|e]]; [| |discriminate].
  - unfold examples_setdefault, modify. cbn [examples set_library set_metrics].
    destruct (examples w !! template_id r); intros [= <-]; cbn; lia.
  - match goal with
    | |- context [process_line agents py_str line context ?w0] =>
        pose proof (process_line_outcome line context w0) as Hp;
        destruct (process_line agents py_str line context w0) as [w1 [out|e]]
    end; [|discriminate].
    specialize (Hp w1 out eq_refl).
    assert (Hw1 : processed_lines (metrics w1) = processed_lines (metrics w) + 1
                  /\ matched_lines (metrics w1) + learned_templates (metrics w1)
                     + escalations (metrics w1)
                     = matched_lines (metrics w) + learned_templates (metrics w)
                       + escalations (metrics w) + 1).
    { destruct Hp as [(_ & _ & (Hp1 & Hp2 & Hp3 & Hp4) & _)
                     |(tid & _ & _ & (Hp1 & Hp2 & Hp3 & Hp4) & _)];
        cbn in Hp1, Hp2, Hp3, Hp4; lia. }
    unfold examples_setdefault, modify, ret.
    destruct (LearningOutcome.template_id out) as [tid|]; [|now intros [= <-]].
    destruct (PyStr.truthy tid); [|now intros [= <-]].
    destruct (examples w1 !! tid); now intros [= <-].
Qed.

(** X10.  After a streaming pass that ran to its end, the count of
    processed lines has grown by the number of lines, and every line was
    counted exactly once more: as matched, as a learned template or as an
    escalation. *)
Theorem phase1_counts_every_line
    (context : string) (lines : list ProcessedLogLine) (w w' : World)
    (Hrun : phase1 agents py_str context lines w = (w', Ok tt)) :
  processed_lines (metrics w') = processed_lines (metrics w) + Z.of_nat (length lines)
  /\ matched_lines (metrics w') + learned_templates (metrics w') + escalations (metrics w')
     = matched_lines (metrics w) + learned_templates (metrics w) + escalations (metrics w)
       + Z.of_nat (length lines).
Proof.
  revert w Hrun. induction lines as [|line rest IH]; intros w; cbn [phase1].
  - intros [= <-]. cbn. lia.
  - unfold bind at 1.
    pose proof (phase1_step_counts context line w) as Hs.
    destruct (phase1_step agents py_str context line w) as [w1 [[]|e]]; [|discriminate].
    intros Hrest. destruct (Hs w1 eq_refl) as [Hs1 Hs2].
    destruct (IH w1 Hrest) as [IH1 IH2]. cbn [length]. lia.
Qed.

End EngineAccounting.

(** ** The requests made for one line *)

Section EngineRequests.
Context `{RegexEngine}.
Variable agents : Collaborators.
Variable py_str : json -> string.

(** X11.  Whatever the collaborators answer, and whether the processing
    of a line ends with an outcome or with an exception, the requests it
    adds to the log form one of nine sequences: at most six requests, never
    more than one proposal, one repair or one adjudication, and the
    requests made before are kept. *)
Theorem process_line_requests
    (line : ProcessedLogLine) (context : string) (w : World) :
  exists l,
    calls (fst (process_line agents py_str line context w)) = (calls w ++ l)%list
    /\ In (map call_kind l) request_shapes
    /\ (length l <= 6)%nat
    /\ (length (List.filter is_repair (map call_kind l)) <= 1)%nat.
Proof.
  assert (Hshape : exists l,
            calls (fst (process_line agents py_str line context w)) = (calls w ++ l)%list
            /\ In (map call_kind l) request_shapes).
  { unfold process_line, derive.
    destruct (List.filter _ [line]) as [|primary rest].
    { exists []. cbn. rewrite app_nil_r. auto. }
    unfold bind at 1. unfold request at 1.
    destruct (llm_derive _ _ _ _) as [proposal|e];
      [|eexists [_]; split; [reflexivity|cbn; auto]].
    unfold bind at 1. unfold review at 1, request at 1.
    destruct (llm_review _ _ _ _ _) as [report|e];
      [|eexists [_; _]; cbn [calls set_calls fst]; rewrite <- app_assoc;
        split; [reflexivity|cbn; auto]].
    destruct (negb (ValidationReport.approved report)).
    2:{ match goal with
        | |- context [after_review agents py_str ?rx ?rp ?pr line context ?w0] =>
            destruct (after_review_calls agents py_str rx rp pr line context w0) as (l & Hl & Hsh)
        end.
        eexists (_ :: _ :: l). rewrite Hl. cbn [calls set_calls].
        rewrite <- !app_assoc. split; [reflexivity|]. cbn [map call_kind].
        destruct Hsh as [<-|[<-|[<-|[]]]]; cbn; auto 10. }
    unfold try_except_AgentError. unfold refine at 1, request at 1.
    destruct (llm_refine _ _ _ _ _ _ _) as [refined|[msg|p|msg|msg]].
    - unfold bind at 1. unfold review at 1, request at 1.
      destruct (llm_review _ _ _ _ _) as [report2|e];
        [|eexists [_; _; _; _]; cbn [calls set_calls fst]; rewrite <- !app_assoc;
          split; [reflexivity|cbn; auto 10]].
      match goal with
      | |- context [after_review agents py_str ?rx ?rp ?pr line context ?w0] =>
          destruct (after_review_calls agents py_str rx rp pr line context w0) as (l & Hl & Hsh)
      end.
      eexists (_ :: _ :: _ :: _ :: l). rewrite Hl. cbn [calls set_calls].
      rewrite <- !app_assoc. split; [reflexivity|]. cbn [map call_kind].
      destruct Hsh as [<-|[<-|[<-|[]]]]; cbn; auto 12.
    - eexists [_; _; _]. cbn [calls set_calls fst]. rewrite <- !app_assoc.
      split; [reflexivity|cbn; auto 10].
    - eexists [_; _; _]. cbn [calls set_calls fst]. rewrite <- !app_assoc.
      split; [reflexivity|cbn; auto 10].
    - eexists [_; _; _]. cbn [calls set_calls fst]. rewrite <- !app_assoc.
      split; [reflexivity|cbn; auto 10].
    - eexists [_; _; _]. cbn [calls set_calls fst]. rewrite <- !app_assoc.
      split; [reflexivity|cbn; auto 10]. }
  destruct Hshape as (l & Hl & Hsh). exists l. split; [exact Hl|]. split; [exact Hsh|].
  rewrite <- (length_map call_kind l).
  unfold request_shapes in Hsh.
  repeat (destruct Hsh as [<-|Hsh]; [cbn; split; lia|]). destruct Hsh.
Qed.

End EngineRequests.

(** ** More on the template library *)

Section LibraryMore.
Context `{RegexEngine}.
Implicit Types (lib : TemplateLibrary) (record : TemplateRecord).

(** *** Deactivation *)

Lemma match_first_hit line lib :
  ODict.wf (templates lib) ->
  snd (match_ line lib) = first_hit (templates lib) (_compiled lib) (transformed line).
Proof. intros Hwf. apply (match_variant lib lib line Hwf (variant_refl lib)). Qed.

Lemma alter_alter_same {V} (f : V -> V) k (d : list (string * V)) :
  (forall v, f (f v) = f v) -> ODict.alter f k (ODict.alter f k d) = ODict.alter f k d.
Proof.
  intros Hf. induction d as [|[k' v'] d IH]; cbn [ODict.alter]; [reflexivity|].
  destruct (String.eqb k k') eqn:Hk; cbn [ODict.alter]; rewrite Hk.
  - now rewrite Hf.
  - now rewrite IH.
Qed.

(** X12.  On a library in its regular state, a deactivated template is
    never returned by [match] again, whatever the line; deactivating twice
    is the same as once, an id that is not in the library changes nothing,
    and no other record, nor the order of the records, is touched. *)
Theorem deactivated_never_matched
    (tid : string) (lib : TemplateLibrary) (Hok : library_ok lib) :
  (forall line r g,
      snd (match_ line (deactivate tid lib)) = Ok (Some (r, g)) -> template_id r <> tid)
  /\ deactivate tid (deactivate tid lib) = deactivate tid lib
  /\ (ODict.get tid (templates lib) = None -> deactivate tid lib = lib)
  /\ ODict.keys (templates (deactivate tid lib)) = ODict.keys (templates lib)
  /\ (forall id, id <> tid ->
        ODict.get id (templates (deactivate tid lib)) = ODict.get id (templates lib)).
Proof.
  split; [|split; [|split; [|split]]].
  - intros line r g Hhit Hid.
    pose proof (deactivate_ok tid lib Hok) as (Hwf & _ & _ & Hkey).
    rewrite match_first_hit in Hhit by exact Hwf.
    apply first_hit_Some in Hhit as (l1 & k & l2 & p & Ht & Hactive & _).
    assert (Hin : In (k, r) (templates (deactivate tid lib))).
    { rewrite Ht. apply in_or_app. right. now left. }
    pose proof (Hkey _ _ Hin) as Hk. rewrite Hid in Hk. subst k.
    apply (ODictFacts.In_get _ _ _ Hwf) in Hin. rewrite deactivate_get in Hin.
    rewrite String.eqb_refl in Hin.
    destruct (ODict.get tid (templates lib)) as [r0|]; [|discriminate].
    injection Hin as <-. discriminate.
  - destruct (ODict.get tid (templates lib)) as [r0|] eqn:Hg.
    + unfold deactivate at 1. rewrite deactivate_get, String.eqb_refl, Hg.
      cbn [fmap option_fmap option_map]. unfold deactivate. rewrite Hg.
      unfold set_templates. cbn. f_equal. now apply alter_alter_same.
    + assert (Hsame : deactivate tid lib = lib) by (unfold deactivate; now rewrite Hg).
      now rewrite !Hsame.
  - intros Hg. unfold deactivate. now rewrite Hg.
  - apply deactivate_frame.
  - intros id Hne. rewrite deactivate_get.
    destruct (String.eqb_spec id tid); [contradiction|reflexivity].
Qed.

(** *** Loading *)




(** *** Saving and loading again *)

Lemma load_appends items :
  forall lib,
    (forall tid r, In (tid, r) items -> template_id r = tid) ->
    NoDup (ODict.keys (templates lib) ++ ODict.keys items) ->
    all_compile (ODict.values items) ->
    exists lib', _load (ODict.values items) lib = (lib', Ok tt)
                 /\ templates lib' = (templates lib ++ items)%list.
Proof.
  induction items as [|[tid r] rest IH]; intros lib Hkey Hnodup Hall.
  - exists lib. split; [reflexivity|]. now rewrite app_nil_r.
  - cbn [ODict.values map snd _load]. apply Forall_cons in Hall as [Hr Hrest].
    cbn [snd] in Hr.
    destruct (re_compile (regex r)) as [p|]; [|contradiction].
    assert (Hid : template_id r = tid) by (apply Hkey; now left). rewrite Hid.
    assert (Hfresh : ODict.get tid (templates lib) = None).
    { apply ODictFacts.get_None_keys. intros Hin.
      apply NoDup_app in Hnodup as (_ & Hdisj & _).
      apply (Hdisj tid); [now apply list_elem_of_In|]. apply list_elem_of_In. now left. }
    rewrite (ODictFacts.set_absent _ _ _ Hfresh).
    assert (Hstep : forall lib1, templates lib1 = (templates lib ++ [(tid, r)])%list ->
              exists lib', _load (ODict.values rest) lib1 = (lib', Ok tt)
                           /\ templates lib' = (templates lib ++ (tid, r) :: rest)%list).
    { intros lib1 Ht. destruct (IH lib1) as (lib' & Hload & Ht').
      - intros k v Hin. apply Hkey. now right.
      - rewrite Ht. unfold ODict.keys in *. rewrite map_app, <- app_assoc. exact Hnodup.
      - exact Hrest.
      - exists lib'. split; [exact Hload|]. rewrite Ht', Ht, <- app_assoc. reflexivity. }
    destruct (PyStr.py_int (PyStr.rsplit_last tid)); apply Hstep; reflexivity.
Qed.

Lemma load_sequence_bound payload n :
  forall lib lib',
    _load payload lib = (lib', Ok tt) ->
    _sequence lib <= n ->
    (forall r v, In r payload ->
       PyStr.py_int (PyStr.rsplit_last (template_id r)) = Some v -> v < n) ->
    _sequence lib' <= n.
Proof.
  induction payload as [|r rest IH]; intros lib lib'; cbn [_load].
  - now intros [= <-].
  - destruct (re_compile (regex r)) as [p|]; [|discriminate].
    destruct (PyStr.py_int (PyStr.rsplit_last (template_id r))) as [v|] eqn:Hv;
      intros Hload Hle Hall.
    + apply (IH _ _ Hload).
      * cbn. specialize (Hall r v (or_introl eq_refl) Hv). lia.
      * intros r' v' Hin. apply Hall. now right.
    + apply (IH _ _ Hload).
      * exact Hle.
      * intros r' v' Hin. apply Hall. now right.
Qed.

Lemma load_of_save
    (lib : TemplateLibrary)
    (Hok : library_ok lib) (Hcompile : all_compile (save lib)) :
  exists lib',
    load (lib_source_id lib) (save lib) = (lib', Ok tt)
    /\ templates lib' = templates lib
    /\ save lib' = save lib
    /\ lib_source_id lib' = lib_source_id lib
    /\ library_ok lib'
    /\ 1 <= _sequence lib' <= _sequence lib.
Proof.
  destruct Hok as (Hwf & Htotal & [Hone Habove] & Hkey).
  unfold load, save in *.
  destruct (load_appends (templates lib) (new_library (lib_source_id lib)) Hkey Hwf Hcompile)
    as (lib' & Hload & Ht).
  cbn [templates new_library app] in Ht.
  exists lib'. split; [exact Hload|]. split; [exact Ht|]. split; [now rewrite Ht|].
  pose proof (load_ok _ _ _ (new_library_ok (lib_source_id lib)) Hload) as Hok'.
  split; [now apply load_sequence in Hload as (_ & -> & _)|]. split; [exact Hok'|].
  split; [apply Hok'|].
  eapply load_sequence_bound; [exact Hload|exact Hone|].
  intros r v Hin Hv. apply (Habove (template_id r)); [|exact Hv].
  apply in_map_iff in Hin as ([k r'] & Heq & Hin). cbn in Heq. subst r'.
  rewrite (Hkey _ _ Hin). apply in_map_iff. exists (k, r). auto.
Qed.

Lemma faithful_set items c tid r p :
  ODict.wf items -> faithful items c -> re_compile (regex r) = Some p ->
  faithful (ODict.set tid r items) (<[tid := p]> c).
Proof.
  intros Hwf Hf Hp k r0 q Hin Hq.
  destruct (String.eqb_spec tid k) as [<-|Hne].
  - rewrite lookup_insert_eq in Hq. injection Hq as <-.
    apply (ODictFacts.In_get _ _ _ (ODictFacts.wf_set tid r items Hwf)) in Hin.
    rewrite ODictFacts.get_set_eq in Hin. now injection Hin as <-.
  - rewrite lookup_insert_ne in Hq by exact Hne.
    apply In_set_inv in Hin as [[= ]|Hin]; [congruence|]. now apply (Hf k r0 q).
Qed.

Lemma add_faithful candidate lib lib' stored :
  library_ok lib -> cache_faithful lib ->
  add candidate lib = (lib', Ok stored) -> cache_faithful lib'.
Proof.
  intros (Hwf & _) Hf Hadd.
  pose proof (add_spec candidate lib (add_Ok_id _ _ _ _ Hadd)) as Hspec.
  cbv zeta in Hspec. rewrite Hadd in Hspec. cbn [fst snd] in Hspec.
  destruct Hspec as (Ht & _ & _ & Hres).
  destruct (re_compile (regex candidate)) as [p|] eqn:Hp; destruct Hres as (Hout & Hc);
    [|discriminate].
  unfold cache_faithful. rewrite Ht, Hc. now apply faithful_set.
Qed.

Lemma deactivate_faithful tid lib : cache_faithful lib -> cache_faithful (deactivate tid lib).
Proof.
  intros Hf. unfold deactivate. destruct (ODict.get tid (templates lib)); [|exact Hf].
  intros k r p Hin Hp. cbn [templates _compiled set_templates] in Hin, Hp.
  apply In_alter_inv in Hin as [Hin|(v & Hv & [= -> ->])].
  - now apply (Hf k r p).
  - now apply (Hf tid v p).
Qed.

Lemma load_faithful payload :
  forall lib lib',
    ODict.wf (templates lib) -> cache_faithful lib ->
    _load payload lib = (lib', Ok tt) -> cache_faithful lib'.
Proof.
  induction payload as [|r rest IH]; intros lib lib' Hwf Hf; cbn [_load].
  - now intros [= <-].
  - destruct (re_compile (regex r)) as [p|] eqn:Hp; [|discriminate].
    destruct (PyStr.py_int (PyStr.rsplit_last (template_id r))); apply IH;
      cbn [templates set_templates set_compiled set_sequence];
      try (now apply ODictFacts.wf_set); now apply faithful_set.
Qed.

Lemma faithful_all_compile lib :
  compiled_total lib -> cache_faithful lib -> all_compile (save lib).
Proof.
  intros Htotal Hf. unfold all_compile, save, ODict.values. apply Forall_forall.
  intros r Hin. apply list_elem_of_In in Hin.
  apply in_map_iff in Hin as ([k r'] & Heq & Hin). cbn in Heq. subst r'.
  destruct (Htotal k) as [p Hp]; [apply in_map_iff; now exists (k, r)|].
  now rewrite (Hf k r p Hin Hp).
Qed.

Lemma first_hit_ext items c1 c2 text :
  (forall tid r, In (tid, r) items -> entry_pattern c1 tid r = entry_pattern c2 tid r) ->
  first_hit items c1 text = first_hit items c2 text.
Proof.
  induction items as [|[tid r] rest IH]; intros Hext; cbn [first_hit]; [reflexivity|].
  rewrite (Hext tid r (or_introl eq_refl)).
  assert (Hrest : first_hit rest c1 text = first_hit rest c2 text).
  { apply IH. intros k v Hin. apply Hext. now right. }
  destruct (is_active r); cbn [negb]; [|exact Hrest].
  destruct (entry_pattern c2 tid r) as [p|]; [|reflexivity].
  destruct (re_fullmatch p text); [reflexivity|exact Hrest].
Qed.

(** Two libraries in their regular state with the same records and
    faithful caches give every line the same template. *)
Lemma match_same_records lib lib' line :
  library_ok lib -> cache_faithful lib -> library_ok lib' -> cache_faithful lib' ->
  templates lib' = templates lib ->
  snd (match_ line lib') = snd (match_ line lib).
Proof.
  intros (Hwf & Htotal & _) Hf (Hwf' & Htotal' & _) Hf' Ht.
  rewrite (match_first_hit line lib' Hwf'), (match_first_hit line lib Hwf), Ht.
  apply first_hit_ext. intros tid r Hin. unfold entry_pattern.
  assert (Hkey : In tid (ODict.keys (templates lib))).
  { apply in_map_iff. now exists (tid, r). }
  destruct (Htotal tid Hkey) as [p Hp].
  destruct (Htotal' tid) as [p' Hp']; [now rewrite Ht|].
  rewrite Hp, Hp'.
  pose proof (Hf tid r p Hin Hp) as Hc.
  assert (Hin' : In (tid, r) (templates lib')) by now rewrite Ht.
  pose proof (Hf' tid r p' Hin' Hp') as Hc'. congruence.
Qed.

(** X14.  Saving a library and loading the document again gives back
    the same library as far as anything but the counter goes.  For a
    library in its regular state whose cached patterns are the compiled
    pattern texts: the load succeeds, the records are the same in the same
    order, the inactive ones included; the loaded library is again in its
    regular state, its counter is not above the one that was saved; and
    [match] gives every line the same template and variables on the loaded
    library as on the saved one. *)
Theorem save_load_round_trip
    (lib : TemplateLibrary)
    (Hok : library_ok lib) (Hfaith : cache_faithful lib) :
  exists lib',
    load (lib_source_id lib) (save lib) = (lib', Ok tt)
    /\ templates lib' = templates lib
    /\ save lib' = save lib
    /\ lib_source_id lib' = lib_source_id lib
    /\ library_ok lib'
    /\ 1 <= _sequence lib' <= _sequence lib
    /\ forall line, snd (match_ line lib') = snd (match_ line lib).
Proof.
  destruct (load_of_save lib Hok (faithful_all_compile lib (proj1 (proj2 Hok)) Hfaith))
    as (lib' & Hload & Ht & Hs & Hi & Hok' & Hseq).
  exists lib'. split; [exact Hload|]. split; [exact Ht|]. split; [exact Hs|].
  split; [exact Hi|]. split; [exact Hok'|]. split; [exact Hseq|].
  intros line. apply match_same_records; try assumption.
  unfold load in Hload. eapply load_faithful; [| |exact Hload].
  - apply new_library_ok.
  - intros k r p [].
Qed.

(** *** The reconciliation pass, line by line *)

Lemma match_all_from_lookup lib :
  ODict.wf (templates lib) ->
  forall lines idx lib1 lib2 results,
    variant lib lib1 ->
    match_all_from idx lines lib1 = (lib2, Ok results) ->
    length results = length lines
    /\ forall (i : nat) (line : ProcessedLogLine), lines !! i = Some line ->
         exists r hit,
           results !! i = Some r
           /\ MatchResult.line_number r = idx + Z.of_nat i
           /\ MatchResult.raw r = raw line
           /\ snd (match_ line lib) = Ok hit
           /\ MatchResult.template_id r = (fun h => template_id (fst h)) <$> hit
           /\ MatchResult.variables r = from_option snd [] hit.
Proof.
  intros Hwf. induction lines as [|line rest IH]; intros idx lib1 lib2 results Hv;
    cbn [match_all_from].
  - intros [= <- <-]. split; [reflexivity|]. intros i ln Hl. discriminate.
  - destruct (match_variant lib lib1 line Hwf Hv) as [Hv1 Hr1].
    rewrite <- (match_first_hit line lib Hwf) in Hr1.
    destruct (match_ line lib1) as [lib1' r1]. cbn [fst snd] in *.
    destruct r1 as [hit|e]; [|discriminate].
    destruct (match_all_from (idx + 1) rest lib1') as [l [res|e]] eqn:Hrest; [|discriminate].
    intros [= <- <-]. destruct (IH _ _ _ _ Hv1 Hrest) as [Hlen Hall].
    split; [cbn [length]; now rewrite Hlen|].
    intros [|i] ln Hl.
    + injection Hl as <-. eexists. exists hit. split; [reflexivity|].
      destruct hit as [[r g]|]; cbn; repeat split; auto; lia.
    + destruct (Hall i ln Hl) as (r & hit' & Hr & Hn & Hrest').
      exists r, hit'. split; [exact Hr|]. split; [lia|exact Hrest'].
Qed.

(** X15.  The reconciliation pass returns one result for each line, in
    order, numbered from one, with the line's raw text, and labelled with
    what [match] gives for that line on the library as it was handed in:
    the template id of the hit and its captured variables, or no id and no
    variables. *)
Theorem match_all_labels_every_line
    (lib lib' : TemplateLibrary) (lines : list ProcessedLogLine)
    (results : list MatchResult.t)
    (Hwf : ODict.wf (templates lib))
    (Hrun : match_all lib lines = (lib', Ok results)) :
  length results = length lines
  /\ forall (i : nat) (line : ProcessedLogLine), lines !! i = Some line ->
       exists r hit,
         results !! i = Some r
         /\ MatchResult.line_number r = 1 + Z.of_nat i
         /\ MatchResult.raw r = raw line
         /\ snd (match_ line lib) = Ok hit
         /\ MatchResult.template_id r = (fun h => template_id (fst h)) <$> hit
         /\ MatchResult.variables r = from_option snd [] hit.
Proof.
  eapply match_all_from_lookup; [exact Hwf|apply variant_refl|exact Hrun].
Qed.

End LibraryMore.

(** ** The output rows *)

Lemma safe_raw_cons c s :
  safe_raw (String c s)
  = String (if is_tab_or_newline c then " "%char else c) (safe_raw s).
Proof. reflexivity. Qed.

(** X16.  The raw text written to a row of the output file has the
    length of the line's raw text and contains neither a tab nor a line
    feed, so it cannot break the row or its columns; a text without tabs
    and line feeds is written as it is. *)
Theorem safe_raw_keeps_rows_intact (s : string) :
  Preprocessing.all_chars (fun c => negb (is_tab_or_newline c)) (safe_raw s) = true
  /\ String.length (safe_raw s) = String.length s
  /\ (Preprocessing.all_chars (fun c => negb (is_tab_or_newline c)) s = true ->
      safe_raw s = s).
Proof.
  induction s as [|c r (IH1 & IH2 & IH3)]; [repeat split|].
  rewrite safe_raw_cons. cbn [Preprocessing.all_chars String.length].
  destruct (is_tab_or_newline c) eqn:Hc; cbn [negb andb].
  - split; [exact IH1|]. split; [now rewrite IH2|]. discriminate.
  - rewrite Hc. cbn [negb andb]. split; [exact IH1|]. split; [now rewrite IH2|].
    intros Hr. now rewrite IH3.
Qed.

(** ** How the library changes during the streaming pass *)

Section LibraryGrowth.
Context `{RegexEngine}.
Variable agents : Collaborators.
Variable py_str : json -> string.

Lemma grown_refl lib : grown [] lib lib.
Proof.
  unfold grown. rewrite app_nil_r. cbn [length]. split; [reflexivity|].
  split; [auto|]. split; [lia|reflexivity].
Qed.

Lemma grown_trans l1 l2 a b c : grown l1 a b -> grown l2 b c -> grown (l1 ++ l2) a c.
Proof.
  intros (Hk1 & Hg1 & Hs1 & Hi1) (Hk2 & Hg2 & Hs2 & Hi2). unfold grown.
  split; [rewrite Hk2, Hk1, <- app_assoc; reflexivity|]. split.
  { intros id r Hr. destruct (Hg1 id r Hr) as [Hb|Hb]; destruct (Hg2 _ _ Hb) as [Hc|Hc].
    - now left.
    - now right.
    - now right.
    - right. exact Hc. }
  split; [rewrite Hs2, Hs1, length_app, Nat2Z.inj_add; lia|congruence].
Qed.

Lemma grown_fresh lib lib' tid stored :
  ODict.get tid (templates lib) = None ->
  templates lib' = ODict.set tid stored (templates lib) ->
  _sequence lib' = _sequence lib + 1 ->
  lib_source_id lib' = lib_source_id lib ->
  grown [tid] lib lib'.
Proof.
  intros Hfresh Ht Hs Hi. unfold grown. rewrite Ht.
  split. { rewrite (ODictFacts.set_absent _ _ _ Hfresh). unfold ODict.keys. now rewrite map_app. }
  split. { intros id r Hr. left. rewrite ODictFacts.get_set_ne; [exact Hr|]. intros ->. congruence. }
  split; [cbn [length]; lia|exact Hi].
Qed.

Lemma grown_deactivate tid lib : grown [] lib (deactivate tid lib).
Proof.
  destruct (deactivate_frame tid lib) as (Hk & Hs & Hi & _). unfold grown.
  rewrite app_nil_r. split; [exact Hk|]. split.
  { intros id r Hr. rewrite deactivate_get, Hr. destruct (String.eqb id tid); auto. }
  split; [cbn [length]; lia|exact Hi].
Qed.

Lemma step_grown_pre {A} l1 l2 (w0 w1 : World) (run : World * result A) :
  grown l1 (library w0) (library w1) ->
  learned_templates (metrics w1) = learned_templates (metrics w0) + Z.of_nat (length l1) ->
  step_grown l2 w1 run ->
  step_grown (l1 ++ l2) w0 run.
Proof.
  intros Hg Hm [Hg2 Hm2]. split; [eapply grown_trans; eassumption|].
  intros a Ha. rewrite (Hm2 a Ha), Hm, length_app, Nat2Z.inj_add. lia.
Qed.

Lemma replace_all_grown ids :
  forall w : World,
    grown [] (library w) (library (fst (replace_all ids w)))
    /\ metrics (fst (replace_all ids w)) = metrics w.
Proof.
  induction ids as [|v rest IH]; intros w; cbn [replace_all].
  { split; [apply grown_refl|reflexivity]. }
  unfold bind at 1. unfold replace_one, bind, lift_result.
  destruct v; cbn [Json.as_key fst];
    try (split; [apply grown_refl|reflexivity]); try apply IH.
  unfold on_library, examples_pop, modify. cbn [library set_library set_examples].
  match goal with
  | |- context [replace_all rest ?w0] => destruct (IH w0) as [Hg Hm]
  end.
  split; [|now rewrite Hm].
  apply (grown_trans [] [] _ _ _ (grown_deactivate s (library w)) Hg).
Qed.

Lemma store_candidate_grown candidate line status detail (w0 w : World) :
  template_id candidate = EmptyString ->
  library w = library w0 ->
  learned_templates (metrics w) = learned_templates (metrics w0) ->
  sequence_above (library w0) ->
  exists l,
    step_grown l w0 (store_candidate candidate line status detail w) /\ (length l <= 1)%nat.
Proof.
  intros Hid Hl Hm Habove.
  destruct (PyStr.fstring_04d (_sequence (library w))) as [digits|] eqn:Hfmt.
  - assert (Hroom : PyStr.fstring_04d (_sequence (library w)) <> None) by congruence.
    pose proof (store_candidate_spec candidate line status detail w Hid Hroom) as Hspec.
    cbv zeta in Hspec. rewrite Hl in Hspec, Hroom.
    destruct Hspec as (Ht & Hs & Hi & _ & _ & Hres).
    eexists [_]. split; [|cbn; lia]. split.
    + eapply grown_fresh; [now apply next_id_fresh|exact Ht|exact Hs|exact Hi].
    + intros a Ha.
      destruct (re_compile (regex candidate)); destruct Hres as (Hout & _ & _ & Hmet);
        [|congruence].
      rewrite Hmet. cbn. lia.
  - rewrite (store_candidate_no_id candidate line status detail w Hid Hfmt).
    exists []. split; [|cbn; lia]. split; [cbn; rewrite Hl; apply grown_refl|discriminate].
Qed.

Ltac quiet Hl Hm :=
  exists []; split;
  [split; [cbn; rewrite ?Hl; apply grown_refl|intros ? _; cbn; rewrite ?Hm; lia]
  |cbn; lia].

Lemma apply_plan_grown plan candidate line context (w0 w : World) :
  template_id candidate = EmptyString ->
  library w = library w0 ->
  learned_templates (metrics w) = learned_templates (metrics w0) ->
  library_ok (library w0) ->
  exists l,
    step_grown l w0 (_apply_conflict_plan agents py_str plan candidate line context w)
    /\ (length l <= 1)%nat.
Proof.
  intros Hid Hl Hm Hok.
  unfold _apply_conflict_plan, bind, review, request, _escalate, metrics_increment,
    service_enqueue, modify, ret.
  destruct (negb (Json.is_str (ODict.get "new_regex" plan))
            || negb (PyStr.truthy (PyStr.strip (Json.str_of (ODict.get "new_regex" plan))))).
  { quiet Hl Hm. }
  destruct (llm_review _ _ _ _ _) as [v|e]; [|quiet Hl Hm].
  destruct (negb (ValidationReport.approved v)); [quiet Hl Hm|].
  destruct (Json.eq_str (ODict.get "decision" plan) "replace_conflicting").
  { match goal with
    | |- context [replace_all ?ids ?w1] =>
        destruct (replace_all_grown ids w1) as [Hg Hmet];
        pose proof (replace_all_ok ids w1) as Hok1;
        destruct (replace_all ids w1) as [w2 [[]|e]]
    end; cbn [fst library metrics set_calls] in Hg, Hmet, Hok1.
    - match goal with
      | |- context [store_candidate ?c line ?st ?d w2] =>
          destruct (store_candidate_grown c line st d w2 w2 Hid eq_refl eq_refl)
            as (l & Hsg & Hlen)
      end.
      { eapply Hok1; [now rewrite Hl|reflexivity]. }
      exists l. split; [|exact Hlen].
      eapply (step_grown_pre [] l w0 w2); [now rewrite <- Hl| |exact Hsg].
      rewrite Hmet, Hm. cbn. lia.
    - exists []. split; [|cbn; lia]. split; [cbn [fst]; now rewrite <- Hl|].
      intros a Ha. discriminate. }
  destruct (Json.eq_str (ODict.get "decision" plan) "refine_candidate").
  { apply store_candidate_grown; [exact Hid|exact Hl|exact Hm|apply Hok]. }
  quiet Hl Hm.
Qed.

Lemma after_review_grown rx report proposal line context (w0 w : World) :
  library w = library w0 ->
  learned_templates (metrics w) = learned_templates (metrics w0) ->
  library_ok (library w0) ->
  exists l,
    step_grown l w0 (after_review agents py_str rx report proposal line context w)
    /\ (length l <= 1)%nat.
Proof.
  intros Hl Hm Hok. unfold after_review. destruct (negb (ValidationReport.approved report)).
  { unfold bind, metrics_increment, modify, lift_result, ret.
    destruct (Json.join _ _); [quiet Hl Hm|].
    exists []. split; [|cbn; lia]. split; [cbn; rewrite Hl; apply grown_refl|discriminate]. }
  unfold bind at 1. unfold gets at 1. unfold bind at 1. unfold _detect_conflicts at 1.
  unfold bind, gets.
  set (cs := match re_compile rx with
             | Some pattern => ret (conflicts_loop pattern (templates (library w)) (examples w))
             | None => ret []
             end w).
  assert (Hcs : fst cs = w /\ exists l, snd cs = Ok l).
  { subst cs. destruct (re_compile rx); cbn; eauto. }
  destruct cs as [w1 res]. cbn in Hcs. destruct Hcs as [-> [cs ->]].
  destruct cs as [|c cs].
  { apply store_candidate_grown; [reflexivity|exact Hl|exact Hm|apply Hok]. }
  unfold try_except_AgentError at 1.
  destruct (resolve_conflict_quiet agents (new_candidate (library w) rx proposal) line context
              (c :: cs) w) as (Hm1 & Hl1 & _).
  destruct (resolve_conflict _ _ _ _ _ w) as [w1 [plan|[msg|p|msg|msg]]];
    cbn [fst] in Hm1, Hl1.
  - apply apply_plan_grown; [reflexivity|congruence|congruence|exact Hok].
  - unfold bind, _escalate, bind, metrics_increment, service_enqueue, modify, ret.
    exists []. split; [|cbn; lia]. split.
    + cbn. rewrite Hl1, Hl. apply grown_refl.
    + intros a _. cbn. rewrite Hm1, Hm. lia.
  - exists []. split; [|cbn; lia]. split; [cbn; rewrite Hl1, Hl; apply grown_refl|discriminate].
  - exists []. split; [|cbn; lia]. split; [cbn; rewrite Hl1, Hl; apply grown_refl|discriminate].
  - exists []. split; [|cbn; lia]. split; [cbn; rewrite Hl1, Hl; apply grown_refl|discriminate].
Qed.

Lemma process_line_grown line context (w : World) :
  library_ok (library w) ->
  exists l,
    step_grown l w (process_line agents py_str line context w) /\ (length l <= 1)%nat.
Proof.
  intros Hok. unfold process_line. unfold bind at 1.
  assert (Hd : let w1 := fst (derive agents [line] context w) in
               metrics w1 = metrics w /\ library w1 = library w).
  { unfold derive. destruct (List.filter _ _); cbn; auto. }
  cbv zeta in Hd.
  destruct (derive _ _ _ w) as [w1 [proposal|e]]; cbn [fst] in Hd; destruct Hd as (Hm1 & Hl1).
  2:{ exists []. split; [|cbn; lia]. split; [cbn; rewrite Hl1; apply grown_refl|discriminate]. }
  unfold bind at 1. unfold review at 1, request at 1.
  destruct (llm_review _ _ _ _ _) as [report|e].
  2:{ exists []. split; [|cbn; lia]. split; [cbn; rewrite Hl1; apply grown_refl|discriminate]. }
  destruct (negb (ValidationReport.approved report)).
  2:{ apply after_review_grown; [exact Hl1|now rewrite <- Hm1|exact Hok]. }
  unfold try_except_AgentError. unfold refine at 1, request at 1.
  destruct (llm_refine _ _ _ _ _ _ _) as [refined|[msg|p|msg|msg]].
  - unfold bind at 1. unfold review at 1, request at 1.
    destruct (llm_review _ _ _ _ _) as [report2|e].
    2:{ exists []. split; [|cbn; lia].
        split; [cbn; rewrite Hl1; apply grown_refl|discriminate]. }
    apply after_review_grown; [exact Hl1|now rewrite <- Hm1|exact Hok].
  - unfold bind, metrics_increment, modify, ret. exists []. split; [|cbn; lia]. split.
    + cbn. rewrite Hl1. apply grown_refl.
    + intros a _. cbn. rewrite Hm1. lia.
  - exists []. split; [|cbn; lia]. split; [cbn; rewrite Hl1; apply grown_refl|discriminate].
  - exists []. split; [|cbn; lia]. split; [cbn; rewrite Hl1; apply grown_refl|discriminate].
  - exists []. split; [|cbn; lia]. split; [cbn; rewrite Hl1; apply grown_refl|discriminate].
Qed.

Lemma phase1_step_grown context line (w : World) :
  library_ok (library w) ->
  exists l,
    step_grown l w (phase1_step agents py_str context line w) /\ (length l <= 1)%nat.
Proof.
  intros Hok. unfold phase1_step, bind, metrics_increment, modify, on_library.
  cbn [library set_metrics]. pose proof (match_ok line (library w) Hok) as Hm.
  destruct (match_ line (library w)) as [l [[[r g]|]|e]]; cbn [fst] in Hm; subst l.
  - unfold examples_setdefault, modify. cbn [examples set_library set_metrics].
    exists []. split; [|cbn; lia].
    destruct (examples w !! template_id r); (split; [cbn; apply grown_refl|]);
      intros a _; cbn; lia.
  - match goal with
    | |- context [process_line agents py_str line context ?w0] =>
        destruct (process_line_grown line context w0 Hok) as (l & [Hg Hmet] & Hlen);
        destruct (process_line agents py_str line context w0) as [w1 [out|e]]
    end; cbn [fst snd library metrics set_library set_metrics] in Hg, Hmet.
    + specialize (Hmet out eq_refl). exists l. split; [|exact Hlen].
      unfold examples_setdefault, modify, ret.
      destruct (LearningOutcome.template_id out) as [tid|];
        [destruct (PyStr.truthy tid); [destruct (examples w1 !! tid)|]|];
        (split; [exact Hg|]); intros a _; cbn [fst metrics set_examples];
        rewrite Hmet; cbn; lia.
    + exists l. split; [|exact Hlen]. split; [exact Hg|discriminate].
  - exists []. split; [|cbn; lia]. split; [cbn; apply grown_refl|discriminate].
Qed.

(** X17.  During the streaming pass the library only grows.  From a
    library in its regular state, and whether the pass runs to its end or
    is stopped by an exception: the ids present before stay where they
    are, and at most one id for each line is appended after them; a record
    present before is still there, unchanged or deactivated, so none is
    removed, reactivated or given another pattern; the counter has advanced
    by exactly the number of appended ids.  When the pass ran to its end,
    that number is also the increase of the learned-template count. *)
Theorem library_only_grows
    (context : string) (lines : list ProcessedLogLine) (w : World)
    (Hok : library_ok (library w)) :
  exists l,
    grown l (library w) (library (fst (phase1 agents py_str context lines w)))
    /\ (length l <= length lines)%nat
    /\ (snd (phase1 agents py_str context lines w) = Ok tt ->
        learned_templates (metrics (fst (phase1 agents py_str context lines w)))
        = learned_templates (metrics w) + Z.of_nat (length l)).
Proof.
  revert w Hok. induction lines as [|line rest IH]; intros w Hok; cbn [phase1].
  { exists []. split; [apply grown_refl|]. split; [cbn; lia|]. intros _. cbn. lia. }
  unfold bind at 1 2 3.
  destruct (phase1_step_grown context line w Hok) as (l1 & [Hg1 Hm1] & Hlen1).
  pose proof (phase1_step_ok agents py_str context line w) as Hok1.
  destruct (phase1_step agents py_str context line w) as [w1 [[]|e]]; cbn [fst snd] in *.
  - destruct (IH w1 (Hok1 w1 Hok eq_refl)) as (l2 & Hg2 & Hlen2 & Hm2).
    exists (l1 ++ l2)%list. split; [eapply grown_trans; eassumption|].
    split; [rewrite length_app; cbn [length]; lia|].
    intros Hend. rewrite (Hm2 Hend), (Hm1 tt eq_refl), length_app, Nat2Z.inj_add. lia.
  - exists l1. split; [exact Hg1|]. split; [cbn [length]; lia|discriminate].
Qed.

End LibraryGrowth.

(** ** Storing a template without conflict *)

Section EngineStorage.
Context `{RegexEngine}.
Variable agents : Collaborators.
Variable py_str : json -> string.

Lemma first_hit_append items c tid stored p text :
  ~ In tid (ODict.keys items) -> is_active stored = true ->
  first_hit (items ++ [(tid, stored)]) (<[tid := p]> c) text
  = match first_hit items c text with
    | Ok None =>
        match re_fullmatch p text with
        | Some g => Ok (Some (stored, g))
        | None => Ok None
        end
    | res => res
    end.
Proof.
  intros Hfresh Hact. induction items as [|[tid0 r0] rest IH]; cbn [app first_hit].
  - rewrite Hact. cbn [negb]. unfold entry_pattern. rewrite lookup_insert_eq.
    now destruct (re_fullmatch p text).
  - assert (Hne : tid <> tid0) by (intros ->; apply Hfresh; now left).
    assert (Hrest : ~ In tid (ODict.keys rest)) by (intros Hin; apply Hfresh; now right).
    destruct (is_active r0); cbn [negb]; [|now apply IH].
    assert (He : entry_pattern (<[tid := p]> c) tid0 r0 = entry_pattern c tid0 r0).
    { unfold entry_pattern. now rewrite lookup_insert_ne by exact Hne. }
    rewrite He. destruct (entry_pattern c tid0 r0) as [p0|]; [|reflexivity].
    destruct (re_fullmatch p0 text); [reflexivity|now apply IH].
Qed.

Lemma apply_plan_not_stored plan candidate line context (w w' : World) out :
  template_id candidate = EmptyString ->
  _apply_conflict_plan agents py_str plan candidate line context w = (w', Ok out) ->
  LearningOutcome.status out <> "stored".
Proof.
  intros Hid.
  unfold _apply_conflict_plan, bind, review, request, _escalate, metrics_increment,
    service_enqueue, modify, ret.
  intros Hrun.
  destruct (negb (Json.is_str (ODict.get "new_regex" plan))
            || negb (PyStr.truthy (PyStr.strip (Json.str_of (ODict.get "new_regex" plan))))).
  { injection Hrun as _ <-. discriminate. }
  destruct (llm_review _ _ _ _ _) as [v|e]; [|discriminate].
  destruct (negb (ValidationReport.approved v)).
  { injection Hrun as _ <-. discriminate. }
  assert (Hstore : forall cand st d (w1 : World),
            template_id cand = EmptyString ->
            store_candidate cand line st d w1 = (w', Ok out) -> LearningOutcome.status out = st).
  { intros cand st d w1 Hc Hs.
    pose proof (store_candidate_spec cand line st d w1 Hc
                  (store_candidate_Ok_id _ _ _ _ _ _ _ Hc Hs)) as Hspec.
    cbv zeta in Hspec. rewrite Hs in Hspec. cbn [fst snd] in Hspec.
    destruct Hspec as (_ & _ & _ & _ & _ & Hres).
    destruct (re_compile (regex cand)); destruct Hres as (Hout & _); [|discriminate].
    now injection Hout as ->. }
  destruct (Json.eq_str (ODict.get "decision" plan) "replace_conflicting").
  { destruct (replace_all _ _) as [w1 [[]|e]]; [|discriminate].
    apply Hstore in Hrun; [|exact Hid]. rewrite Hrun. discriminate. }
  destruct (Json.eq_str (ODict.get "decision" plan) "refine_candidate").
  { apply Hstore in Hrun; [|exact Hid]. rewrite Hrun. discriminate. }
  injection Hrun as _ <-. discriminate.
Qed.

Lemma after_review_stored rx report proposal line context (w w' : World) out :
  sequence_above (library w) ->
  after_review agents py_str rx report proposal line context w = (w', Ok out) ->
  LearningOutcome.status out = "stored" ->
  let tid := lib_source_id (library w) ++ "-" ++ PyStr.format_04d (_sequence (library w)) in
  exists p,
    re_compile rx = Some p
    /\ conflicts_loop p (templates (library w)) (examples w) = []
    /\ LearningOutcome.template_id out = Some tid
    /\ templates (library w')
       = (templates (library w)
            ++ [(tid, with_template_id tid (new_candidate (library w) rx proposal))])%list
    /\ _compiled (library w') = <[tid := p]> (_compiled (library w))
    /\ examples w' = <[tid := line]> (examples w).
Proof.
  intros Habove. cbv zeta. unfold after_review.
  destruct (negb (ValidationReport.approved report)).
  { unfold bind, metrics_increment, modify, lift_result, ret.
    destruct (Json.join _ _); [|discriminate]. intros [= _ <-]. discriminate. }
  unfold bind at 1. unfold gets at 1. unfold bind at 1. unfold _detect_conflicts at 1.
  unfold bind, gets, ret.
  assert (Hstore : forall (w1 : World),
            w1 = w ->
            store_candidate (new_candidate (library w) rx proposal) line "stored"
              (JStr "stored without conflict") w1 = (w', Ok out) ->
            exists p,
              re_compile rx = Some p
              /\ LearningOutcome.template_id out
                 = Some (lib_source_id (library w) ++ "-"
                         ++ PyStr.format_04d (_sequence (library w)))
              /\ templates (library w')
                 = (templates (library w)
                    ++ [((lib_source_id (library w) ++ "-"
                          ++ PyStr.format_04d (_sequence (library w)))%string,
                         with_template_id
                           (lib_source_id (library w) ++ "-"
                            ++ PyStr.format_04d (_sequence (library w)))%string
                           (new_candidate (library w) rx proposal))])%list
              /\ _compiled (library w')
                 = <[lib_source_id (library w) ++ "-"
                     ++ PyStr.format_04d (_sequence (library w)) := p]> (_compiled (library w))
              /\ examples w'
                 = <[lib_source_id (library w) ++ "-"
                     ++ PyStr.format_04d (_sequence (library w)) := line]> (examples w)).
  { intros w1 -> Hs.
    assert (Hfmt : PyStr.fstring_04d (_sequence (library w)) <> None)
      by (eapply store_candidate_Ok_id; [|exact Hs]; reflexivity).
    pose proof (store_candidate_spec (new_candidate (library w) rx proposal) line "stored"
                  (JStr "stored without conflict") w eq_refl Hfmt) as Hspec.
    cbv zeta in Hspec. rewrite Hs in Hspec. cbn [fst snd regex new_candidate] in Hspec.
    destruct Hspec as (Ht & _ & _ & _ & _ & Hres).
    destruct (re_compile rx) as [p|]; destruct Hres as (Hout & Hc & He & _); [|discriminate].
    exists p. split; [reflexivity|]. injection Hout as ->. split; [reflexivity|].
    rewrite (ODictFacts.set_absent _ _ _ (next_id_fresh _ Habove Hfmt)) in Ht. auto. }
  destruct (re_compile rx) as [p|] eqn:Hp.
  - destruct (conflicts_loop p (templates (library w)) (examples w)) as [|c cs] eqn:Hc.
    + intros Hrun _. destruct (Hstore w eq_refl Hrun) as (p' & [= <-] & Hrest).
      exists p. split; [reflexivity|]. split; [exact Hc|exact Hrest].
    + unfold try_except_AgentError at 1.
      destruct (resolve_conflict _ _ _ _ _ w) as [w1 [plan|[msg|q|msg|msg]]];
        try discriminate.
      * intros Hrun Hst. now apply apply_plan_not_stored in Hrun.
      * unfold bind, _escalate, bind, metrics_increment, service_enqueue, modify, ret.
        intros [= _ <-]. discriminate.
  - intros Hrun _. destruct (Hstore w eq_refl Hrun) as (p' & [=] & _).
Qed.

Lemma process_line_stored line context (w w' : World) out :
  sequence_above (library w) ->
  process_line agents py_str line context w = (w', Ok out) ->
  LearningOutcome.status out = "stored" ->
  let tid := lib_source_id (library w) ++ "-" ++ PyStr.format_04d (_sequence (library w)) in
  exists rx proposal p,
    re_compile rx = Some p
    /\ conflicts_loop p (templates (library w)) (examples w) = []
    /\ LearningOutcome.template_id out = Some tid
    /\ templates (library w')
       = (templates (library w)
            ++ [(tid, with_template_id tid (new_candidate (library w) rx proposal))])%list
    /\ _compiled (library w') = <[tid := p]> (_compiled (library w))
    /\ examples w' = <[tid := line]> (examples w).
Proof.
  intros Habove. cbv zeta. unfold process_line. unfold bind at 1.
  assert (Hd : let w1 := fst (derive agents [line] context w) in
               library w1 = library w /\ examples w1 = examples w).
  { unfold derive. destruct (List.filter _ _); cbn; auto. }
  cbv zeta in Hd.
  destruct (derive _ _ _ w) as [w1 [proposal|e]]; [|discriminate]. cbn [fst] in Hd.
  destruct Hd as (Hl1 & He1).
  unfold bind at 1. unfold review at 1, request at 1.
  destruct (llm_review _ _ _ _ _) as [report|e]; [|discriminate].
  assert (Hafter : forall rx rp (w2 : World),
            library w2 = library w -> examples w2 = examples w ->
            after_review agents py_str rx rp proposal line context w2 = (w', Ok out) ->
            LearningOutcome.status out = "stored" ->
            exists rx proposal p,
              re_compile rx = Some p
              /\ conflicts_loop p (templates (library w)) (examples w) = []
              /\ LearningOutcome.template_id out
                 = Some (lib_source_id (library w) ++ "-"
                         ++ PyStr.format_04d (_sequence (library w)))
              /\ templates (library w')
                 = (templates (library w)
                    ++ [((lib_source_id (library w) ++ "-"
                          ++ PyStr.format_04d (_sequence (library w)))%string,
                         with_template_id
                           (lib_source_id (library w) ++ "-"
                            ++ PyStr.format_04d (_sequence (library w)))%string
                           (new_candidate (library w) rx proposal))])%list
              /\ _compiled (library w')
                 = <[lib_source_id (library w) ++ "-"
                     ++ PyStr.format_04d (_sequence (library w)) := p]> (_compiled (library w))
              /\ examples w'
                 = <[lib_source_id (library w) ++ "-"
                     ++ PyStr.format_04d (_sequence (library w)) := line]> (examples w)).
  { intros rx rp w2 Hl2 He2 Hrun Hst.
    assert (Habove2 : sequence_above (library w2)) by now rewrite Hl2.
    pose proof (after_review_stored rx rp proposal line context w2 w' out Habove2 Hrun Hst)
      as Hspec.
    cbv zeta in Hspec. rewrite Hl2, He2 in Hspec. destruct Hspec as (p & Hspec).
    now exists rx, proposal, p. }
  destruct (negb (ValidationReport.approved report)).
  2:{ apply Hafter; assumption. }
  unfold try_except_AgentError. unfold refine at 1, request at 1.
  destruct (llm_refine _ _ _ _ _ _ _) as [refined|[msg|p|msg|msg]]; try discriminate.
  - unfold bind at 1. unfold review at 1, request at 1.
    destruct (llm_review _ _ _ _ _) as [report2|e]; [|discriminate].
    apply Hafter; assumption.
  - unfold bind, metrics_increment, modify, ret. intros [= _ <-]. discriminate.
Qed.

(** X18.  When [process_line] ends with the outcome [stored], the
    template it stored is a new, active record appended at the end of the
    library under the id made from the counter, with its compiled pattern
    in the cache and the line as its cached example; the pattern compiles,
    and it matches in full none of the examples cached for the active
    templates, which is what "without conflict" means. *)
Theorem stored_without_conflict
    (line : ProcessedLogLine) (context : string) (w w' : World) (out : LearningOutcome.t)
    (Habove : sequence_above (library w))
    (Hrun : process_line agents py_str line context w = (w', Ok out))
    (Hstored : LearningOutcome.status out = "stored") :
  let tid := lib_source_id (library w) ++ "-" ++ PyStr.format_04d (_sequence (library w)) in
  exists stored p,
    LearningOutcome.template_id out = Some tid
    /\ template_id stored = tid
    /\ is_active stored = true
    /\ source_id stored = lib_source_id (library w)
    /\ re_compile (regex stored) = Some p
    /\ templates (library w') = (templates (library w) ++ [(tid, stored)])%list
    /\ _compiled (library w') = <[tid := p]> (_compiled (library w))
    /\ examples w' = <[tid := line]> (examples w)
    /\ (forall id r sample,
          In (id, r) (templates (library w)) -> is_active r = true ->
          examples w !! id = Some sample ->
          re_fullmatch p (transformed sample) = None).
Proof.
  cbv zeta.
  destruct (process_line_stored line context w w' out Habove Hrun Hstored)
    as (rx & proposal & p & Hp & Hnone & Hid & Ht & Hc & He).
  exists (with_template_id
            (lib_source_id (library w) ++ "-" ++ PyStr.format_04d (_sequence (library w)))
            (new_candidate (library w) rx proposal)), p.
  split; [exact Hid|]. split; [reflexivity|]. split; [reflexivity|].
  split; [reflexivity|]. split; [exact Hp|]. split; [exact Ht|]. split; [exact Hc|].
  split; [exact He|].
  intros id r sample Hin Hact Hex.
  destruct (re_fullmatch p (transformed sample)) as [g|] eqn:Hm; [|reflexivity].
  exfalso.
  assert (Hconf : In (r, transformed sample)
                     (conflicts_loop p (templates (library w)) (examples w))).
  { rewrite conflicts_loop_filter. apply filter_In. split.
    - apply In_active_examples. now exists id, sample.
    - unfold fully_matches. cbn [snd]. now rewrite Hm. }
  now rewrite Hnone in Hconf.
Qed.

(** X19.  After a storage without conflict, [match] on the new library
    is [match] on the old one with the new template as a last resort: a
    line that had a template keeps it, with the same variables, and a line
    that had none gets the new template exactly when the new pattern
    matches the whole of its canonical text. *)
Theorem match_after_storing
    (line : ProcessedLogLine) (context : string) (w w' : World) (out : LearningOutcome.t)
    (Hok : library_ok (library w))
    (Hrun : process_line agents py_str line context w = (w', Ok out))
    (Hstored : LearningOutcome.status out = "stored") :
  let tid := lib_source_id (library w) ++ "-" ++ PyStr.format_04d (_sequence (library w)) in
  exists stored p,
    ODict.get tid (templates (library w')) = Some stored
    /\ _compiled (library w') !! tid = Some p
    /\ forall other : ProcessedLogLine,
         snd (match_ other (library w'))
         = match snd (match_ other (library w)) with
           | Ok None =>
               match re_fullmatch p (transformed other) with
               | Some g => Ok (Some (stored, g))
               | None => Ok None
               end
           | res => res
           end.
Proof.
  cbv zeta. pose proof Hok as (Hwf & _ & Habove & _).
  destruct (process_line_stored line context w w' out Habove Hrun Hstored)
    as (rx & proposal & p & Hp & Hnone & Hid & Ht & Hc & He).
  pose proof (process_line_ok agents py_str line context w w' out Hok Hrun) as (Hwf' & _).
  assert (Hfresh : ODict.get
                     (lib_source_id (library w) ++ "-"
                      ++ PyStr.format_04d (_sequence (library w)))
                     (templates (library w)) = None).
  { apply ODictFacts.get_None_keys. intros Hin. unfold ODict.wf in Hwf'.
    rewrite Ht in Hwf'. unfold ODict.keys in Hwf'. rewrite map_app in Hwf'.
    apply NoDup_app in Hwf' as (_ & Hdisj & _).
    apply (Hdisj _ (proj2 (list_elem_of_In _ _) Hin)). apply list_elem_of_In. now left. }
  exists (with_template_id
            (lib_source_id (library w) ++ "-" ++ PyStr.format_04d (_sequence (library w)))
            (new_candidate (library w) rx proposal)), p.
  split.
  { rewrite Ht, <- (ODictFacts.set_absent _ _ _ Hfresh). apply ODictFacts.get_set_eq. }
  split; [rewrite Hc; apply lookup_insert_eq|].
  intros other. rewrite (match_first_hit other _ Hwf'), (match_first_hit other _ Hwf), Ht, Hc.
  apply first_hit_append; [|reflexivity].
  now apply ODictFacts.get_None_keys.
Qed.

(** X20.  A line whose text is whitespace only has an empty canonical
    text, and [process_line] refuses it with [AgentError] before any
    request is made and without touching the state; since the streaming
    loop does not catch the exception, such a line, when no template
    matches the empty text, stops the pass there, having counted the line
    as processed. *)
Theorem blank_line_stops_the_pass
    (text context : string) (w : World)
    (Hblank : Preprocessing.all_chars PyStr.is_space text = true) :
  process_line agents py_str (Preprocessing.normalize text) context w
  = (w, Raise (AgentError "no content to derive template from"))
  /\ forall rest lib1,
       match_ (Preprocessing.normalize text) (library w) = (lib1, Ok None) ->
       phase1 agents py_str context (Preprocessing.normalize text :: rest) w
       = (set_library lib1 (set_metrics (increment "processed_lines" 1 (metrics w)) w),
          Raise (AgentError "no content to derive template from")).
Proof.
  apply PreprocessingFacts.normalize_blank in Hblank.
  assert (Hp : forall w0 : World,
            process_line agents py_str (Preprocessing.normalize text) context w0
            = (w0, Raise (AgentError "no content to derive template from"))).
  { intros w0. unfold process_line, bind, derive. cbn [List.filter]. now rewrite Hblank. }
  split; [apply Hp|].
  intros rest lib1 Hmiss. cbn [phase1]. unfold bind at 1.
  unfold phase1_step, bind, metrics_increment, modify, on_library.
  cbn [library set_metrics]. rewrite Hmiss. now rewrite Hp.
Qed.

End EngineStorage.

(** ** The example cache and the library *)

Section EngineCache.
Context `{RegexEngine}.
Variable agents : Collaborators.
Variable py_str : json -> string.

Lemma store_candidate_cache candidate line status detail (w w' : World) out :
  template_id candidate = EmptyString -> is_active candidate = true ->
  store_candidate candidate line status detail w = (w', Ok out) ->
  cache_in_library w -> cache_in_library w'.
Proof.
  intros Hid Hact Hrun Hcache.
  pose proof (store_candidate_spec candidate line status detail w Hid
                (store_candidate_Ok_id _ _ _ _ _ _ _ Hid Hrun)) as Hspec.
  cbv zeta in Hspec. rewrite Hrun in Hspec. cbn [fst snd] in Hspec.
  destruct Hspec as (Ht & _ & _ & _ & _ & Hres).
  destruct (re_compile (regex candidate)); destruct Hres as (Hout & _ & He & _);
    [|discriminate].
  intros id ln Hex. rewrite He in Hex. rewrite Ht.
  destruct (String.eqb_spec
              (lib_source_id (library w) ++ "-" ++ PyStr.format_04d (_sequence (library w)))
              id) as [<-|Hne].
  - rewrite ODictFacts.get_set_eq. eexists. split; [reflexivity|exact Hact].
  - rewrite lookup_insert_ne in Hex by exact Hne.
    rewrite ODictFacts.get_set_ne by exact Hne. now apply (Hcache id ln).
Qed.

Lemma replace_all_cache ids (w w' : World) :
  replace_all ids w = (w', Ok tt) -> cache_in_library w -> cache_in_library w'.
Proof.
  intros Hrun Hcache. apply replace_all_spec in Hrun as (Hboth & _).
  intros id ln Hex. destruct (Hboth id) as [Hg He]. rewrite He in Hex. rewrite Hg.
  destruct (mentions id ids); [discriminate|]. now apply (Hcache id ln).
Qed.

Lemma apply_plan_cache plan candidate line context (w w' : World) out :
  template_id candidate = EmptyString -> is_active candidate = true ->
  _apply_conflict_plan agents py_str plan candidate line context w = (w', Ok out) ->
  cache_in_library w -> cache_in_library w'.
Proof.
  intros Hid Hact.
  unfold _apply_conflict_plan, bind, review, request, _escalate, metrics_increment,
    service_enqueue, modify, ret.
  intros Hrun Hcache.
  destruct (negb (Json.is_str (ODict.get "new_regex" plan))
            || negb (PyStr.truthy (PyStr.strip (Json.str_of (ODict.get "new_regex" plan))))).
  { injection Hrun as <- _. exact Hcache. }
  destruct (llm_review _ _ _ _ _) as [v|e]; [|discriminate].
  destruct (negb (ValidationReport.approved v)).
  { injection Hrun as <- _. exact Hcache. }
  destruct (Json.eq_str (ODict.get "decision" plan) "replace_conflicting").
  { destruct (replace_all _ _) as [w1 [[]|e]] eqn:Hloop; [|discriminate].
    apply replace_all_cache in Hloop; [|exact Hcache].
    eapply store_candidate_cache; [| |exact Hrun|exact Hloop]; [exact Hid|exact Hact]. }
  destruct (Json.eq_str (ODict.get "decision" plan) "refine_candidate").
  { eapply store_candidate_cache; [| |exact Hrun|exact Hcache]; [exact Hid|exact Hact]. }
  injection Hrun as <- _. exact Hcache.
Qed.

Lemma after_review_cache rx report proposal line context (w w' : World) out :
  after_review agents py_str rx report proposal line context w = (w', Ok out) ->
  cache_in_library w -> cache_in_library w'.
Proof.
  unfold after_review. destruct (negb (ValidationReport.approved report)).
  { unfold bind, metrics_increment, modify, lift_result, ret.
    destruct (Json.join _ _); [|discriminate]. intros [= <- _] Hcache. exact Hcache. }
  unfold bind at 1. unfold gets at 1. unfold bind at 1. unfold _detect_conflicts at 1.
  unfold bind, gets.
  set (cs := match re_compile rx with
             | Some pattern => ret (conflicts_loop pattern (templates (library w)) (examples w))
             | None => ret []
             end w).
  assert (Hcs : fst cs = w /\ exists l, snd cs = Ok l).
  { subst cs. destruct (re_compile rx); cbn; eauto. }
  destruct cs as [w1 res]. cbn in Hcs. destruct Hcs as [-> [cs ->]].
  destruct cs as [|c cs].
  { intros Hrun Hcache.
    eapply store_candidate_cache; [| |exact Hrun|exact Hcache]; reflexivity. }
  unfold try_except_AgentError at 1.
  destruct (resolve_conflict_quiet agents (new_candidate (library w) rx proposal) line context
              (c :: cs) w) as (_ & Hl1 & He1).
  destruct (resolve_conflict _ _ _ _ _ w) as [w1 [plan|[msg|p|msg|msg]]]; try discriminate;
    cbn [fst] in Hl1, He1.
  - intros Hrun Hcache. eapply apply_plan_cache; [| |exact Hrun|]; try reflexivity.
    intros id ln. rewrite Hl1, He1. apply Hcache.
  - unfold bind, _escalate, bind, metrics_increment, service_enqueue, modify, ret.
    intros [= <- _] Hcache id ln. cbn. rewrite Hl1, He1. apply Hcache.
Qed.

Lemma process_line_cache line context (w w' : World) out :
  process_line agents py_str line context w = (w', Ok out) ->
  cache_in_library w -> cache_in_library w'.
Proof.
  unfold process_line. unfold bind at 1.
  assert (Hd : let w1 := fst (derive agents [line] context w) in
               library w1 = library w /\ examples w1 = examples w).
  { unfold derive. destruct (List.filter _ _); cbn; auto. }
  cbv zeta in Hd.
  destruct (derive _ _ _ w) as [w1 [proposal|e]]; [|discriminate]. cbn [fst] in Hd.
  destruct Hd as (Hl1 & He1).
  unfold bind at 1. unfold review at 1, request at 1.
  destruct (llm_review _ _ _ _ _) as [report|e]; [|discriminate].
  assert (Hframe : forall cs, cache_in_library w -> cache_in_library (set_calls cs w1)).
  { intros cs Hcache id ln. cbn. rewrite Hl1, He1. apply Hcache. }
  destruct (negb (ValidationReport.approved report)).
  2:{ intros Hrun Hcache. eapply after_review_cache; [exact Hrun|now apply Hframe]. }
  unfold try_except_AgentError. unfold refine at 1, request at 1.
  destruct (llm_refine _ _ _ _ _ _ _) as [refined|[msg|p|msg|msg]]; try discriminate.
  - unfold bind at 1. unfold review at 1, request at 1.
    destruct (llm_review _ _ _ _ _) as [report2|e]; [|discriminate].
    intros Hrun Hcache. eapply after_review_cache; [exact Hrun|].
    intros id ln. cbn. rewrite Hl1, He1. apply Hcache.
  - unfold bind, metrics_increment, modify, ret. intros [= <- _] Hcache id ln. cbn.
    rewrite Hl1, He1. apply Hcache.
Qed.

Lemma phase1_step_cache context line (w w' : World) :
  library_ok (library w) -> cache_in_library w ->
  phase1_step agents py_str context line w = (w', Ok tt) ->
  cache_in_library w'.
Proof.
  intros Hok Hcache. unfold phase1_step, bind, metrics_increment, modify, on_library.
  cbn [library set_metrics]. pose proof (match_ok line (library w) Hok) as Hm.
  pose proof Hok as (Hwf & _ & _ & Hkey).
  pose proof (match_first_hit line (library w) Hwf) as Hhit.
  destruct (match_ line (library w)) as [l [[[r g]|]|e]]; cbn [fst snd] in Hm, Hhit; subst l;
    [| |discriminate].
  - unfold examples_setdefault, modify. cbn [examples set_library set_metrics].
    symmetry in Hhit. apply first_hit_Some in Hhit as (l1 & k & l2 & p & Ht & Hact & _).
    assert (Hin : In (k, r) (templates (library w))).
    { rewrite Ht. apply in_or_app. right. now left. }
    pose proof (Hkey _ _ Hin) as Hk. subst k.
    apply (ODictFacts.In_get _ _ _ Hwf) in Hin.
    destruct (examples w !! template_id r) eqn:Hex; intros [= <-]; [exact Hcache|].
    intros id ln. cbn. intros Hl.
    destruct (String.eqb_spec (template_id r) id) as [<-|Hne].
    + now exists r.
    + rewrite lookup_insert_ne in Hl by exact Hne. now apply (Hcache id ln).
  - match goal with
    | |- context [process_line agents py_str line context ?w0] =>
        pose proof (process_line_cache line context w0) as Hp;
        pose proof (process_line_example agents py_str line context w0) as Hrec;
        destruct (process_line agents py_str line context w0) as [w1 [out|e]]
    end; [|discriminate].
    specialize (Hp w1 out eq_refl Hcache). specialize (Hrec w1 out eq_refl).
    unfold examples_setdefault, modify, ret.
    destruct (LearningOutcome.template_id out) as [tid|] eqn:Hid; [|now intros [= <-]].
    destruct (PyStr.truthy tid); [|now intros [= <-]].
    rewrite (Hrec tid Hid). now intros [= <-].
Qed.

(** X21.  Over a streaming pass that runs to its end from a library in
    its regular state, every line held in the example cache is held under
    the id of a template that is in the library and active: the cache never
    keeps an example for a template that was deactivated or that is not
    stored. *)
Theorem cache_holds_active_templates_only
    (context : string) (lines : list ProcessedLogLine) (w w' : World)
    (Hok : library_ok (library w)) (Hcache : cache_in_library w)
    (Hrun : phase1 agents py_str context lines w = (w', Ok tt)) :
  cache_in_library w'.
Proof.
  revert w Hok Hcache Hrun. induction lines as [|line rest IH]; intros w Hok Hcache;
    cbn [phase1].
  - now intros [= <-].
  - unfold bind at 1.
    pose proof (phase1_step_cache context line w) as Hs.
    pose proof (phase1_step_ok agents py_str context line w) as Hs'.
    destruct (phase1_step agents py_str context line w) as [w1 [[]|e]]; [|discriminate].
    apply IH; [now apply Hs'|now apply Hs].
Qed.

End EngineCache.

(** ** Escalations and the tasks filed for the operator *)

Section EngineTasks.
Context `{RegexEngine}.
Variable agents : Collaborators.
Variable py_str : json -> string.








End EngineTasks.

(** ** What the streaming pass can do to the library *)

Section LibraryInvariant.
Context `{RegexEngine}.
Variable agents : Collaborators.
Variable py_str : json -> string.
Variable Inv : TemplateLibrary -> Prop.
Hypothesis Inv_add :
  forall candidate lib lib' stored,
    library_ok lib -> Inv lib ->
    template_id candidate = EmptyString -> is_active candidate = true ->
    add candidate lib = (lib', Ok stored) -> Inv lib'.
Hypothesis Inv_deactivate :
  forall tid lib, library_ok lib -> Inv lib -> Inv (deactivate tid lib).

Lemma replace_all_inv ids :
  forall (w w' : World) r,
    library_ok (library w) -> Inv (library w) ->
    replace_all ids w = (w', r) -> Inv (library w').
Proof.
  induction ids as [|v rest IH]; intros w w' r Hok Hinv; cbn [replace_all].
  - now intros [= <- _].
  - unfold bind at 1. unfold replace_one, bind, lift_result.
    destruct v; cbn [Json.as_key]; try (now intros [= <- _]); try (now apply IH).
    unfold on_library, examples_pop, modify. cbn [library set_library set_examples].
    apply IH; cbn [library set_library set_examples];
      [now apply deactivate_ok|now apply Inv_deactivate].
Qed.

Lemma store_candidate_inv candidate line status detail (w w' : World) out :
  template_id candidate = EmptyString -> is_active candidate = true ->
  library_ok (library w) -> Inv (library w) ->
  store_candidate candidate line status detail w = (w', Ok out) ->
  Inv (library w').
Proof.
  intros Hid Hact Hok Hinv. unfold store_candidate, bind, on_library.
  destruct (add candidate (library w)) as [l [stored|e]] eqn:Hadd; [|discriminate].
  cbn. intros [= <- _]. cbn. eapply Inv_add; eauto.
Qed.

Lemma apply_plan_inv plan candidate line context (w w' : World) out :
  template_id candidate = EmptyString -> is_active candidate = true ->
  library_ok (library w) -> Inv (library w) ->
  _apply_conflict_plan agents py_str plan candidate line context w = (w', Ok out) ->
  Inv (library w').
Proof.
  intros Hid Hact Hok Hinv.
  unfold _apply_conflict_plan, bind, review, request, _escalate, metrics_increment,
    service_enqueue, modify, ret.
  intros Hrun.
  destruct (negb (Json.is_str (ODict.get "new_regex" plan))
            || negb (PyStr.truthy (PyStr.strip (Json.str_of (ODict.get "new_regex" plan))))).
  { now injection Hrun as <- _. }
  destruct (llm_review _ _ _ _ _) as [v|e]; [|discriminate].
  destruct (negb (ValidationReport.approved v)).
  { now injection Hrun as <- _. }
  destruct (Json.eq_str (ODict.get "decision" plan) "replace_conflicting").
  { destruct (replace_all _ _) as [w1 [[]|e]] eqn:Hloop; [|discriminate].
    assert (Hok1 := Hloop). apply replace_all_ok in Hok1; [|exact Hok].
    apply replace_all_inv in Hloop; [|exact Hok|exact Hinv].
    apply store_candidate_inv in Hrun; assumption. }
  destruct (Json.eq_str (ODict.get "decision" plan) "refine_candidate").
  { apply store_candidate_inv in Hrun; assumption. }
  now injection Hrun as <- _.
Qed.

Lemma after_review_inv rx report proposal line context (w w' : World) out :
  library_ok (library w) -> Inv (library w) ->
  after_review agents py_str rx report proposal line context w = (w', Ok out) ->
  Inv (library w').
Proof.
  intros Hok Hinv. unfold after_review. destruct (negb (ValidationReport.approved report)).
  { unfold bind, metrics_increment, modify, lift_result, ret.
    destruct (Json.join _ _); [|discriminate]. now intros [= <- _]. }
  unfold bind at 1. unfold gets at 1. unfold bind at 1. unfold _detect_conflicts at 1.
  unfold bind, gets.
  set (cs := match re_compile rx with
             | Some pattern => ret (conflicts_loop pattern (templates (library w)) (examples w))
             | None => ret []
             end w).
  assert (Hcs : fst cs = w /\ exists l, snd cs = Ok l).
  { subst cs. destruct (re_compile rx); cbn; eauto. }
  destruct cs as [w0 res]. cbn in Hcs. destruct Hcs as [-> [cs ->]].
  destruct cs as [|c cs].
  { now apply store_candidate_inv. }
  unfold try_except_AgentError at 1.
  pose proof (resolve_conflict_library agents (new_candidate (library w) rx proposal) line
                context (c :: cs) w) as Hlib.
  destruct (resolve_conflict _ _ _ _ _ w) as [w1 [plan|[msg|p|msg|msg]]]; try discriminate;
    cbn [fst] in Hlib.
  - apply apply_plan_inv; [reflexivity|reflexivity|now rewrite Hlib|now rewrite Hlib].
  - unfold bind, _escalate, bind, metrics_increment, service_enqueue, modify, ret.
    intros [= <- _]. cbn. now rewrite Hlib.
Qed.

Lemma process_line_inv line context (w w' : World) out :
  library_ok (library w) -> Inv (library w) ->
  process_line agents py_str line context w = (w', Ok out) ->
  Inv (library w').
Proof.
  intros Hok Hinv. unfold process_line. unfold bind at 1.
  assert (Hd : library (fst (derive agents [line] context w)) = library w).
  { unfold derive. destruct (List.filter _ _); reflexivity. }
  destruct (derive _ _ _ w) as [w1 [proposal|e]]; [|discriminate]. cbn [fst] in Hd.
  unfold bind at 1. unfold review at 1, request at 1.
  destruct (llm_review _ _ _ _ _) as [report|e]; [|discriminate].
  destruct (negb (ValidationReport.approved report)).
  2:{ apply after_review_inv; cbn; now rewrite Hd. }
  unfold try_except_AgentError. unfold refine at 1, request at 1.
  destruct (llm_refine _ _ _ _ _ _ _) as [refined|[msg|p|msg|msg]]; try discriminate.
  - unfold bind at 1. unfold review at 1, request at 1.
    destruct (llm_review _ _ _ _ _) as [report2|e]; [|discriminate].
    apply after_review_inv; cbn; now rewrite Hd.
  - unfold bind, metrics_increment, modify, ret. intros [= <- _]. cbn. now rewrite Hd.
Qed.

Lemma phase1_step_inv context line (w w' : World) :
  library_ok (library w) -> Inv (library w) ->
  phase1_step agents py_str context line w = (w', Ok tt) ->
  Inv (library w').
Proof.
  intros Hok Hinv. unfold phase1_step, bind, metrics_increment, modify, on_library.
  cbn [library set_metrics]. pose proof (match_ok line (library w) Hok) as Hm.
  destruct (match_ line (library w)) as [l [[[r g]|]|e]]; cbn [fst] in Hm; subst l;
    [| |discriminate].
  - unfold examples_setdefault, modify. cbn [examples set_library set_metrics].
    destruct (examples w !! template_id r); intros [= <-]; exact Hinv.
  - match goal with
    | |- context [process_line agents py_str line context ?w0] =>
        pose proof (process_line_inv line context w0) as Hp;
        destruct (process_line agents py_str line context w0) as [w1 [out|e]]
    end; [|discriminate].
    specialize (Hp w1 out Hok Hinv eq_refl).
    unfold examples_setdefault, modify, ret.
    destruct (LearningOutcome.template_id out) as [tid|]; [|now intros [= <-]].
    destruct (PyStr.truthy tid); [|now intros [= <-]].
    destruct (examples w1 !! tid); now intros [= <-].
Qed.

Lemma phase1_inv context lines :
  forall (w w' : World),
    library_ok (library w) -> Inv (library w) ->
    phase1 agents py_str context lines w = (w', Ok tt) ->
    Inv (library w').
Proof.
  induction lines as [|line rest IH]; intros w w' Hok Hinv; cbn [phase1].
  - now intros [= <-].
  - unfold bind at 1.
    pose proof (phase1_step_inv context line w) as Hs.
    pose proof (phase1_step_ok agents py_str context line w) as Hs'.
    destruct (phase1_step agents py_str context line w) as [w1 [[]|e]]; [|discriminate].
    apply IH; [now apply Hs'|now apply Hs].
Qed.

(** X23.  The streaming pass changes the library in two ways only: by
    [add] of an active candidate that has no id yet, and by [deactivate].
    So after a pass that ran to its end from a library in its regular
    state, the library is again in its regular state, and any property of
    libraries that these two operations keep (on libraries in their regular
    state) still holds. *)
Theorem library_changed_by_add_and_deactivate_only
    (context : string) (lines : list ProcessedLogLine) (w w' : World)
    (Hok : library_ok (library w)) (Hinv : Inv (library w))
    (Hrun : phase1 agents py_str context lines w = (w', Ok tt)) :
  library_ok (library w') /\ Inv (library w').
Proof.
  split.
  - exact (phase1_ok agents py_str context lines w w' Hok Hrun).
  - exact (phase1_inv context lines w w' Hok Hinv Hrun).
Qed.

End LibraryInvariant.

(** ** Persistence of what a run learned *)

Section Persistence.
Context `{RegexEngine}.
Variable agents : Collaborators.
Variable py_str : json -> string.

(** X24.  What a run learned can be loaded again.  Take a library
    loaded from a document (an empty one for a new source), run the
    streaming pass on it to its end, and save: the saved document loads
    without error and gives back the same records in the same order, in a
    library in its regular state, on which [match] gives every line the
    same template and variables as on the library the run ended with. *)
Theorem completed_run_can_be_reloaded
    (sid context : string) (payload : list TemplateRecord) (lib0 : TemplateLibrary)
    (lines : list ProcessedLogLine) (w w' : World)
    (Hload : load sid payload = (lib0, Ok tt))
    (Hlib : library w = lib0)
    (Hrun : phase1 agents py_str context lines w = (w', Ok tt)) :
  exists lib,
    load (lib_source_id (library w')) (save (library w')) = (lib, Ok tt)
    /\ lib_source_id lib = sid
    /\ templates lib = templates (library w')
    /\ save lib = save (library w')
    /\ library_ok lib
    /\ forall line, snd (match_ line lib) = snd (match_ line (library w')).
Proof.
  unfold load in Hload.
  pose proof (load_ok _ _ _ (new_library_ok sid) Hload) as Hok0.
  assert (Hf0 : cache_faithful lib0).
  { eapply load_faithful; [| |exact Hload].
    - apply new_library_ok.
    - intros k r p []. }
  subst lib0.
  pose proof (phase1_ok agents py_str context lines w w' Hok0 Hrun) as Hok'.
  assert (Hf' : cache_faithful (library w')).
  { apply (phase1_inv agents py_str cache_faithful) with context lines w;
      [| |exact Hok0|exact Hf0|exact Hrun].
    - intros c lib lib' stored Hok Hf _ _. now apply add_faithful.
    - intros tid lib _. apply deactivate_faithful. }
  assert (Hsid : lib_source_id (library w') = sid).
  { transitivity (lib_source_id (library w)).
    - apply (phase1_inv agents py_str
               (fun lib => lib_source_id lib = lib_source_id (library w)))
        with context lines w; [| |exact Hok0|reflexivity|exact Hrun].
      + intros c lib lib' stored _ Hs _ _ Hadd.
        pose proof (add_spec c lib (add_Ok_id _ _ _ _ Hadd)) as Hspec. cbv zeta in Hspec.
        rewrite Hadd in Hspec.
        cbn [fst] in Hspec. destruct Hspec as (_ & -> & _). exact Hs.
      + intros tid lib _ Hs. now destruct (deactivate_frame tid lib) as (_ & _ & -> & _).
    - now apply load_sequence in Hload as (_ & -> & _). }
  destruct (load_of_save (library w') Hok' (faithful_all_compile _ (proj1 (proj2 Hok')) Hf'))
    as (lib & Hl & Ht & Hs & Hi & Hok & _).
  exists lib. split; [exact Hl|]. split; [now rewrite Hi|]. split; [exact Ht|].
  split; [exact Hs|]. split; [exact Hok|].
  intros line. apply match_same_records; try assumption.
  unfold load in Hl. eapply load_faithful; [| |exact Hl].
  - apply new_library_ok.
  - intros k r p [].
Qed.

End Persistence.

(** ** More statements on concrete runs *)

Module MoreRuns.
Import Fixture Cases.

Lemma lib_one_ok : library_ok lib_one.
Proof.
  apply (@load_ok MiniRe.engine [rec_user] (new_library "s") lib_one).
  - apply new_library_ok.
  - vm_compute. reflexivity.
Qed.

Lemma lib_two_ok : library_ok lib_two.
Proof.
  apply (@load_ok MiniRe.engine [rec_user; rec_any] (new_library "s") lib_two).
  - apply new_library_ok.
  - vm_compute. reflexivity.
Qed.

Lemma svc_two_distinct : NoDup (map InteractionTask.task_id (_queue svc_two)).
Proof.
  change (NoDup ["task-1"; "task-2"]). apply (bool_decide_unpack _). vm_compute. exact I.
Qed.

Lemma run_store_outcome :
  run_store = (fst run_store, Ok (outcome "stored" (Some "s-0002")
                                    (JStr "stored without conflict"))).
Proof. vm_compute. reflexivity. Qed.

Lemma run_pass_ends : run_pass = (fst run_pass, Ok tt).
Proof. vm_compute. reflexivity. Qed.

Lemma resolve_marks_one_witness :
  _queue (resolve "task-1" "done" svc_two)
  = map (fun t => if String.eqb (InteractionTask.task_id t) "task-1"
                  then mark_resolved "done" t else t) (_queue svc_two).
Proof.
  exact (proj1 (ServiceFacts.resolve_marks_one "task-1" "done" svc_two svc_two_distinct)).
Defined.

Lemma next_pending_is_fifo_witness :
  exists before after,
    _queue (resolve "task-1" "done" svc_two) = (before ++ task_second :: after)%list
    /\ Forall (fun t => is_pending t = false) before
    /\ is_pending task_second = true
    /\ next_pending (resolve "task-2" "seen" (resolve "task-1" "done" svc_two))
       = next_pending_in after.
Proof.
  destruct (ServiceFacts.next_pending_is_fifo (resolve "task-1" "done" svc_two) task_second
              "seen") as (before & after & Hq & Hb & Hp & Hn & _).
  - change (NoDup ["task-1"; "task-2"]). apply (bool_decide_unpack _). vm_compute. exact I.
  - vm_compute. reflexivity.
  - exists before, after. auto.
Defined.

Lemma identify_without_samples_witness :
  identify (fun _ => Raise (AgentError "offline")) ["  "; EmptyString]
  = Ok {| RoutingDecision.device_type := "unknown"; RoutingDecision.vendor := "unknown";
          RoutingDecision.reasoning := JStr "no samples provided" |}.
Proof.
  apply RouterFacts.identify_without_samples. repeat constructor.
Defined.

Lemma process_line_accounted_witness :
  outcome_accounted world_one (fst run_store)
    (outcome "stored" (Some "s-0002") (JStr "stored without conflict")).
Proof.
  exact (@process_line_accounted MiniRe.engine agents_out simple_str line_out "ctx"
           world_one (fst run_store) _ run_store_outcome).
Defined.

Lemma phase1_counts_every_line_witness :
  processed_lines (metrics (fst run_pass))
  = processed_lines (metrics world_one) + Z.of_nat (length [line_bob; line_out]).
Proof.
  exact (proj1 (@phase1_counts_every_line MiniRe.engine agents_out simple_str "ctx"
                  [line_bob; line_out] world_one (fst run_pass) run_pass_ends)).
Defined.

Lemma deactivated_never_matched_witness :
  deactivate "s-0001" (deactivate "s-0001" lib_two) = deactivate "s-0001" lib_two
  /\ ODict.keys (templates (deactivate "s-0001" lib_two)) = ODict.keys (templates lib_two).
Proof.
  destruct (@deactivated_never_matched MiniRe.engine "s-0001" lib_two lib_two_ok)
    as (_ & Htwice & _ & Hkeys & _).
  exact (conj Htwice Hkeys).
Defined.

Lemma lib_two_faithful : cache_faithful lib_two.
Proof.
  apply (@load_faithful MiniRe.engine [rec_user; rec_any] (new_library "s") lib_two).
  - apply new_library_ok.
  - intros k r p [].
  - vm_compute. reflexivity.
Qed.

Lemma save_load_round_trip_witness :
  exists lib',
    @load MiniRe.engine (lib_source_id lib_two) (save lib_two) = (lib', Ok tt)
    /\ templates lib' = templates lib_two
    /\ save lib' = save lib_two
    /\ lib_source_id lib' = lib_source_id lib_two
    /\ library_ok lib'
    /\ 1 <= _sequence lib' <= _sequence lib_two
    /\ forall line, snd (match_ line lib') = snd (match_ line lib_two).
Proof.
  exact (@save_load_round_trip MiniRe.engine lib_two lib_two_ok lib_two_faithful).
Defined.

Lemma match_all_labels_every_line_witness :
  length labelled = length [line_bob; line_of "boot"].
Proof.
  refine (proj1 (@match_all_labels_every_line MiniRe.engine lib_two
                   (fst (@match_all MiniRe.engine lib_two [line_bob; line_of "boot"]))
                   [line_bob; line_of "boot"] labelled _ _)).
  - apply lib_two_ok.
  - vm_compute. reflexivity.
Defined.

Lemma library_only_grows_witness :
  exists l,
    grown l (library world_one) (library (fst run_pass))
    /\ (length l <= length [line_bob; line_out])%nat
    /\ (snd run_pass = Ok tt ->
        learned_templates (metrics (fst run_pass))
        = learned_templates (metrics world_one) + Z.of_nat (length l)).
Proof.
  exact (@library_only_grows MiniRe.engine agents_out simple_str "ctx"
           [line_bob; line_out] world_one lib_one_ok).
Defined.

Lemma stored_without_conflict_witness :
  exists stored p,
    template_id stored = "s-0002"
    /\ @re_compile MiniRe.engine (regex stored) = Some p
    /\ templates (library (fst run_store))
       = (templates (library world_one) ++ [("s-0002", stored)])%list
    /\ examples (fst run_store) = <["s-0002" := line_out]> (examples world_one).
Proof.
  destruct (@stored_without_conflict MiniRe.engine agents_out simple_str line_out "ctx"
              world_one (fst run_store) _ (proj1 (proj2 (proj2 lib_one_ok)))
              run_store_outcome eq_refl)
    as (stored & p & _ & Hid & _ & _ & Hp & Ht & _ & He & _).
  exists stored, p. auto.
Defined.

Lemma match_after_storing_witness :
  exists stored p,
    ODict.get "s-0002" (templates (library (fst run_store))) = Some stored
    /\ _compiled (library (fst run_store)) !! "s-0002" = Some p.
Proof.
  destruct (@match_after_storing MiniRe.engine agents_out simple_str line_out "ctx"
              world_one (fst run_store) _ lib_one_ok run_store_outcome eq_refl)
    as (stored & p & Hget & Hp & _).
  exists stored, p. auto.
Defined.

Lemma blank_line_stops_the_pass_witness :
  @process_line MiniRe.engine agents_out simple_str (Preprocessing.normalize "   ") "ctx"
    world_one
  = (world_one, Raise (AgentError "no content to derive template from")).
Proof.
  exact (proj1 (@blank_line_stops_the_pass MiniRe.engine agents_out simple_str "   " "ctx"
                  world_one eq_refl)).
Defined.

Lemma cache_holds_active_templates_only_witness : cache_in_library (fst run_pass).
Proof.
  apply (@cache_holds_active_templates_only MiniRe.engine agents_out simple_str "ctx"
           [line_bob; line_out] world_one (fst run_pass) lib_one_ok).
  - intros id ln Hin. cbn in Hin. rewrite lookup_empty in Hin. discriminate.
  - exact run_pass_ends.
Defined.


Lemma library_changed_by_add_and_deactivate_only_witness :
  library_ok (library (fst run_pass)) /\ lib_source_id (library (fst run_pass)) = "s".
Proof.
  apply (@library_changed_by_add_and_deactivate_only MiniRe.engine agents_out simple_str
           (fun lib => lib_source_id lib = "s")) with "ctx" [line_bob; line_out] world_one.
  - intros c lib lib' stored _ Hs _ _ Hadd.
    pose proof (add_spec c lib (add_Ok_id _ _ _ _ Hadd)) as Hspec. cbv zeta in Hspec.
    rewrite Hadd in Hspec.
    cbn [fst] in Hspec. destruct Hspec as (_ & Hsid & _). now rewrite Hsid.
  - intros tid lib _ Hs. destruct (deactivate_frame tid lib) as (_ & _ & Hsid & _).
    now rewrite Hsid.
  - exact lib_one_ok.
  - reflexivity.
  - exact run_pass_ends.
Defined.

Lemma completed_run_can_be_reloaded_witness :
  exists lib,
    @load MiniRe.engine (lib_source_id (library (fst run_pass)))
      (save (library (fst run_pass))) = (lib, Ok tt)
    /\ lib_source_id lib = "s"
    /\ templates lib = templates (library (fst run_pass))
    /\ save lib = save (library (fst run_pass))
    /\ library_ok lib
    /\ forall line, snd (match_ line lib) = snd (match_ line (library (fst run_pass))).
Proof.
  apply (@completed_run_can_be_reloaded MiniRe.engine agents_out simple_str "s" "ctx"
           [rec_user] lib_one [line_bob; line_out] world_one (fst run_pass)).
  - vm_compute. reflexivity.
  - reflexivity.
  - exact run_pass_ends.
Defined.

End MoreRuns.
